(** * easyweb: session gate and button manager

    A shallow embedding of the three scripts of the site:
    - [Auth]   : auth.js, the credential check and the session gate;
    - [Static] : script.js, the button manager driven by config.json;
    - [Sheet]  : the button manager driven by the hosted row-store API,
                 with the local cache as fallback.

    Modelling conventions.
    - A JavaScript value is a [value]: the JSON values plus [undefined].
      A number is a rational or an infinity (every finite double is a
      rational). An object is the list of its own properties in the
      engine's enumeration order, with distinct names, and a new
      property is appended (exact for names that are not array indices).
      A function or an object of the platform found on a prototype is a
      [VNative]. A read [o.name] with one of the fixed names of the
      scripts (url, text, column, ...) reads an own property, no
      prototype of the platform having such a name; a read [o[k]] with a
      computed name goes through the prototype chain ([JS.get_dyn]),
      whose members are given by the platform. An assignment
      [o["__proto__"] = x] on an object without an own property of that
      name replaces its prototype; the model keeps the own properties as
      they are and does not keep the replaced prototype.
    - Built-ins of the platform that the scripts call but do not define
      (JSON.parse, JSON.stringify, Date.parse, the string conversions,
      the members of the prototypes, the selectors that are not class
      selectors) are the fields of the class [Platform]: the general
      theorems hold for every platform, and the concrete runs use
      [Example.platform].
    - An exception is the [Throw] outcome; [try_catch] is try/catch.
    - The page is a list of elements in document order, of a document
      in no-quirks mode; className is the classes separated by single
      spaces. The name of a button is pasted into the selectors
      [.btn.T] and [.T]: when it is a CSS identifier ([Css.is_ident])
      they select by class; when it is empty or starts with a digit
      they are not selectors and querySelectorAll throws a SyntaxError;
      for the other names the platform answers. The value assigned to
      an attribute is stored as assigned, and the elements of the page
      are not nested in one another: an assignment to textContent
      removes no element of the list, which is exact for a page whose
      elements written by the scripts have no child elements.
    - [fetch] is an oracle from requests to answers: a rejection, or a
      response whose body can be read. Every request made is appended to
      the log, as is every run of the synchronizer. An async function
      runs to completion (no interleaving), and a timer is modelled by
      the function that one of its ticks runs. *)

From stdpp Require Import base strings list gmap.
From Stdlib Require Import ZArith QArith_base DecimalString.

Local Open Scope Z_scope.
Local Open Scope string_scope.

(** ** JavaScript values *)

Inductive number :=
| NFin (q : Q)
| NInf (negative : bool).

#[warnings="-register-all"]
Inductive value :=
| VUndefined
| VNull
| VBool (b : bool)
| VNum (n : number)
| VStr (s : string)
| VArr (items : list value) (extra : list (string * value))
| VObj (props : list (string * value))
| VNative (name : string) (length : option nat).

Inductive error :=
| TypeError
| SyntaxError
| ReferenceError
| RangeError
| NetworkError
| Error.

Inductive outcome (A : Type) :=
| Ok (a : A)
| Throw (e : error).
Arguments Ok {A} a.
Arguments Throw {A} e.

(** ** The page *)

Module Page.

Record element := {
  classes : list string;
  href : value;
  textContent : value;
  title : value;
}.

Definition set_href (v : value) (e : element) : element :=
  {| classes := classes e; href := v;
     textContent := textContent e; title := title e |}.

Definition set_textContent (v : value) (e : element) : element :=
  {| classes := classes e; href := href e;
     textContent := v; title := title e |}.

Definition set_title (v : value) (e : element) : element :=
  {| classes := classes e; href := href e;
     textContent := textContent e; title := v |}.

Definition has_class (c : string) (e : element) : bool :=
  existsb (String.eqb c) (classes e).

(** the selector [.btn.T] *)
Definition matches_btn (T : string) (e : element) : bool :=
  has_class "btn" e && has_class T e.

(** [document.querySelectorAll(sel)] as the sub-list of the page *)
Definition querySelectorAll (sel : element -> bool) (d : list element)
  : list element := List.filter sel d.

(** [document.querySelector(sel)] *)
Definition querySelector (sel : element -> bool) (d : list element)
  : option element := List.find sel d.

(** [nodes.forEach(f)] for the nodes selected by [sel], in place *)
Definition update_all (sel : element -> bool) (f : element -> element)
    (d : list element) : list element :=
  map (fun e => if sel e then f e else e) d.

(** an update of the node that querySelector answers, in place *)
Fixpoint update_first (sel : element -> bool) (f : element -> element)
    (d : list element) : list element :=
  match d with
  | [] => []
  | e :: d' => if sel e then f e :: d' else e :: update_first sel f d'
  end.

(** the nodes of a selection, given by one boolean for each node of the
    page, rewritten in place *)
Definition update_mask (selection : list bool) (f : element -> element)
    (d : list element) : list element :=
  imap (fun i e => if default false (selection !! i) then f e else e) d.

(** the position of the first node of a selection *)
Fixpoint first_selected (selection : list bool) : option nat :=
  match selection with
  | [] => None
  | b :: rest => if b then Some 0%nat else S <$> first_selected rest
  end.

(** [button.className.split(' ')[1]] *)
Definition second_class (e : element) : value :=
  match classes e !! 1%nat with
  | Some c => VStr c
  | None => VUndefined
  end.

End Page.

(** Built-ins of the platform. [JSON_parse s = None] when JSON.parse
    throws; [JSON_stringify v = None] when JSON.stringify answers
    undefined; [Date_parse s = None] when the date is invalid (NaN);
    [StringToNumber s = None] when the string is not a number (NaN).
    [inherited v k] is what the prototype chain of [v] gives for a name
    [k] that [v] does not own, undefined when no prototype has it.
    [select_other sel d] is the answer of querySelectorAll on the page
    [d] for a selector [sel] that the model does not read itself: one
    boolean for each node, or the exception thrown. *)
Class Platform := {
  JSON_parse : string -> option value;
  JSON_stringify : value -> option string;
  Date_parse : string -> option Z;
  Date_toISOString : Z -> string;
  ToString : value -> string;
  StringToNumber : string -> option number;
  inherited : value -> string -> value;
  select_other : string -> list Page.element -> outcome (list bool);
}.

Module JS.

Definition of_int (z : Z) : value := VNum (NFin (Qmake z 1)).
Definition of_nat (n : nat) : value := of_int (Z.of_nat n).

(** ToBoolean *)
Definition truthy (v : value) : bool :=
  match v with
  | VUndefined | VNull => false
  | VBool b => b
  | VNum (NFin q) => negb (Z.eqb (Qnum q) 0)
  | VNum (NInf _) => true
  | VStr s => negb (String.eqb s "")
  | VArr _ _ | VObj _ | VNative _ _ => true
  end.

(** [a && b] *)
Definition and (a b : value) : value := if truthy a then b else a.

(** [a || b] *)
Definition or (a b : value) : value := if truthy a then a else b.

Definition index_key (i : nat) : string :=
  NilZero.string_of_uint (Nat.to_uint i).

Fixpoint lookup_prop (k : string) (ps : list (string * value)) : option value :=
  match ps with
  | [] => None
  | (k', v) :: ps' => if String.eqb k' k then Some v else lookup_prop k ps'
  end.

(** [o[k] = v] on the property list of an object: the value of an
    existing property is replaced in place, a new one is appended. *)
Fixpoint set_prop (k : string) (v : value) (ps : list (string * value))
  : list (string * value) :=
  match ps with
  | [] => [(k, v)]
  | (k', v') :: ps' =>
      if String.eqb k' k then (k', v) :: ps' else (k', v') :: set_prop k v ps'
  end.

Definition chars (s : string) : list value :=
  map (fun c => VStr (String c EmptyString)) (String.list_ascii_of_string s).

Definition indexed (l : list value) : list (string * value) :=
  imap (fun i x => (index_key i, x)) l.

(** The own enumerable properties, as listed by Object.entries,
    Object.keys, Object.values and the spread [{...v}]. *)
Definition own_entries (v : value) : list (string * value) :=
  match v with
  | VObj ps => ps
  | VArr items extra => indexed items ++ extra
  | VStr s => indexed (chars s)
  | _ => []
  end.

Definition index_of (k : string) (len : nat) : option nat :=
  List.find (fun i => String.eqb (index_key i) k) (seq 0 len).

Definition get_items (k : string) (items : list value)
    (extra : list (string * value)) : value :=
  if String.eqb k "length" then of_nat (length items)
  else match index_of k (length items) with
       | Some i => default VUndefined (items !! i)
       | None => default VUndefined (lookup_prop k extra)
       end.

(** The own property [k] of a value that is neither null nor
    undefined. Of a built-in the scripts read the length only, and
    names that no built-in has. *)
Definition get_own (v : value) (k : string) : value :=
  match v with
  | VObj ps => default VUndefined (lookup_prop k ps)
  | VArr items extra => get_items k items extra
  | VStr s => get_items k (chars s) []
  | VNative _ (Some n) => if String.eqb k "length" then of_nat n else VUndefined
  | _ => VUndefined
  end.

(** whether [v] has an own property [k] *)
Definition has_own (v : value) (k : string) : bool :=
  match v with
  | VObj ps => bool_decide (is_Some (lookup_prop k ps))
  | VArr items extra =>
      String.eqb k "length"
      || bool_decide (is_Some (index_of k (length items)))
      || bool_decide (is_Some (lookup_prop k extra))
  | VStr s =>
      String.eqb k "length"
      || bool_decide (is_Some (index_of k (length (chars s))))
  | VNative _ (Some _) => String.eqb k "length"
  | _ => false
  end.

(** [v.k] for one of the names that the scripts write in full, none of
    which is a member of a prototype of the platform: a TypeError on
    null and undefined. *)
Definition get (v : value) (k : string) : outcome value :=
  match v with
  | VUndefined | VNull => Throw TypeError
  | _ => Ok (get_own v k)
  end.

(** Object.entries(v), Object.keys(v), Object.values(v) *)
Definition Object_entries (v : value) : outcome (list (string * value)) :=
  match v with
  | VUndefined | VNull => Throw TypeError
  | _ => Ok (own_entries v)
  end.

(** [{...a, ...b}]: the spread never throws. *)
Definition spread (a b : value) : list (string * value) :=
  fold_left (fun ps kv => set_prop kv.1 kv.2 ps) (own_entries b)
    (fold_left (fun ps kv => set_prop kv.1 kv.2 ps) (own_entries a) []).

(** the value of an existing property replaced in place; nothing is
    added *)
Fixpoint replace_prop (k : string) (v : value) (ps : list (string * value))
  : list (string * value) :=
  match ps with
  | [] => []
  | (k', v') :: ps' =>
      if String.eqb k' k then (k', v) :: ps' else (k', v') :: replace_prop k v ps'
  end.

(** [target.k = x] in strict mode, for one of the names that the
    scripts write in full (url, lastUpdated): a TypeError on a
    primitive; a property set on a built-in is not kept. *)
Definition assign_named (target : value) (k : string) (x : value)
  : outcome value :=
  match target with
  | VObj ps => Ok (VObj (set_prop k x ps))
  | VArr items extra => Ok (VArr items (set_prop k x extra))
  | VNative _ _ => Ok target
  | _ => Throw TypeError
  end.

(** [c[k] = x] in strict mode, for a computed name [k] and an object
    [x]: an array refuses an object as its length; the name __proto__,
    when [c] has no own property of that name, replaces the prototype
    and adds no property; a property set on a built-in is not kept. *)
Definition assign_existing (c : value) (k : string) (x : value)
  : outcome value :=
  match c with
  | VObj ps =>
      if String.eqb k "__proto__" && negb (bool_decide (is_Some (lookup_prop k ps)))
      then Ok c
      else Ok (VObj (set_prop k x ps))
  | VArr items extra =>
      if String.eqb k "length" then Throw RangeError
      else match index_of k (length items) with
           | Some i => Ok (VArr (<[i:=x]> items) extra)
           | None =>
               if String.eqb k "__proto__"
                  && negb (bool_decide (is_Some (lookup_prop k extra)))
               then Ok c
               else Ok (VArr items (set_prop k x extra))
           end
  | VNative _ _ => Ok c
  | _ => Throw TypeError
  end.

(** the container [c] once the object it holds under [k] has been
    mutated into [x] *)
Definition replace_at (c : value) (k : string) (x : value) : value :=
  match c with
  | VObj ps => VObj (replace_prop k x ps)
  | VArr items extra =>
      match index_of k (length items) with
      | Some i => VArr (<[i:=x]> items) extra
      | None => VArr items (replace_prop k x extra)
      end
  | _ => c
  end.

Definition replace_nth (i : nat) (x : value) (ps : list (string * value))
  : list (string * value) :=
  alter (fun kv => (kv.1, x)) i ps.

(** the container [c] once the object that is its [i]-th own entry has
    been mutated into [x] *)
Definition replace_entry (c : value) (i : nat) (x : value) : value :=
  match c with
  | VObj ps => VObj (replace_nth i x ps)
  | VArr items extra =>
      if Nat.ltb i (length items) then VArr (<[i:=x]> items) extra
      else VArr items (replace_nth (i - length items) x extra)
  | _ => c
  end.

(** [v === 0] *)
Definition is_zero (v : value) : bool :=
  match v with
  | VNum (NFin q) => Z.eqb (Qnum q) 0
  | _ => false
  end.

(** [v === s] for a string [s] *)
Definition strict_eq_str (v : value) (s : string) : bool :=
  match v with
  | VStr t => String.eqb t s
  | _ => false
  end.

(** [v !== undefined] *)
Definition is_undefined (v : value) : bool :=
  match v with
  | VUndefined => true
  | _ => false
  end.

Section WithPlatform.
Context `{Platform}.

(** ToPropertyKey, for a computed member access [o[v]] *)
Definition to_key (v : value) : string :=
  match v with
  | VStr s => s
  | _ => ToString v
  end.

(** ToNumber; [None] is NaN. *)
Definition to_number (v : value) : option number :=
  match v with
  | VUndefined => None
  | VNull => Some (NFin (Qmake 0 1))
  | VBool b => Some (NFin (Qmake (if b then 1 else 0) 1))
  | VNum n => Some n
  | VStr s => StringToNumber s
  | VArr _ _ | VObj _ | VNative _ _ => StringToNumber (ToString v)
  end.

(** [v > 0] *)
Definition gt_zero (v : value) : bool :=
  match to_number v with
  | Some (NFin q) => Z.ltb 0 (Qnum q)
  | Some (NInf negative) => negb negative
  | None => false
  end.

(** TimeClip: the time value of a number, [None] for an invalid date. *)
Definition TimeClip (n : number) : option Z :=
  match n with
  | NInf _ => None
  | NFin q =>
      if Z.ltb (8640000000000000 * Z.pos (Qden q)) (Z.abs (Qnum q)) then None
      else Some (Z.quot (Qnum q) (Z.pos (Qden q)))
  end.

(** [new Date(v)]: the time value, [None] for an invalid date. *)
Definition new_Date (v : value) : option Z :=
  match v with
  | VStr s => Date_parse s
  | VArr _ _ | VObj _ | VNative _ _ => Date_parse (ToString v)
  | _ => to_number v ≫= TimeClip
  end.

(** [d > new Date()], the current time being [now]. *)
Definition date_after (d : option Z) (now : Z) : bool :=
  match d with
  | Some t => Z.ltb now t
  | None => false
  end.

(** the member [k] of a value that is neither null nor undefined: the
    own property when [v] has one, otherwise what the prototype chain
    gives *)
Definition member (v : value) (k : string) : value :=
  if has_own v k then get_own v k else inherited v k.

(** [v[k]] for a computed name [k]: a TypeError on null and undefined. *)
Definition get_dyn (v : value) (k : string) : outcome value :=
  match v with
  | VUndefined | VNull => Throw TypeError
  | _ => Ok (member v k)
  end.

(** JSON.parse as a computation that throws. *)
Definition parse (s : string) : outcome value :=
  match JSON_parse s with
  | Some v => Ok v
  | None => Throw SyntaxError
  end.

End WithPlatform.

(** try { c } catch (e) { h e }, without state *)
Definition try_catch {A} (c : outcome A) (h : error -> outcome A) : outcome A :=
  match c with
  | Ok a => Ok a
  | Throw e => h e
  end.

Definition bind {A B} (c : outcome A) (k : A -> outcome B) : outcome B :=
  match c with
  | Ok a => k a
  | Throw e => Throw e
  end.

End JS.

Notation "'let*' x := c 'in' k" := (JS.bind c (fun x => k))
  (at level 10, x name, c at level 100, k at level 200).

(** ** Selectors made of the name of a button *)

Module Css.
Import Page.

Definition letter (c : Ascii.ascii) : bool :=
  let n := Ascii.nat_of_ascii c in
  (Nat.leb 65 n && Nat.leb n 90) || (Nat.leb 97 n && Nat.leb n 122).

Definition digit (c : Ascii.ascii) : bool :=
  let n := Ascii.nat_of_ascii c in
  Nat.leb 48 n && Nat.leb n 57.

(** a character that can start a name: a letter or the underscore *)
Definition name_start (c : Ascii.ascii) : bool :=
  letter c || Nat.eqb (Ascii.nat_of_ascii c) 95.

(** a character of a name: a letter, a digit, the underscore or the
    hyphen *)
Definition name_char (c : Ascii.ascii) : bool :=
  name_start c || digit c || Nat.eqb (Ascii.nat_of_ascii c) 45.

Fixpoint all_chars (p : Ascii.ascii -> bool) (s : string) : bool :=
  match s with
  | EmptyString => true
  | String c rest => p c && all_chars p rest
  end.

(** An identifier of CSS written without escapes in letters, digits,
    underscores and hyphens: it starts with a letter or an underscore,
    or with a hyphen followed by one. *)
Definition is_ident (T : string) : bool :=
  match T with
  | EmptyString => false
  | String c rest =>
      if name_start c then all_chars name_char rest
      else if Nat.eqb (Ascii.nat_of_ascii c) 45 then
        match rest with
        | EmptyString => false
        | String c' rest' => name_start c' && all_chars name_char rest'
        end
      else false
  end.

(** What the text of a name makes of the selectors [.btn.T] and [.T]:
    class selectors when it is an identifier; no selector at all when
    it is empty or starts with a digit (a dot must be followed by an
    identifier, and a dot followed by a digit starts a number);
    anything else is left to the platform. *)
Inductive kind :=
| Identifier
| Invalid
| Other.

Definition classify (T : string) : kind :=
  if is_ident T then Identifier
  else match T with
       | EmptyString => Invalid
       | String c _ => if digit c then Invalid else Other
       end.

Section WithPlatform.
Context `{Platform}.

(** the answer of the platform, one boolean for each node of the page *)
Definition other (sel : string) (d : list element) : outcome (list bool) :=
  let* selection := select_other sel d in
  Ok (imap (fun i _ => default false (selection !! i)) d).

(** [document.querySelectorAll(`.btn.${T}`)] *)
Definition select_btn (T : string) (d : list element) : outcome (list bool) :=
  match classify T with
  | Identifier => Ok (map (matches_btn T) d)
  | Invalid => Throw SyntaxError
  | Other => other (".btn." ++ T) d
  end.

(** [document.querySelectorAll(`.${T}`)] *)
Definition select_class (T : string) (d : list element) : outcome (list bool) :=
  match classify T with
  | Identifier => Ok (map (has_class T) d)
  | Invalid => Throw SyntaxError
  | Other => other ("." ++ T) d
  end.

End WithPlatform.

End Css.

(** ** auth.js *)

Module Auth.

Record credential := {
  username : string;
  password : string;
  role : string;
}.

Definition AUTH_CONFIG_users : list credential :=
  [ {| username := "admin"; password := "G9m#tX2!pV7q@Lz4"; role := "admin" |} ].

(** [users.find(u => u.username === username && u.password === password)],
    then the result object. *)
Definition authenticate_in (users : list credential) (username' password' : value)
  : value :=
  match List.find (fun u => JS.strict_eq_str username' (username u)
                            && JS.strict_eq_str password' (password u)) users with
  | Some user =>
      VObj [ ("authenticated", VBool true);
             ("username", VStr (username user));
             ("role", VStr (role user)) ]
  | None => VObj [ ("authenticated", VBool false) ]
  end.

Definition authenticate : value -> value -> value :=
  authenticate_in AUTH_CONFIG_users.

Section WithPlatform.
Context `{Platform}.

(** The body of the try block of isAuthenticated: the destructuring of
    the parsed marker throws on null. *)
Definition isAuthenticated_body (authData : string) (now : Z) : outcome value :=
  let* marker := JS.parse authData in
  let* username := JS.get marker "username" in
  let* token := JS.get marker "token" in
  let* expires := JS.get marker "expires" in
  Ok (JS.and (JS.and username token)
             (VBool (JS.date_after (JS.new_Date expires) now))).

Definition isAuthenticated (localStorage : gmap string string) (now : Z)
  : outcome value :=
  match localStorage !! "auth" with
  | None => Ok (VBool false)
  | Some authData =>
      if negb (JS.truthy (VStr authData)) then Ok (VBool false)
      else JS.try_catch (isAuthenticated_body authData now)
                        (fun _ => Ok (VBool false))
  end.

Definition getCurrentUser (localStorage : gmap string string) : outcome value :=
  match localStorage !! "auth" with
  | None => Ok VNull
  | Some authData =>
      if negb (JS.truthy (VStr authData)) then Ok VNull
      else JS.try_catch (JS.parse authData) (fun _ => Ok VNull)
  end.

End WithPlatform.

End Auth.

(** ** Effects: state and exceptions *)

Module Eff.

Definition M (S A : Type) : Type := S -> outcome A * S.

Definition ret {S A} (a : A) : M S A := fun s => (Ok a, s).

Definition throw {S A} (e : error) : M S A := fun s => (Throw e, s).

Definition bind {S A B} (c : M S A) (k : A -> M S B) : M S B :=
  fun s =>
    match c s with
    | (Ok a, s') => k a s'
    | (Throw e, s') => (Throw e, s')
    end.

(** try { c } catch (e) { h e }: the state reached at the throw is kept. *)
Definition try_catch {S A} (c : M S A) (h : error -> M S A) : M S A :=
  fun s =>
    match c s with
    | (Ok a, s') => (Ok a, s')
    | (Throw e, s') => h e s'
    end.

Definition lift {S A} (o : outcome A) : M S A := fun s => (o, s).

Definition gets {S A} (f : S -> A) : M S A := fun s => (Ok (f s), s).

Definition modify {S} (f : S -> S) : M S unit := fun s => (Ok tt, f s).

(** [l.forEach(f)]: a throw ends the iteration. *)
Fixpoint for_each {S A} (l : list A) (f : A -> M S unit) : M S unit :=
  match l with
  | [] => ret tt
  | x :: l' => bind (f x) (fun _ => for_each l' f)
  end.

End Eff.

Notation "x <- c ;; k" := (Eff.bind c (fun x => k))
  (at level 100, c at next level, right associativity).
Notation "c ;; k" := (Eff.bind c (fun _ => k))
  (at level 100, right associativity).

(** ** The network *)


Module Net.

Record request := {
  method : string;
  url : string;
  body : option string;
}.

Definition GET (u : string) : request :=
  {| method := "GET"; url := u; body := None |}.

(** what fetch resolves to: a rejection, or a response with its [ok]
    flag and its body *)
Inductive answer :=
| Rejected
| Response (ok : bool) (text : string).

Inductive event :=
| Fetched (r : request)
| Synchronized.

Definition is_sync (e : event) : bool :=
  match e with
  | Synchronized => true
  | Fetched _ => false
  end.

(** the number of runs of the synchronizer recorded in a log *)
Definition syncs (l : list event) : nat := length (List.filter is_sync l).

Definition requests (l : list event) : list request :=
  omap (fun e => match e with Fetched r => Some r | Synchronized => None end) l.

End Net.

(** ** script.js: the button manager driven by config.json *)

Module Static.
Import Eff Page Net.

Record state := {
  config : value;
  document : list element;
  log : list event;
}.

Record world := {
  fetch : request -> answer;
  now : Z;
}.

Definition set_config (c : value) (s : state) : state :=
  {| config := c; document := document s; log := log s |}.

Definition set_document (d : list element) (s : state) : state :=
  {| config := config s; document := d; log := log s |}.

Definition add_event (e : event) (s : state) : state :=
  {| config := config s; document := document s; log := log s ++ [e] |}.

Definition configPath : string := "./config.json".

Definition DEFAULT_CONFIG : value :=
  VObj [ ("buttons", VObj [
    ("primary", VObj [ ("text", VStr "Get Started"); ("url", VStr "#") ]);
    ("secondary", VObj [ ("text", VStr "Learn More"); ("url", VStr "#") ]);
    ("accent", VObj [ ("text", VStr "Join Now"); ("url", VStr "#") ]) ]) ].

(** [await fetch(r)]: the request is logged; a rejection throws. *)
Definition do_fetch (w : world) (r : request) : M state (bool * string) :=
  modify (add_event (Fetched r)) ;;
  match fetch w r with
  | Rejected => throw NetworkError
  | Response ok text => ret (ok, text)
  end.

(** the writes of updateButtons on the element of a button *)
Definition write_config (buttonConfig : value) (e : element) : element :=
  let e1 := set_href (JS.get_own buttonConfig "url") e in
  let e2 := set_textContent (JS.get_own buttonConfig "text") e1 in
  if JS.truthy (JS.get_own buttonConfig "description")
  then set_title (JS.get_own buttonConfig "description") e2
  else e2.

Section WithPlatform.
Context `{Platform}.

(** [buttons[buttonType]] reads an own property: the name is one of
    Object.keys(buttons). *)
Definition updateButtons : M state unit :=
  modify (add_event Synchronized) ;;
  c <- gets config ;;
  buttons <- lift (JS.get c "buttons") ;;
  entries <- lift (JS.Object_entries buttons) ;;
  for_each (map fst entries) (fun buttonType =>
    d <- gets document ;;
    found <- lift (Css.select_btn buttonType d) ;;
    match first_selected found with
    | Some i =>
        let buttonConfig := JS.get_own buttons buttonType in
        _ <- lift (JS.get buttonConfig "url") ;;
        modify (set_document (alter (write_config buttonConfig) i d))
    | None => ret tt
    end).

Definition loadConfig (w : world) : M state unit :=
  try_catch
    (r <- do_fetch w (GET configPath) ;;
     if negb r.1 then throw Error
     else c <- lift (JS.parse r.2) ;;
          modify (set_config c))
    (fun _ => modify (set_config DEFAULT_CONFIG)).

(** one tick of the timer of setupConfigWatcher *)
Definition setupConfigWatcher_tick (w : world) : M state unit :=
  try_catch
    (r <- do_fetch w (GET (configPath ++ "?t=" ++ ToString (JS.of_int (now w)))) ;;
     if r.1 then
       newConfig <- lift (JS.parse r.2) ;;
       c <- gets config ;;
       if negb (bool_decide (JSON_stringify newConfig = JSON_stringify c)) then
         modify (set_config newConfig) ;;
         updateButtons
       else ret tt
     else ret tt)
    (fun _ => ret tt).

Definition init (w : world) : M state unit :=
  try_catch
    (loadConfig w ;;
     updateButtons)
    (fun _ => ret tt).

Definition reload (w : world) : M state unit :=
  loadConfig w ;;
  updateButtons.

End WithPlatform.

End Static.

(** ** The button manager driven by the hosted row-store API *)

Module Sheet.
Import Eff Page Net.

Record state := {
  buttons : value;
  config : value;
  localStorage : gmap string string;
  document : list element;
  log : list event;
}.

Record world := {
  fetch : request -> answer;
  on_admin_page : bool;
  now : Z;
}.

Definition set_buttons (b : value) (s : state) : state :=
  {| buttons := b; config := config s; localStorage := localStorage s;
     document := document s; log := log s |}.

Definition set_config (c : value) (s : state) : state :=
  {| buttons := buttons s; config := c; localStorage := localStorage s;
     document := document s; log := log s |}.

Definition setItem (k v : string) (s : state) : state :=
  {| buttons := buttons s; config := config s;
     localStorage := <[k:=v]> (localStorage s);
     document := document s; log := log s |}.

Definition set_document (d : list element) (s : state) : state :=
  {| buttons := buttons s; config := config s; localStorage := localStorage s;
     document := d; log := log s |}.

Definition add_event (e : event) (s : state) : state :=
  {| buttons := buttons s; config := config s; localStorage := localStorage s;
     document := document s; log := log s ++ [e] |}.

Definition SHEETDB_API : string := "https://sheetdb.io/api/v1/ixretu8my1aw8".

Definition DEFAULT_BUTTONS : value :=
  VObj [
    ("primary", VObj [ ("text", VStr "Get Started"); ("url", VStr "#");
                       ("column", VStr "btn1");
                       ("displayText", VStr "Get Started") ]);
    ("secondary", VObj [ ("text", VStr "Learn More"); ("url", VStr "#");
                         ("column", VStr "btn2");
                         ("displayText", VStr "Learn More") ]);
    ("accent", VObj [ ("text", VStr "Join Now"); ("url", VStr "#");
                      ("column", VStr "btn3");
                      ("displayText", VStr "Join Now") ]) ].

(** the state that the constructor leaves, before init runs *)
Definition constructed (storage : gmap string string) (page : list element)
  : state :=
  {| buttons := DEFAULT_BUTTONS; config := VUndefined;
     localStorage := storage; document := page; log := [] |}.

(** [await fetch(r)]: the request is logged; a rejection throws. *)
Definition do_fetch (w : world) (r : request) : M state (bool * string) :=
  modify (add_event (Fetched r)) ;;
  match fetch w r with
  | Rejected => throw NetworkError
  | Response ok text => ret (ok, text)
  end.

(** the nodes that updateButtons selects for a button name that is an
    identifier: those of [.btn.T], or those of [.T] when there is none *)
Definition selected (type : string) (d : list element) : element -> bool :=
  if existsb (matches_btn type) d then matches_btn type else has_class type.

(** the writes of updateButtons on one selected node *)
Definition write_button (data : value) (e : element) : element :=
  let e1 := if JS.truthy (JS.get_own data "url")
            then set_href (JS.get_own data "url") e else e in
  let e2 := if JS.truthy (JS.get_own data "displayText")
            then set_textContent (JS.get_own data "displayText") e1
            else if JS.truthy (JS.get_own data "text")
                 then set_textContent (JS.get_own data "text") e1
                 else e1 in
  if JS.truthy (JS.get_own data "description")
  then set_title (JS.get_own data "description") e2
  else e2.

Section WithPlatform.
Context `{Platform}.

(** the nodes of [.btn.T], or those of [.T] when there is none *)
Definition select (type : string) (d : list element) : outcome (list bool) :=
  let* found := Css.select_btn type d in
  if existsb id found then Ok found else Css.select_class type d.

Definition updateButtons : M state unit :=
  modify (add_event Synchronized) ;;
  bs <- gets buttons ;;
  if negb (JS.truthy bs) then ret tt
  else
    entries <- lift (JS.Object_entries bs) ;;
    for_each entries (fun '(type, data) =>
      d <- gets document ;;
      nodes <- lift (select type d) ;;
      if existsb id nodes then
        _ <- lift (JS.get data "url") ;;
        modify (set_document (update_mask nodes (write_button data) d))
      else ret tt).

(** [localStorage.setItem('buttonData', JSON.stringify(this.buttons))] *)
Definition save_buttons : M state unit :=
  bs <- gets buttons ;;
  modify (setItem "buttonData" (default "undefined" (JSON_stringify bs))).

Definition loadFromLocalStorage : M state value :=
  try_catch
    (savedData <- gets (fun s => localStorage s !! "buttonData") ;;
     match savedData with
     | Some sd =>
         if JS.truthy (VStr sd) then
           v <- lift (JS.parse sd) ;;
           modify (set_buttons v) ;;
           updateButtons ;;
           ret (VBool true)
         else ret (VBool false)
     | None => ret (VBool false)
     end)
    (fun _ => ret (VBool false)).

(** the callback of the forEach of loadConfig on the [i]-th button;
    the answer is the new value of hasUpdates *)
Definition loadConfig_button (row : value) (hasUpdates : bool)
    (i : nat) (button : value) : M state bool :=
  column <- lift (JS.get button "column") ;;
  cell <- lift (JS.get_dyn row (JS.to_key column)) ;;
  if negb (JS.is_undefined cell) then
    button' <- lift (JS.assign_named button "url" cell) ;;
    bs <- gets buttons ;;
    modify (set_buttons (JS.replace_entry bs i button')) ;;
    ret true
  else ret hasUpdates.

Fixpoint loadConfig_buttons (row : value) (hasUpdates : bool) (i : nat)
    (entries : list (string * value)) : M state bool :=
  match entries with
  | [] => ret hasUpdates
  | (_, button) :: rest =>
      h <- loadConfig_button row hasUpdates i button ;;
      loadConfig_buttons row h (S i) rest
  end.

Definition loadConfig (w : world) : M state value :=
  try_catch
    (r <- do_fetch w (GET SHEETDB_API) ;;
     if negb r.1 then throw Error
     else
       data <- lift (JS.parse r.2) ;;
       if JS.truthy data && JS.gt_zero (JS.get_own data "length") then
         let row := JS.get_own data "0" in
         bs <- gets buttons ;;
         entries <- lift (JS.Object_entries bs) ;;
         hasUpdates <- loadConfig_buttons row false 0 entries ;;
         if hasUpdates : bool then
           save_buttons ;;
           ret (VBool true)
         else ret (VBool false)
       else ret (VBool false))
    (fun _ => loadFromLocalStorage).

(** the callback of the forEach of loadButtonData *)
Definition loadButtonData_button (row : value) (buttonType : string)
    (button : value) : M state unit :=
  columnName <- lift (JS.get button "column") ;;
  cell <- lift (JS.get_dyn row (JS.to_key columnName)) ;;
  if negb (JS.is_undefined cell) && negb (JS.strict_eq_str cell "") then
    bs <- gets buttons ;;
    target <- lift (JS.get_dyn bs buttonType) ;;
    target' <- lift (JS.assign_named target "url" cell) ;;
    modify (set_buttons (JS.replace_at bs buttonType target'))
  else ret tt.

Definition loadButtonData (w : world) : M state value :=
  try_catch
    (r <- do_fetch w (GET (SHEETDB_API ++ "?sheet=Sheet1")) ;;
     (if r.1 then
        data <- lift (JS.parse r.2) ;;
        if JS.truthy data && JS.gt_zero (JS.get_own data "length") then
          let row := JS.get_own data "0" in
          bs <- gets buttons ;;
          entries <- lift (JS.Object_entries bs) ;;
          for_each entries (fun '(buttonType, button) =>
            loadButtonData_button row buttonType button) ;;
          save_buttons
        else ret tt
      else
        savedData <- gets (fun s => localStorage s !! "buttonData") ;;
        match savedData with
        | Some sd =>
            if JS.truthy (VStr sd) then
              v <- lift (JS.parse sd) ;;
              modify (set_buttons v)
            else ret tt
        | None => ret tt
        end) ;;
     (if on_admin_page w then ret tt else updateButtons) ;;
     ret (VBool true))
    (fun _ => ret (VBool false)).

(** [updates.url || button.url] *)
Definition url_of (updates button : value) : M state value :=
  u <- lift (JS.get updates "url") ;;
  if JS.truthy u then ret u else lift (JS.get button "url").

(** [this.buttons.NAME.url] *)
Definition button_url (name : string) : M state value :=
  bs <- gets buttons ;;
  b <- lift (JS.get bs name) ;;
  lift (JS.get b "url").

(** the try block of updateButton up to the write to the cache. In the
    branch of an existing row the log statement reads [rowId], which is
    not defined: the ReferenceError is thrown before the PATCH request
    is built. *)
Definition persist (w : world) (buttonType : string) (updates : value)
  : M state unit :=
  bs <- gets buttons ;;
  button <- lift (JS.get_dyn bs buttonType) ;;
  url <- url_of updates button ;;
  column <- lift (JS.get button "column") ;;
  r <- do_fetch w (GET SHEETDB_API) ;;
  if negb r.1 then throw Error
  else
    data <- try_catch (lift (JS.parse r.2)) (fun _ => throw Error) ;;
    if negb (JS.truthy data) || JS.is_zero (JS.get_own data "length") then
      btn1 <- button_url "primary" ;;
      btn2 <- button_url "secondary" ;;
      btn3 <- button_url "accent" ;;
      let payload :=
        VObj [ ("data", VArr [ VObj [ ("btn1", btn1); ("btn2", btn2);
                                      ("btn3", btn3) ] ] []) ] in
      cr <- do_fetch w {| method := "POST"; url := SHEETDB_API;
                          body := JSON_stringify payload |} ;;
      if negb cr.1 then throw Error else ret tt
    else
      let row := JS.get_own data "0" in
      if negb (JS.truthy row) then throw Error
      else
        let rowKey := default VUndefined
                        (head (map (fun kv => VStr kv.1) (JS.own_entries row))) in
        if negb (JS.truthy rowKey) then throw Error
        else throw ReferenceError.

Definition updateButton (w : world) (buttonType : string) (updates : value)
  : M state value :=
  bs <- gets buttons ;;
  old <- lift (JS.get_dyn bs buttonType) ;;
  if negb (JS.truthy old) then ret (VBool false)
  else
    bs1 <- lift (JS.assign_existing bs buttonType
                   (VObj (JS.spread old updates))) ;;
    modify (set_buttons bs1) ;;
    merged <- lift (JS.get_dyn bs1 buttonType) ;;
    merged' <- lift (JS.assign_named merged "lastUpdated"
                       (VStr (Date_toISOString (now w)))) ;;
    modify (set_buttons (JS.replace_at bs1 buttonType merged')) ;;
    updateButtons ;;
    try_catch
      (persist w buttonType updates ;;
       save_buttons ;;
       ret (VBool true))
      (fun _ =>
         save_buttons ;;
         ret (VBool false)).

(** the callback of the forEach of init on the [i]-th node of the page,
    when it has the class btn *)
Definition init_button (i : nat) (button : element) : M state unit :=
  let type := JS.to_key (second_class button) in
  bs <- gets buttons ;;
  b <- lift (JS.get_dyn bs type) ;;
  if JS.truthy b then
    url <- lift (JS.get b "url") ;;
    text <- lift (JS.get b "text") ;;
    d <- gets document ;;
    modify (set_document
              (alter (fun e => set_textContent text (set_href url e)) i d))
  else ret tt.

Definition init (w : world) : M state unit :=
  try_catch
    (loadButtonData w ;;
     if on_admin_page w then ret tt else updateButtons)
    (fun _ => loadFromLocalStorage ;; ret tt) ;;
  if on_admin_page w then ret tt
  else
    d <- gets document ;;
    for_each (imap (fun i e => (i, e)) d) (fun '(i, button) =>
      if has_class "btn" button then init_button i button else ret tt).

(** one tick of the timer that init sets: loadButtonData *)
Definition poll_tick (w : world) : M state value := loadButtonData w.

(** one tick of the timer of startPolling *)
Definition startPolling_tick (w : world) : M state unit :=
  try_catch
    (r <- do_fetch w (GET ("config.json" ++ "?t=" ++ ToString (JS.of_int (now w)))) ;;
     if r.1 then
       newConfig <- lift (JS.parse r.2) ;;
       c <- gets config ;;
       if negb (bool_decide (JSON_stringify newConfig = JSON_stringify c)) then
         modify (set_config newConfig) ;;
         updateButtons
       else ret tt
     else ret tt)
    (fun _ => ret tt).

Definition reload (w : world) : M state unit :=
  loadConfig w ;;
  updateButtons.

Definition updateButtonConfig (buttonType : string) (newConfig : value)
  : M state unit :=
  c <- gets config ;;
  bs <- lift (JS.get c "buttons") ;;
  old <- lift (JS.get_dyn bs buttonType) ;;
  if JS.truthy old then
    bs' <- lift (JS.assign_existing bs buttonType
                   (VObj (JS.spread old newConfig))) ;;
    modify (set_config (JS.replace_at c "buttons" bs')) ;;
    updateButtons
  else ret tt.

End WithPlatform.

End Sheet.

(** ** Concrete inputs *)

Module Example.

(** the double quote *)
Definition dq : string := String (Ascii.ascii_of_nat 34) EmptyString.

(** a JSON string literal without escapes *)
Definition quoted (s : string) : string := dq ++ s ++ dq.

(** The JSON text of a value built from null, booleans, integers,
    strings without escapes, arrays and objects, as JSON.stringify
    writes it: a member that is undefined or a function is left out. *)
Fixpoint text_of (v : value) : string :=
  match v with
  | VUndefined | VNull | VNative _ (Some _) => "null"
  | VNative _ None => "{}"
  | VBool b => if b then "true" else "false"
  | VNum (NFin q) =>
      NilZero.string_of_int (Z.to_int (Z.quot (Qnum q) (Z.pos (Qden q))))
  | VNum (NInf _) => "null"
  | VStr s => quoted s
  | VArr items _ => "[" ++ String.concat "," (map text_of items) ++ "]"
  | VObj props =>
      "{" ++ String.concat ","
        ((fix members (ps : list (string * value)) : list string :=
            match ps with
            | [] => []
            | (k, x) :: ps' =>
                match x with
                | VUndefined | VNative _ (Some _) => members ps'
                | _ => (quoted k ++ ":" ++ text_of x) :: members ps'
                end
            end) props) ++ "}"
  end.

(** a session marker with an empty username, a token, and an expiry on
    2100-01-01 as a time value *)
Definition marker_empty_username : value :=
  VObj [ ("username", VStr ""); ("token", VStr "t");
         ("expires", JS.of_int 4102444800000) ].

Definition marker_empty_username_text : string :=
  text_of marker_empty_username.

(** a session marker without any field *)
Definition marker_empty : value := VObj [].

(** a session marker of the admin that expires on 2100-01-01 *)
Definition marker_admin : value :=
  VObj [ ("username", VStr "admin"); ("token", VStr "t");
         ("expires", JS.of_int 4102444800000) ].

(** a session marker of the admin whose expiry is not a date *)
Definition marker_bad_expires : value :=
  VObj [ ("username", VStr "admin"); ("token", VStr "t");
         ("expires", VStr "soon") ].

Definition marker_bad_expires_text : string := text_of marker_bad_expires.

Definition button (text url column : string) : value :=
  VObj [ ("text", VStr text); ("url", VStr url); ("column", VStr column);
         ("displayText", VStr text) ].

(** a snapshot, as an earlier visit has cached it *)
Definition cached : value :=
  VObj [ ("primary", button "Get Started" "https://example.com/start" "btn1");
         ("secondary", button "Learn More" "https://example.com/more" "btn2");
         ("accent", button "Join Now" "https://example.com/join" "btn3") ].

(** a snapshot without the secondary and accent buttons *)
Definition partial : value :=
  VObj [ ("primary", button "Get Started" "https://example.com/start" "btn1") ].

(** the rows of the hosted API when no destination has been set *)
Definition rows_unset : value :=
  VArr [ VObj [ ("btn1", VStr "#"); ("btn2", VStr "#"); ("btn3", VStr "#") ] ] [].

(** a config.json *)
Definition static_buttons : value :=
  VObj [ ("primary", VObj [ ("text", VStr "Go");
                            ("url", VStr "https://example.com/go") ]);
         ("secondary", VObj [ ("text", VStr "Read");
                              ("url", VStr "https://example.com/read") ]);
         ("accent", VObj [ ("text", VStr "Join");
                           ("url", VStr "https://example.com/join") ]) ].

Definition static_config : value := VObj [ ("buttons", static_buttons) ].

(** the rows of the hosted API when the sheet is empty *)
Definition rows_none : value := VArr [] [].

(** a snapshot with a button whose name is a list of selectors *)
Definition selector_snapshot : value :=
  VObj [ ("zz,[title=tip]", VObj [ ("url", VStr "https://example.com/x") ]);
         ("primary", VObj [ ("description", VStr "tip") ]) ].

(** a snapshot with a button whose name starts with a digit *)
Definition cached_2nd : value :=
  VObj [ ("primary", button "Get Started" "https://example.com/start" "btn1");
         ("2nd", button "Second" "https://example.com/second" "btn2") ].

Definition json_values : list value :=
  [ marker_empty_username; marker_bad_expires; marker_admin; marker_empty;
    cached; partial; rows_unset; static_config; rows_none; cached_2nd ].

Definition json_table : list (string * value) :=
  map (fun v => (text_of v, v)) json_values.

(** the conversion to a string of the values that the examples convert *)
Definition to_string (v : value) : string :=
  match v with
  | VUndefined => "undefined"
  | VStr s => s
  | VArr _ _ | VObj _ => "[object Object]"
  | VNative name _ => name
  | _ => text_of v
  end.

(** the members of Object.prototype: eleven functions, with their
    numbers of parameters, and the accessor __proto__, which answers the
    prototype itself *)
Definition Object_prototype : list (string * value) :=
  [ ("constructor", VNative "Object" (Some 1%nat));
    ("__defineGetter__", VNative "__defineGetter__" (Some 2%nat));
    ("__defineSetter__", VNative "__defineSetter__" (Some 2%nat));
    ("hasOwnProperty", VNative "hasOwnProperty" (Some 1%nat));
    ("__lookupGetter__", VNative "__lookupGetter__" (Some 1%nat));
    ("__lookupSetter__", VNative "__lookupSetter__" (Some 1%nat));
    ("isPrototypeOf", VNative "isPrototypeOf" (Some 1%nat));
    ("propertyIsEnumerable", VNative "propertyIsEnumerable" (Some 1%nat));
    ("toString", VNative "toString" (Some 0%nat));
    ("valueOf", VNative "valueOf" (Some 0%nat));
    ("__proto__", VNative "Object.prototype" None);
    ("toLocaleString", VNative "toLocaleString" (Some 0%nat)) ].

(** what an object inherits; of the other values the examples read no
    inherited name *)
Definition inherits (v : value) (k : string) : value :=
  match v with
  | VObj _ => default VUndefined (JS.lookup_prop k Object_prototype)
  | _ => VUndefined
  end.

Definition has_title (t : string) (e : Page.element) : bool :=
  JS.strict_eq_str (Page.title e) t.

(** querySelectorAll on the selector lists of the examples: a node is
    selected when one selector of the list selects it, and [title=tip]
    selects the nodes whose attribute title is tip *)
Definition selects (sel : string) (d : list Page.element)
  : outcome (list bool) :=
  if String.eqb sel ".btn.zz,[title=tip]" then
    Ok (map (fun e => Page.matches_btn "zz" e || has_title "tip" e) d)
  else if String.eqb sel ".zz,[title=tip]" then
    Ok (map (fun e => Page.has_class "zz" e || has_title "tip" e) d)
  else if String.eqb sel ".btn.primary,.footer" then
    Ok (map (fun e => Page.matches_btn "primary" e || Page.has_class "footer" e) d)
  else Throw SyntaxError.

(** A platform that agrees with the built-ins on the inputs of the
    examples: the texts of [json_table] parse to their values, every
    other text used below is not JSON, no string used is a date or a
    number, an object inherits the members of Object.prototype, and the
    selector lists of the examples select as [selects] says. *)
#[local] Instance platform : Platform := {|
  JSON_parse s := JS.lookup_prop s json_table;
  JSON_stringify v := match v with
                      | VUndefined | VNative _ (Some _) => None
                      | _ => Some (text_of v)
                      end;
  Date_parse s := None;
  Date_toISOString t := "2024-01-01T00:00:00.000Z";
  ToString := to_string;
  StringToNumber s := None;
  inherited := inherits;
  select_other := selects;
|}.

(** the first of January 2024, as a time value *)
Definition today : Z := 1704067200000.

(** a page with the three buttons of the site *)
Definition page : list Page.element :=
  [ {| Page.classes := ["btn"; "primary"]; Page.href := VStr "#";
       Page.textContent := VStr "Start"; Page.title := VStr "" |};
    {| Page.classes := ["btn"; "secondary"]; Page.href := VStr "#";
       Page.textContent := VStr "More"; Page.title := VStr "" |};
    {| Page.classes := ["btn"; "accent"]; Page.href := VStr "#";
       Page.textContent := VStr "Join"; Page.title := VStr "" |} ].

(** a network on which every request is rejected *)
Definition offline : Sheet.world :=
  {| Sheet.fetch := fun _ => Net.Rejected; Sheet.on_admin_page := false;
     Sheet.now := today |}.

Definition url_patch : value := VObj [ ("url", VStr "https://example.com") ].

End Example.

(** ** The session gate, in the words of the specification *)

Section GateSpec.
Context `{Platform}.

(** The marker is present, parseable, matches the schema (username and
    token present) and its [expires] is in the future. *)
Definition marker_valid_as_specified (localStorage : gmap string string)
    (now : Z) : Prop :=
  exists authData props u t e,
    localStorage !! "auth" = Some authData /\
    JSON_parse authData = Some (VObj props) /\
    JS.lookup_prop "username" props = Some u /\
    JS.lookup_prop "token" props = Some t /\
    JS.lookup_prop "expires" props = Some e /\
    JS.date_after (JS.new_Date e) now = true.

(** What the gate tests: a non-empty stored text that parses to a value
    other than null, whose [username] and [token] are truthy and whose
    [expires] is a date after [now]. *)
Definition marker_accepted (localStorage : gmap string string) (now : Z)
  : Prop :=
  exists authData marker u t e,
    localStorage !! "auth" = Some authData /\
    authData <> "" /\
    JSON_parse authData = Some marker /\
    JS.get marker "username" = Ok u /\
    JS.get marker "token" = Ok t /\
    JS.get marker "expires" = Ok e /\
    JS.truthy u = true /\ JS.truthy t = true /\
    JS.date_after (JS.new_Date e) now = true.

End GateSpec.

(** ** The synchronizers as functions of the page *)

Module Classes.
Import Page.

(** the page after the forEach of [Sheet.updateButtons] over [entries]
    whose names are identifiers, with the exception that ended it, if
    any *)
Fixpoint sheet_entries (entries : list (string * value)) (d : list element)
  : outcome unit * list element :=
  match entries with
  | [] => (Ok tt, d)
  | (type, data) :: rest =>
      if existsb (Sheet.selected type d) d then
        match JS.get data "url" with
        | Ok _ =>
            sheet_entries rest
              (update_all (Sheet.selected type d) (Sheet.write_button data) d)
        | Throw e => (Throw e, d)
        end
      else sheet_entries rest d
  end.

Definition sheet_sync (bs : value) (d : list element)
  : outcome unit * list element :=
  if negb (JS.truthy bs) then (Ok tt, d)
  else sheet_entries (JS.own_entries bs) d.

(** the same for [Static.updateButtons] over the names [keys] of
    [buttons], when they are identifiers *)
Fixpoint static_keys (buttons : value) (keys : list string) (d : list element)
  : outcome unit * list element :=
  match keys with
  | [] => (Ok tt, d)
  | buttonType :: rest =>
      match querySelector (matches_btn buttonType) d with
      | Some _ =>
          match JS.get (JS.get_own buttons buttonType) "url" with
          | Ok _ =>
              static_keys buttons rest
                (update_first (matches_btn buttonType)
                   (Static.write_config (JS.get_own buttons buttonType)) d)
          | Throw e => (Throw e, d)
          end
      | None => static_keys buttons rest d
      end
  end.

Definition static_sync (c : value) (d : list element)
  : outcome unit * list element :=
  match JS.get c "buttons" with
  | Throw e => (Throw e, d)
  | Ok buttons =>
      match JS.Object_entries buttons with
      | Throw e => (Throw e, d)
      | Ok entries => static_keys buttons (map fst entries) d
      end
  end.

End Classes.

Module View.
Import Page.

Section WithPlatform.
Context `{Platform}.

(** the page after the forEach of [Sheet.updateButtons] over [entries],
    with the exception that ended it, if any *)
Fixpoint sheet_entries (entries : list (string * value)) (d : list element)
  : outcome unit * list element :=
  match entries with
  | [] => (Ok tt, d)
  | (type, data) :: rest =>
      match Sheet.select type d with
      | Ok nodes =>
          if existsb id nodes then
            match JS.get data "url" with
            | Ok _ =>
                sheet_entries rest
                  (update_mask nodes (Sheet.write_button data) d)
            | Throw e => (Throw e, d)
            end
          else sheet_entries rest d
      | Throw e => (Throw e, d)
      end
  end.

(** the page after [Sheet.updateButtons] for the snapshot [bs] *)
Definition sheet_sync (bs : value) (d : list element)
  : outcome unit * list element :=
  if negb (JS.truthy bs) then (Ok tt, d)
  else sheet_entries (JS.own_entries bs) d.

(** the page after the forEach of [Static.updateButtons] over the names
    [keys] of [buttons] *)
Fixpoint static_keys (buttons : value) (keys : list string) (d : list element)
  : outcome unit * list element :=
  match keys with
  | [] => (Ok tt, d)
  | buttonType :: rest =>
      match Css.select_btn buttonType d with
      | Ok found =>
          match first_selected found with
          | Some i =>
              match JS.get (JS.get_own buttons buttonType) "url" with
              | Ok _ =>
                  static_keys buttons rest
                    (alter (Static.write_config (JS.get_own buttons buttonType))
                           i d)
              | Throw e => (Throw e, d)
              end
          | None => static_keys buttons rest d
          end
      | Throw e => (Throw e, d)
      end
  end.

(** the page after [Static.updateButtons] for the configuration [c] *)
Definition static_sync (c : value) (d : list element)
  : outcome unit * list element :=
  match JS.get c "buttons" with
  | Throw e => (Throw e, d)
  | Ok buttons =>
      match JS.Object_entries buttons with
      | Throw e => (Throw e, d)
      | Ok entries => static_keys buttons (map fst entries) d
      end
  end.

End WithPlatform.

(** an entry of a snapshot whose value is neither null nor undefined *)
Definition not_nullish (kv : string * value) : Prop :=
  kv.2 <> VUndefined /\ kv.2 <> VNull.

(** every name of the map [v] is an identifier of CSS *)
Definition identifiers (v : value) : Prop :=
  Forall (fun kv : string * value => Css.is_ident kv.1 = true)
         (JS.own_entries v).

(** the object that updateButton stores under the name of the button *)
Definition merged (old updates : value) (iso : string) : value :=
  VObj (JS.set_prop "lastUpdated" (VStr iso) (JS.spread old updates)).

End View.

(** ** What a run of a synchronizer writes on a node *)

Module Overlay.
Import Page.

(** the last value written to each attribute, if any *)
Record overlay := {
  o_href : option value;
  o_text : option value;
  o_title : option value;
}.

Definition empty : overlay :=
  {| o_href := None; o_text := None; o_title := None |}.

Definition apply (o : overlay) (e : element) : element :=
  {| classes := classes e;
     href := default (href e) (o_href o);
     textContent := default (textContent e) (o_text o);
     title := default (title e) (o_title o) |}.

Definition later (new old : option value) : option value :=
  match new with
  | Some v => Some v
  | None => old
  end.

(** the writes of [o2] after those of [o1] *)
Definition over (o2 o1 : overlay) : overlay :=
  {| o_href := later (o_href o2) (o_href o1);
     o_text := later (o_text o2) (o_text o1);
     o_title := later (o_title o2) (o_title o1) |}.

(** A transformation of the page that writes attributes only, chosen
    from the classes of the nodes and the position of the node. *)
Definition doc_apply (G : list (list string) -> nat -> overlay)
    (d : list element) : list element :=
  imap (fun i e => apply (G (map classes d) i) e) d.

Definition cl_has (c : string) (cl : list string) : bool :=
  existsb (String.eqb c) cl.

Definition cl_btn (T : string) (cl : list string) : bool :=
  cl_has "btn" cl && cl_has T cl.

Definition cl_selected (T : string) (C : list (list string))
    (cl : list string) : bool :=
  if existsb (cl_btn T) C then cl_btn T cl else cl_has T cl.

Fixpoint first_index {A} (p : A -> bool) (l : list A) : option nat :=
  match l with
  | [] => None
  | x :: l' => if p x then Some 0%nat else S <$> first_index p l'
  end.

(** the writes of [Sheet.write_button] *)
Definition of_button (data : value) : overlay :=
  {| o_href := if JS.truthy (JS.get_own data "url")
               then Some (JS.get_own data "url") else None;
     o_text := if JS.truthy (JS.get_own data "displayText")
               then Some (JS.get_own data "displayText")
               else if JS.truthy (JS.get_own data "text")
                    then Some (JS.get_own data "text") else None;
     o_title := if JS.truthy (JS.get_own data "description")
                then Some (JS.get_own data "description") else None |}.

(** the writes of [Static.write_config] *)
Definition of_config (buttonConfig : value) : overlay :=
  {| o_href := Some (JS.get_own buttonConfig "url");
     o_text := Some (JS.get_own buttonConfig "text");
     o_title := if JS.truthy (JS.get_own buttonConfig "description")
                then Some (JS.get_own buttonConfig "description") else None |}.

Definition when (b : bool) (o : overlay) : overlay := if b then o else empty.

(** the writes of a run of [Sheet.updateButtons] over [entries] on the
    node at position [i] of a page whose nodes have the classes [C] *)
Fixpoint sheet (entries : list (string * value)) (C : list (list string))
    (i : nat) : overlay :=
  match entries with
  | [] => empty
  | (type, data) :: rest =>
      if existsb (cl_selected type C) C then
        match JS.get data "url" with
        | Ok _ =>
            over (sheet rest C i)
                 (when (cl_selected type C (default [] (C !! i))) (of_button data))
        | Throw _ => empty
        end
      else sheet rest C i
  end.

(** the same for [Static.updateButtons] over the names [keys] *)
Fixpoint static (buttons : value) (keys : list string)
    (C : list (list string)) (i : nat) : overlay :=
  match keys with
  | [] => empty
  | T :: rest =>
      match first_index (cl_btn T) C with
      | Some j =>
          match JS.get (JS.get_own buttons T) "url" with
          | Ok _ =>
              over (static buttons rest C i)
                   (when (Nat.eqb j i) (of_config (JS.get_own buttons T)))
          | Throw _ => empty
          end
      | None => static buttons rest C i
      end
  end.

End Overlay.

(** ** Properties of every step of a computation *)

Module Steps.
Import Eff.

(** [steps R c]: from every state, [c] ends, by a result or by a throw,
    in a state related to the initial one by [R]. *)
Definition steps {S A} (R : S -> S -> Prop) (c : M S A) : Prop :=
  forall s, R s (c s).2.

End Steps.

(** ** Frames of the operations of the hosted-API manager *)

Module Frame.
Import Net.

(** [s'] differs from [s] by requests appended to the log only *)
Definition only_fetches (s s' : Sheet.state) : Prop :=
  Sheet.buttons s' = Sheet.buttons s /\
  Sheet.config s' = Sheet.config s /\
  Sheet.localStorage s' = Sheet.localStorage s /\
  Sheet.document s' = Sheet.document s /\
  exists reqs, Sheet.log s' = (Sheet.log s ++ map Fetched reqs)%list.

(** the request that creates the row of the three buttons *)
Definition create_request `{Platform} (btn1 btn2 btn3 : value) : request :=
  {| method := "POST"; url := Sheet.SHEETDB_API;
     body := JSON_stringify
               (VObj [ ("data", VArr [ VObj [ ("btn1", btn1); ("btn2", btn2);
                                              ("btn3", btn3) ] ] []) ]) |}.

(** [m.NAME.url] *)
Definition url_in (m : value) (name : string) : outcome value :=
  let* b := JS.get m name in JS.get b "url".

(** The remote write of the snapshot [m] for the patch [updates] goes
    through: the patch can be read, the GET is answered OK with a body
    that parses to no row, the three destinations of [m] can be read and
    the POST of their row is answered OK. *)
Definition write_accepted `{Platform} (w : Sheet.world) (m updates : value)
  : Prop :=
  updates <> VUndefined /\ updates <> VNull /\
  exists text data btn1 btn2 btn3 text',
    Sheet.fetch w (GET Sheet.SHEETDB_API) = Response true text /\
    JSON_parse text = Some data /\
    negb (JS.truthy data) || JS.is_zero (JS.get_own data "length") = true /\
    url_in m "primary" = Ok btn1 /\
    url_in m "secondary" = Ok btn2 /\
    url_in m "accent" = Ok btn3 /\
    Sheet.fetch w (create_request btn1 btn2 btn3) = Response true text'.

End Frame.

(** ** Worlds of the examples *)

Module Worlds.
Import Net.

(** whether a request goes to the hosted API *)
Definition to_api (r : request) : bool :=
  String.prefix Sheet.SHEETDB_API (url r).

(** the hosted API answers with the row of a sheet where no destination
    has been set; nothing else is served *)
Definition unset_rows : Sheet.world :=
  {| Sheet.fetch := fun r =>
       if to_api r then Response true (Example.text_of Example.rows_unset)
       else Rejected;
     Sheet.on_admin_page := false;
     Sheet.now := Example.today |}.

(** the hosted API answers every request OK with an empty list of
    rows; nothing else is served *)
Definition empty_sheet : Sheet.world :=
  {| Sheet.fetch := fun r =>
       if to_api r then Response true (Example.text_of Example.rows_none)
       else Rejected;
     Sheet.on_admin_page := false;
     Sheet.now := Example.today |}.

(** the hosted API answers 503; the static file config.json is served *)
Definition api_down_static_up : Sheet.world :=
  {| Sheet.fetch := fun r =>
       if to_api r then Response false "Service Unavailable"
       else Response true (Example.text_of Example.static_config);
     Sheet.on_admin_page := false;
     Sheet.now := Example.today |}.

(** the static file config.json is served *)
Definition static_up : Static.world :=
  {| Static.fetch := fun _ => Response true (Example.text_of Example.static_config);
     Static.now := Example.today |}.

End Worlds.

(** ** The poller *)

Module Poll.
Import Net.

Definition same_syncs (s s' : Sheet.state) : Prop :=
  syncs (Sheet.log s') = syncs (Sheet.log s).

Section WithPlatform.
Context `{Platform}.

(** the request of a tick of the watcher of config.json *)
Definition static_request (w : Static.world) : request :=
  GET (Static.configPath ++ "?t=" ++ ToString (JS.of_int (Static.now w))).

Definition sheet_request (w : Sheet.world) : request :=
  GET ("config.json" ++ "?t=" ++ ToString (JS.of_int (Sheet.now w))).

(** The tick fetched a configuration whose serialization differs from
    the one of the current configuration [c]. *)
Definition fetched_differs (a : answer) (c c' : value) : Prop :=
  exists text, a = Response true text /\ JSON_parse text = Some c' /\
               JSON_stringify c' <> JSON_stringify c.

(** Whatever the tick fetched, if anything, has the serialization of
    the current configuration [c]. *)
Definition nothing_new (a : answer) (c : value) : Prop :=
  forall text c', a = Response true text -> JSON_parse text = Some c' ->
                  JSON_stringify c' = JSON_stringify c.

End WithPlatform.

End Poll.

(** ** The loader *)

Module Loader.
Import Net.

Definition same_requests (s s' : Sheet.state) : Prop :=
  requests (Sheet.log s') = requests (Sheet.log s).

(** the request of loadButtonData and the one of loadConfig *)
Definition sheet1_request : request :=
  GET (Sheet.SHEETDB_API ++ "?sheet=Sheet1").

Definition api_request : request := GET Sheet.SHEETDB_API.

Section WithPlatform.
Context `{Platform}.

(** In the words of the specification: the primary source, the hosted
    API, fails. *)
Definition primary_fails (w : Sheet.world) : Prop :=
  match Sheet.fetch w sheet1_request with
  | Response true text => JSON_parse text = None
  | _ => True
  end.

(** In the words of the specification: the secondary source, the static
    file config.json, succeeds with the snapshot [d]. *)
Definition secondary_succeeds (w : Sheet.world) (d : value) : Prop :=
  exists text c,
    Sheet.fetch w (GET Static.configPath) = Response true text /\
    JSON_parse text = Some c /\
    JS.get c "buttons" = Ok d.

End WithPlatform.

End Loader.

(** ** The keys of the button map *)

Module Keys.

(** the logical names that the constructor configures *)
Definition configured : list string := [ "primary"; "secondary"; "accent" ].

(** the names of a map *)
Definition names (v : value) : list string := (JS.own_entries v).*1.

(** [v] is a map that has every configured key, with a value *)
Definition has_keys (v : value) : Prop :=
  exists props, v = VObj props /\
    forall k, k ∈ configured ->
              exists x, JS.lookup_prop k props = Some x /\ x <> VUndefined.

Definition same_names (s s' : Sheet.state) : Prop :=
  names (Sheet.buttons s') = names (Sheet.buttons s).

(** every operation of the manager, with its arguments *)
Inductive operation :=
| LoadButtonData
| LoadConfig
| LoadFromLocalStorage
| UpdateButtons
| UpdateButton (buttonType : string) (updates : value)
| Init
| PollTick
| StartPollingTick
| Reload
| UpdateButtonConfig (buttonType : string) (newConfig : value).

Section WithPlatform.
Context `{Platform}.

(** the local cache, when it holds a text that parses, holds a map with
    every configured key *)
Definition cache_ok (storage : gmap string string) : Prop :=
  forall sd v, storage !! "buttonData" = Some sd -> JSON_parse sd = Some v ->
               has_keys v.

(** JSON.stringify writes a map that has the configured keys as a text,
    and what JSON.parse reads back from that text has them too *)
Definition json_keeps_keys : Prop :=
  forall v, has_keys v ->
    exists sd, JSON_stringify v = Some sd /\
               forall v', JSON_parse sd = Some v' -> has_keys v'.

Definition inv (s : Sheet.state) : Prop :=
  has_keys (Sheet.buttons s) /\ cache_ok (Sheet.localStorage s).

Definition preserved (s s' : Sheet.state) : Prop := inv s -> inv s'.

Definition run (w : Sheet.world) (op : operation) : Eff.M Sheet.state unit :=
  match op with
  | LoadButtonData => Sheet.loadButtonData w ;; Eff.ret tt
  | LoadConfig => Sheet.loadConfig w ;; Eff.ret tt
  | LoadFromLocalStorage => Sheet.loadFromLocalStorage ;; Eff.ret tt
  | UpdateButtons => Sheet.updateButtons
  | UpdateButton buttonType updates =>
      Sheet.updateButton w buttonType updates ;; Eff.ret tt
  | Init => Sheet.init w
  | PollTick => Sheet.poll_tick w ;; Eff.ret tt
  | StartPollingTick => Sheet.startPolling_tick w
  | Reload => Sheet.reload w
  | UpdateButtonConfig buttonType newConfig =>
      Sheet.updateButtonConfig buttonType newConfig
  end.

End WithPlatform.

(** a platform whose JSON.parse reads the text of the cached snapshot of
    the examples, and nothing else *)
#[local] Instance clean : Platform := {|
  JSON_parse s := if String.eqb s (Example.text_of Example.cached)
                  then Some Example.cached else None;
  JSON_stringify v := match v with
                      | VUndefined | VNative _ (Some _) => None
                      | _ => Some (Example.text_of v)
                      end;
  Date_parse s := None;
  Date_toISOString t := "2024-01-01T00:00:00.000Z";
  ToString := Example.to_string;
  StringToNumber s := None;
  inherited := Example.inherits;
  select_other := Example.selects;
|}.

End Keys.

(** ** auth.js: logout and the guard of the pages *)

Module Session.

(** what the scripts of auth.js see of the browser: the local storage,
    the path of the page, and the address that a script has assigned to
    [window.location.href], if any *)
Record browser := {
  localStorage : gmap string string;
  pathname : string;
  navigated : option string;
}.

(** [s.endsWith(suffix)] *)
Definition endsWith (s suffix : string) : bool :=
  let n := String.length s in
  let m := String.length suffix in
  Nat.leb m n && String.eqb (String.substring (n - m) m s) suffix.

Definition logout (b : browser) : browser :=
  {| localStorage := delete "auth" (localStorage b);
     pathname := pathname b;
     navigated := Some "login.html" |}.

Section WithPlatform.
Context `{Platform}.

(** the statement that ends auth.js, run when the script loads: the
    session is not looked at on the login page *)
Definition guard (now : Z) (b : browser) : outcome browser :=
  if negb (endsWith (pathname b) "login.html") then
    let* authenticated := Auth.isAuthenticated (localStorage b) now in
    if negb (JS.truthy authenticated) then
      Ok {| localStorage := localStorage b; pathname := pathname b;
            navigated := Some "login.html" |}
    else Ok b
  else Ok b.

End WithPlatform.

End Session.

(** ** The hosted-API manager: names and rows of a sheet *)

Module Rows.

(** A character of a string is a UTF-16 code unit below 256. *)

(** the lower case of a code unit: A-Z, and the capital letters of
    Latin-1 (U+00C0 to U+00DE but the sign U+00D7) *)
Definition lower_unit (c : Ascii.ascii) : Ascii.ascii :=
  let n := Ascii.nat_of_ascii c in
  if (Nat.leb 65 n && Nat.leb n 90)
     || (Nat.leb 192 n && Nat.leb n 222 && negb (Nat.eqb n 215))
  then Ascii.ascii_of_nat (n + 32)
  else c.

(** [s.toLowerCase()] *)
Fixpoint toLowerCase (s : string) : string :=
  match s with
  | EmptyString => EmptyString
  | String c s' => String (lower_unit c) (toLowerCase s')
  end.

(** the class [a-z0-9] *)
Definition a_z_0_9 (c : Ascii.ascii) : bool :=
  let n := Ascii.nat_of_ascii c in
  (Nat.leb 97 n && Nat.leb n 122) || (Nat.leb 48 n && Nat.leb n 57).

(** [s.replace(/[^a-z0-9]/g, '')] *)
Fixpoint remove_others (s : string) : string :=
  match s with
  | EmptyString => EmptyString
  | String c s' =>
      if a_z_0_9 c then String c (remove_others s') else remove_others s'
  end.

(** [name ? name.toLowerCase().replace(/[^a-z0-9]/g, '') : '']: a
    truthy value that is not a string has no method toLowerCase. *)
Definition normalizeButtonName (name : value) : outcome value :=
  if JS.truthy name then
    match name with
    | VStr s => Ok (VStr (remove_others (toLowerCase s)))
    | _ => Throw TypeError
    end
  else Ok (VStr "").

Section WithPlatform.
Context `{Platform}.

(** [v >= 3] *)
Definition ge_three (v : value) : bool :=
  match JS.to_number v with
  | Some (NFin q) => Z.leb (3 * Z.pos (Qden q)) (Qnum q)
  | Some (NInf negative) => negb negative
  | None => false
  end.

(** the object that processSheetData stores for a row *)
Definition row_entry (now : Z) (row : value) : value :=
  VObj [ ("text", JS.or (JS.get_own row "1") (VStr ""));
         ("url", JS.or (JS.get_own row "2") (VStr "#"));
         ("lastUpdated", JS.or (JS.get_own row "3")
                               (VStr (Date_toISOString now))) ].

(** whether the loop of processSheetData takes a row *)
Definition taken (row : value) : bool :=
  JS.truthy row && ge_three (JS.get_own row "length").

(** The body of the loop of processSheetData on the properties
    [buttonData] gathered so far. An assignment to the name __proto__
    sets the prototype and adds no property. *)
Definition process_row (now : Z) (row : value)
    (buttonData : list (string * value)) : outcome (list (string * value)) :=
  if taken row then
    match JS.get_own row "0" with
    | VStr s =>
        let buttonType := toLowerCase s in
        if String.eqb buttonType "__proto__" then Ok buttonData
        else Ok (JS.set_prop buttonType (row_entry now row) buttonData)
    | _ => Throw TypeError
    end
  else Ok buttonData.

Fixpoint process_rows (now : Z) (rows : list value)
    (buttonData : list (string * value)) : outcome (list (string * value)) :=
  match rows with
  | [] => Ok buttonData
  | row :: rest =>
      let* buttonData' := process_row now row buttonData in
      process_rows now rest buttonData'
  end.

(** processSheetData on an array of rows, or on null or undefined
    ([None]); the loop starts at the second row. *)
Definition processSheetData (now : Z) (rows : option (list value))
  : outcome value :=
  match rows with
  | None => Ok (VObj [])
  | Some items =>
      if Nat.ltb (length items) 2 then Ok (VObj [])
      else let* buttonData := process_rows now (drop 1 items) [] in
           Ok (VObj buttonData)
  end.

End WithPlatform.

End Rows.

(** ** What processSheetData keeps of the rows *)

Module RowsView.

Section WithPlatform.
Context `{Platform}.

(** a row that the loop takes and whose first cell is, in some case of
    its letters, the name [k] *)
Definition names (k : string) (row : value) : bool :=
  Rows.taken row &&
  match JS.get_own row "0" with
  | VStr s => String.eqb (Rows.toLowerCase s) k
  | _ => false
  end.

(** a row that the loop takes and whose first cell is not a string *)
Definition unnamed (row : value) : bool :=
  Rows.taken row &&
  match JS.get_own row "0" with
  | VStr _ => false
  | _ => true
  end.

(** the last of the rows for the name [k] *)
Definition last_named (k : string) (rows : list value) : option value :=
  List.find (names k) (rev rows).

(** an entry of the result: a lower-case name, a destination that is
    truthy, a text that is truthy or the empty string *)
Definition well_formed (kv : string * value) : Prop :=
  Rows.toLowerCase kv.1 = kv.1
  /\ JS.truthy (JS.get_own kv.2 "url") = true
  /\ (JS.truthy (JS.get_own kv.2 "text") = true
      \/ JS.get_own kv.2 "text" = VStr "").

End WithPlatform.

End RowsView.

(** ** script.js: the configuration of the manager *)

Module StaticConfig.
Import Eff.

Definition getConfig : M Static.state value := gets Static.config.

Section WithPlatform.
Context `{Platform}.

Definition updateButtonConfig (buttonType : string) (newConfig : value)
  : M Static.state unit :=
  c <- gets Static.config ;;
  bs <- lift (JS.get c "buttons") ;;
  old <- lift (JS.get_dyn bs buttonType) ;;
  if JS.truthy old then
    bs' <- lift (JS.assign_existing bs buttonType
                   (VObj (JS.spread old newConfig))) ;;
    modify (Static.set_config (JS.replace_at c "buttons" bs')) ;;
    Static.updateButtons
  else ret tt.

(** the configuration that loadConfig keeps for an answer to its
    request *)
Definition loaded (a : Net.answer) : value :=
  match a with
  | Net.Response true text => default Static.DEFAULT_CONFIG (JSON_parse text)
  | _ => Static.DEFAULT_CONFIG
  end.

End WithPlatform.

(** the node at position [i] is the one that [querySelector] answers
    for the selector [.btn.T] *)
Definition first_match (T : string) (d : list Page.element) (i : nat) : Prop :=
  (exists e, d !! i = Some e /\ Page.matches_btn T e = true)
  /\ forall j e, (j < i)%nat -> d !! j = Some e -> Page.matches_btn T e = false.

End StaticConfig.

(** ** The hosted-API manager: its configuration and its requests *)

Module SheetConfig.
Import Eff.

(** The class body defines getConfig twice; the later definition, which
    answers [this.config], is the one that the class keeps. *)
Definition getConfig : M Sheet.state value := gets Sheet.config.

(** calls made one after the other; a call that throws ends there, and
    the state stays as the call has left it *)
Fixpoint run_all `{Platform} (w : Sheet.world) (ops : list Keys.operation)
    (s : Sheet.state) : Sheet.state :=
  match ops with
  | [] => s
  | op :: rest => run_all w rest (Keys.run w op s).2
  end.

(** the configuration, when it is undefined, stays so *)
Definition unset (s s' : Sheet.state) : Prop :=
  Sheet.config s = VUndefined -> Sheet.config s' = VUndefined.

(** a request to the address of the hosted API itself, by GET or by
    POST *)
Definition api_call (r : Net.request) : Prop :=
  Net.url r = Sheet.SHEETDB_API
  /\ (Net.method r = "GET" \/ Net.method r = "POST").

Definition api_only (s s' : Sheet.state) : Prop :=
  exists reqs,
    Net.requests (Sheet.log s') = (Net.requests (Sheet.log s) ++ reqs)%list
    /\ Forall api_call reqs.

End SheetConfig.

(** ** The hosted-API manager: the row of the sheet and the cache *)

Module Load.

(** an entry of the snapshot whose value is an object *)
Definition is_object (kv : string * value) : Prop :=
  exists ps, kv.2 = VObj ps.

Section WithPlatform.
Context `{Platform}.

(** the button once loadButtonData has read its column in the row: the
    cell becomes its destination unless it is undefined or the empty
    string *)
Definition with_url (row button : value) : value :=
  let cell := JS.member row (JS.to_key (JS.get_own button "column")) in
  if negb (JS.is_undefined cell) && negb (JS.strict_eq_str cell "") then
    match button with
    | VObj ps => VObj (JS.set_prop "url" cell ps)
    | _ => button
    end
  else button.

(** the snapshot once every button has read its column *)
Definition with_row (row : value) (props : list (string * value)) : value :=
  VObj (map (fun kv => (kv.1, with_url row kv.2)) props).

(** whether the row has the column of a button, as loadConfig tests it *)
Definition has_cell (row : value) (kv : string * value) : bool :=
  negb (JS.is_undefined
          (JS.member row (JS.to_key (JS.get_own kv.2 "column")))).

(** the button once loadConfig has read its column in the row: the cell
    becomes its destination unless it is undefined *)
Definition with_cell (row button : value) : value :=
  if has_cell row ("", button) then
    match button with
    | VObj ps =>
        VObj (JS.set_prop "url"
                (JS.member row (JS.to_key (JS.get_own button "column"))) ps)
    | _ => button
    end
  else button.

Definition with_cells (row : value) (props : list (string * value)) : value :=
  VObj (map (fun kv => (kv.1, with_cell row kv.2)) props).

End WithPlatform.

(** what the click handlers' loop of init writes on a node: the
    destination and the text of the button that its second class names *)
Definition init_write `{Platform} (bs : value) (e : Page.element)
  : Page.element :=
  if Page.has_class "btn" e then
    let b := JS.member bs (JS.to_key (Page.second_class e)) in
    if JS.truthy b then
      Page.set_textContent (JS.get_own b "text")
        (Page.set_href (JS.get_own b "url") e)
    else e
  else e.

(** whether a run of the synchronizer has come to its end *)
Definition completed (o : outcome unit) : bool :=
  match o with Ok _ => true | Throw _ => false end.

(** a list of rows whose first row is null *)
Definition rows_null : value := VArr [ VNull ] [].

(** a platform whose JSON.parse reads the texts of the rows of the
    examples and of the default snapshot, and nothing else *)
#[local] Instance defaults_platform : Platform := {|
  JSON_parse s :=
    JS.lookup_prop s
      (map (fun v => (Example.text_of v, v))
           [ Example.rows_unset; Sheet.DEFAULT_BUTTONS; rows_null ]);
  JSON_stringify v := match v with
                      | VUndefined | VNative _ (Some _) => None
                      | _ => Some (Example.text_of v)
                      end;
  Date_parse s := None;
  Date_toISOString t := "2024-01-01T00:00:00.000Z";
  ToString := Example.to_string;
  StringToNumber s := None;
  inherited := Example.inherits;
  select_other := Example.selects;
|}.

(** the hosted API answers 503 *)
Definition api_down : Sheet.world :=
  {| Sheet.fetch := fun _ => Net.Response false "Service Unavailable";
     Sheet.on_admin_page := false;
     Sheet.now := Example.today |}.

(** the hosted API answers with a list whose first row is null *)
Definition null_rows : Sheet.world :=
  {| Sheet.fetch := fun _ => Net.Response true (Example.text_of rows_null);
     Sheet.on_admin_page := false;
     Sheet.now := Example.today |}.

End Load.

(** * Properties *)

(** ** auth.js *)

Lemma strict_eq_str_true v s : JS.strict_eq_str v s = true <-> v = VStr s.
Proof.
  destruct v; simpl; try (split; [discriminate | congruence]).
  rewrite String.eqb_eq. split; congruence.
Qed.

Lemma truthy_str_empty s : JS.truthy (VStr s) = false <-> s = "".
Proof.
  simpl. rewrite negb_false_iff. apply String.eqb_eq.
Qed.

(** C7: authenticate scans the credential list for an exact match of
    username and password. With the admin credentials it answers an
    authenticated result of role admin; with any other pair of arguments
    it answers the unauthenticated result. Over any credential list, the
    result is authenticated exactly when some record of the list has
    this username and this password. *)
Theorem authenticate_admin_only :
  Auth.authenticate (VStr "admin") (VStr "G9m#tX2!pV7q@Lz4")
    = VObj [ ("authenticated", VBool true); ("username", VStr "admin");
             ("role", VStr "admin") ]
  /\ (forall u p : value,
        (u, p) <> (VStr "admin", VStr "G9m#tX2!pV7q@Lz4") ->
        Auth.authenticate u p = VObj [ ("authenticated", VBool false) ])
  /\ (forall users u p,
        JS.get_own (Auth.authenticate_in users u p) "authenticated" = VBool true
        <-> exists c, In c users /\ u = VStr (Auth.username c)
                      /\ p = VStr (Auth.password c)).
Proof.
  split; [reflexivity | split].
  - intros u p Hne. unfold Auth.authenticate, Auth.authenticate_in. simpl.
    destruct (JS.strict_eq_str u "admin") eqn:Hu; simpl; [| reflexivity].
    destruct (JS.strict_eq_str p "G9m#tX2!pV7q@Lz4") eqn:Hp; simpl; [| reflexivity].
    apply strict_eq_str_true in Hu, Hp. subst. contradiction.
  - intros users u p. unfold Auth.authenticate_in.
    destruct (List.find _ users) as [c|] eqn:Hfind; simpl.
    + split; [intros _ | reflexivity].
      apply List.find_some in Hfind as [Hin Hc].
      apply andb_true_iff in Hc as [Hu Hp].
      apply strict_eq_str_true in Hu, Hp. eauto.
    + split; [discriminate |].
      intros (c & Hin & -> & ->).
      pose proof (List.find_none _ _ Hfind c Hin) as Hc. simpl in Hc.
      rewrite !String.eqb_refl in Hc. discriminate.
Qed.

Lemma authenticate_admin_only_witness :
  (VStr "admin", VStr "admin") <> (VStr "admin", VStr "G9m#tX2!pV7q@Lz4")
  /\ Auth.authenticate (VStr "admin") (VStr "admin")
     = VObj [ ("authenticated", VBool false) ].
Proof.
  assert (Hne : (VStr "admin", VStr "admin")
                <> (VStr "admin", VStr "G9m#tX2!pV7q@Lz4")) by discriminate.
  split; [exact Hne |].
  exact (proj1 (proj2 authenticate_admin_only) _ _ Hne).
Defined.

Section Gate.
Context `{Platform}.

Lemma get_ok_inv (v : value) k x :
  JS.get v k = Ok x -> x = JS.get_own v k /\ v <> VUndefined /\ v <> VNull.
Proof.
  destruct v; simpl; intros Hg; inversion Hg; repeat split; discriminate.
Qed.

Lemma get_ok (v : value) k :
  v <> VUndefined -> v <> VNull -> JS.get v k = Ok (JS.get_own v k).
Proof. destruct v; simpl; congruence. Qed.

(** the value of the body of the try block on a marker that is neither
    null nor undefined *)
Lemma isAuthenticated_body_parsed authData marker now :
  JSON_parse authData = Some marker ->
  marker <> VUndefined -> marker <> VNull ->
  Auth.isAuthenticated_body authData now
  = Ok (JS.and (JS.and (JS.get_own marker "username")
                       (JS.get_own marker "token"))
               (VBool (JS.date_after
                         (JS.new_Date (JS.get_own marker "expires")) now))).
Proof.
  intros Hp Hu Hn. unfold Auth.isAuthenticated_body, JS.parse.
  rewrite Hp. simpl. rewrite !get_ok by assumption. reflexivity.
Qed.

Lemma isAuthenticated_body_nullish authData marker now :
  JSON_parse authData = Some marker ->
  marker = VUndefined \/ marker = VNull ->
  Auth.isAuthenticated_body authData now = Throw TypeError.
Proof.
  intros Hp Hm. unfold Auth.isAuthenticated_body, JS.parse.
  rewrite Hp. destruct Hm as [-> | ->]; reflexivity.
Qed.

Lemma isAuthenticated_body_unparseable authData now :
  JSON_parse authData = None ->
  Auth.isAuthenticated_body authData now = Throw SyntaxError.
Proof.
  intros Hp. unfold Auth.isAuthenticated_body, JS.parse. by rewrite Hp.
Qed.

Lemma and_falsy a b : JS.truthy (JS.and a b) = JS.truthy a && JS.truthy b.
Proof. unfold JS.and. destruct (JS.truthy a) eqn:Ha; simpl; congruence. Qed.

Lemma isAuthenticated_total ls now : exists v, Auth.isAuthenticated ls now = Ok v.
Proof.
  unfold Auth.isAuthenticated.
  destruct (ls !! "auth") as [a|]; [| eauto].
  destruct (negb _); [eauto |].
  destruct (Auth.isAuthenticated_body a now); simpl; eauto.
Qed.

(** the truth value of the answer of the gate *)
Lemma isAuthenticated_truthy ls now v :
  Auth.isAuthenticated ls now = Ok v ->
  JS.truthy v = true <-> marker_accepted ls now.
Proof.
  unfold Auth.isAuthenticated, marker_accepted.
  destruct (ls !! "auth") as [a|] eqn:Hls.
  2: { intros [= <-]. split; [discriminate |]. intros (? & ? & ? & ? & ? & ? & _); done. }
  destruct (JS.truthy (VStr a)) eqn:Ha; simpl.
  2: { intros [= <-]. apply truthy_str_empty in Ha. split; [discriminate |].
       intros (a' & ? & ? & ? & ? & [= <-] & Hne & _). done. }
  assert (Hane : a <> "").
  { intros ->. discriminate. }
  destruct (JSON_parse a) as [m|] eqn:Hp.
  2: { rewrite isAuthenticated_body_unparseable by done. intros [= <-].
       split; [discriminate |].
       intros (a' & ? & ? & ? & ? & [= <-] & _ & Hp' & _). congruence. }
  assert (Hcases : (m = VUndefined \/ m = VNull)
                   \/ (m <> VUndefined /\ m <> VNull)).
  { destruct m; auto; right; split; discriminate. }
  destruct Hcases as [Hm | [Hm1 Hm2]].
  { rewrite (isAuthenticated_body_nullish a m) by done. intros [= <-].
    split; [discriminate |].
    intros (a' & m' & u & ? & ? & [= <-] & _ & Hp' & Hg & _).
    assert (m' = m) as -> by congruence.
    apply get_ok_inv in Hg. tauto. }
  rewrite (isAuthenticated_body_parsed a m) by done. simpl. intros [= <-].
  rewrite !and_falsy. simpl. rewrite !andb_true_iff. split.
  - intros [[Hu Ht] He]. exists a, m. do 3 eexists.
    rewrite !get_ok by done. repeat split; eauto.
  - intros (a' & m' & u & t & e & [= <-] & _ & Hp' & Hgu & Hgt & Hge & Hu & Ht & He).
    assert (m' = m) as -> by congruence.
    apply get_ok_inv in Hgu as [-> _], Hgt as [-> _], Hge as [-> _]. done.
Qed.

End Gate.

Lemma isAuthenticated_true_or_falsy `{Platform} ls now v :
  Auth.isAuthenticated ls now = Ok v -> v = VBool true \/ JS.truthy v = false.
Proof.
  unfold Auth.isAuthenticated.
  destruct (ls !! "auth") as [a|]; [| intros [= <-]; by right].
  destruct (negb _); [intros [= <-]; by right |].
  unfold Auth.isAuthenticated_body, JS.parse.
  destruct (JSON_parse a) as [m|]; simpl; [| intros [= <-]; by right].
  destruct (JS.get m "username") as [u|]; simpl; [| intros [= <-]; by right].
  destruct (JS.get m "token") as [t|]; simpl; [| intros [= <-]; by right].
  destruct (JS.get m "expires") as [e|]; simpl; [| intros [= <-]; by right].
  intros [= <-]. unfold JS.and.
  destruct (JS.truthy u) eqn:Hu; rewrite ?Hu; [| by right].
  destruct (JS.truthy t) eqn:Ht; rewrite ?Ht; [| by right].
  destruct (JS.date_after _ _); [by left | by right].
Qed.

(** C2, as the code has it: isAuthenticated never throws; it answers
    true exactly when the stored marker is a non-empty text that parses
    to a value other than null whose username and token are truthy and
    whose expires is a date after the current time; in every other case
    (absent, unparseable, expired or incomplete marker) its answer is a
    falsy value. *)
Theorem isAuthenticated_accepts_truthy_marker `{Platform}
    (localStorage : gmap string string) (now : Z) :
  (exists v, Auth.isAuthenticated localStorage now = Ok v)
  /\ (Auth.isAuthenticated localStorage now = Ok (VBool true)
      <-> marker_accepted localStorage now)
  /\ (~ marker_accepted localStorage now ->
      exists v, Auth.isAuthenticated localStorage now = Ok v
                /\ JS.truthy v = false).
Proof.
  destruct (isAuthenticated_total localStorage now) as [v Hv].
  pose proof (isAuthenticated_truthy _ _ _ Hv) as Hacc.
  pose proof (isAuthenticated_true_or_falsy _ _ _ Hv) as Hcase.
  split; [eauto | split].
  - rewrite Hv. split.
    + intros [= ->]. by apply Hacc.
    + intros Ha. apply Hacc in Ha. destruct Hcase as [-> | Hf]; congruence.
  - intros Hna. exists v. split; [done |].
    destruct (JS.truthy v) eqn:Ht; [| done].
    exfalso. apply Hna, Hacc. done.
Qed.

Lemma isAuthenticated_accepts_truthy_marker_witness :
  ~ marker_accepted (H := Example.platform) ∅ Example.today
  /\ exists v, Auth.isAuthenticated (H := Example.platform) ∅ Example.today = Ok v
               /\ JS.truthy v = false.
Proof.
  assert (Hna : ~ marker_accepted (H := Example.platform) ∅ Example.today).
  { intros (a & ? & ? & ? & ? & Hl & _). rewrite lookup_empty in Hl. discriminate. }
  split; [exact Hna |].
  exact (proj2 (proj2 (isAuthenticated_accepts_truthy_marker
                         (H := Example.platform) ∅ Example.today)) Hna).
Defined.

(** C2, as stated, fails: a stored marker that is present, parses, has
    a username and a token and expires in 2100 is answered with the
    empty username, not with true; and a stored marker without any field
    is answered with undefined, not with false. *)
Lemma isAuthenticated_empty_username_not_true :
  let storage : gmap string string :=
    {[ "auth" := Example.marker_empty_username_text ]} in
  let storage' : gmap string string :=
    {[ "auth" := Example.text_of Example.marker_empty ]} in
  marker_valid_as_specified (H := Example.platform) storage Example.today
  /\ Auth.isAuthenticated (H := Example.platform) storage Example.today
     = Ok (VStr "")
  /\ Auth.isAuthenticated (H := Example.platform) storage Example.today
     <> Ok (VBool true)
  /\ Auth.isAuthenticated (H := Example.platform) storage' Example.today
     = Ok VUndefined
  /\ Auth.isAuthenticated (H := Example.platform) storage' Example.today
     <> Ok (VBool false).
Proof.
  intros storage storage'.
  assert (Hl : storage !! "auth" = Some Example.marker_empty_username_text)
    by apply lookup_singleton_eq.
  assert (Hr : Auth.isAuthenticated (H := Example.platform) storage Example.today
               = Ok (VStr "")).
  { unfold Auth.isAuthenticated. rewrite Hl. reflexivity. }
  assert (Hr' : Auth.isAuthenticated (H := Example.platform) storage' Example.today
                = Ok VUndefined) by reflexivity.
  split; [| split; [exact Hr | split; [rewrite Hr; discriminate |
                                       split; [exact Hr' | rewrite Hr'; discriminate]]]].
  exists Example.marker_empty_username_text. do 4 eexists.
  split; [exact Hl |]. split; [reflexivity |].
  repeat split; reflexivity.
Qed.

(** C10: a stored marker that parses and has a truthy username and a
    truthy token, but whose expires is not a valid date, is answered
    with false: the comparison of the invalid date with the current time
    is false, and nothing is thrown. getCurrentUser never throws, and
    answers null when the stored text does not parse. *)
Theorem invalid_expires_is_not_authenticated `{Platform}
    (localStorage : gmap string string) (now : Z) :
  (forall authData marker u t e,
     localStorage !! "auth" = Some authData ->
     JSON_parse authData = Some marker ->
     JS.get marker "username" = Ok u ->
     JS.get marker "token" = Ok t ->
     JS.get marker "expires" = Ok e ->
     JS.truthy u = true -> JS.truthy t = true ->
     JS.new_Date e = None ->
     Auth.isAuthenticated localStorage now = Ok (VBool false))
  /\ (forall authData,
        localStorage !! "auth" = Some authData ->
        JSON_parse authData = None ->
        Auth.getCurrentUser localStorage = Ok VNull)
  /\ (exists v, Auth.getCurrentUser localStorage = Ok v).
Proof.
  split; [| split].
  - intros a m u t e Hl Hp Hu Ht He Htu Htt Hd.
    unfold Auth.isAuthenticated. rewrite Hl.
    destruct (negb _); [reflexivity |].
    unfold Auth.isAuthenticated_body, JS.parse.
    rewrite Hp. simpl. rewrite Hu, Ht, He. simpl.
    unfold JS.and. rewrite Htu, Htt, Hd. reflexivity.
  - intros a Hl Hp. unfold Auth.getCurrentUser, JS.parse. rewrite Hl, Hp.
    destruct (negb _); reflexivity.
  - unfold Auth.getCurrentUser, JS.parse.
    destruct (localStorage !! "auth") as [a|]; [| eauto].
    destruct (negb _); [eauto |].
    destruct (JSON_parse a); simpl; eauto.
Qed.

Lemma invalid_expires_is_not_authenticated_witness :
  let storage : gmap string string :=
    {[ "auth" := Example.marker_bad_expires_text ]} in
  Auth.isAuthenticated (H := Example.platform) storage Example.today
  = Ok (VBool false).
Proof.
  intros storage.
  apply (proj1 (invalid_expires_is_not_authenticated
                  (H := Example.platform) storage Example.today)
           Example.marker_bad_expires_text Example.marker_bad_expires
           (VStr "admin") (VStr "t") (VStr "soon"));
    reflexivity.
Defined.

(** ** The synchronizers *)

Ltac run :=
  unfold Eff.bind, Eff.gets, Eff.lift, Eff.modify, Eff.ret, Eff.throw,
    Eff.try_catch; simpl.

Lemma Object_entries_truthy v :
  JS.truthy v = true -> JS.Object_entries v = Ok (JS.own_entries v).
Proof. destruct v; simpl; congruence. Qed.

Lemma sheet_set_document_id (s : Sheet.state) :
  Sheet.set_document (Sheet.document s) s = s.
Proof. by destruct s. Qed.

Section SyncRuns.
Context `{Platform}.

Lemma sheet_forEach_run entries (s : Sheet.state) :
  Eff.for_each entries (fun '(type, data) =>
      d <- Eff.gets Sheet.document ;;
      nodes <- Eff.lift (Sheet.select type d) ;;
      if existsb id nodes then
        _ <- Eff.lift (JS.get data "url") ;;
        Eff.modify (Sheet.set_document
          (Page.update_mask nodes (Sheet.write_button data) d))
      else Eff.ret tt) s
  = ((View.sheet_entries entries (Sheet.document s)).1,
     Sheet.set_document (View.sheet_entries entries (Sheet.document s)).2 s).
Proof.
  revert s. induction entries as [| [type data] rest IH]; intros s.
  - simpl. unfold Eff.ret. by rewrite sheet_set_document_id.
  - simpl. run.
    destruct (Sheet.select type (Sheet.document s)) as [nodes |]; simpl.
    2: { by rewrite sheet_set_document_id. }
    destruct (existsb id nodes).
    + destruct (JS.get data "url"); simpl.
      * rewrite IH. simpl. reflexivity.
      * by rewrite sheet_set_document_id.
    + apply IH.
Qed.

(** updateButtons logs its run and rewrites the page; nothing else. *)
Lemma sheet_updateButtons_run (s : Sheet.state) :
  Sheet.updateButtons s
  = ((View.sheet_sync (Sheet.buttons s) (Sheet.document s)).1,
     Sheet.set_document (View.sheet_sync (Sheet.buttons s) (Sheet.document s)).2
       (Sheet.add_event Net.Synchronized s)).
Proof.
  unfold Sheet.updateButtons, View.sheet_sync.
  unfold Eff.bind at 1. unfold Eff.modify at 1.
  unfold Eff.bind at 1. unfold Eff.gets at 1. simpl.
  destruct (JS.truthy (Sheet.buttons s)) eqn:Ht; simpl.
  - unfold Eff.bind at 1. unfold Eff.lift at 1.
    rewrite Object_entries_truthy by done.
    rewrite sheet_forEach_run. reflexivity.
  - unfold Eff.ret. by destruct s.
Qed.

End SyncRuns.

(** *** Pages rewritten attribute by attribute *)

Section Overlays.
Import Page Overlay.

Lemma apply_empty e : apply empty e = e.
Proof. by destruct e. Qed.

Lemma apply_over o2 o1 e : apply o2 (apply o1 e) = apply (over o2 o1) e.
Proof.
  destruct o2 as [[?|] [?|] [?|]], o1 as [[?|] [?|] [?|]]; reflexivity.
Qed.

Lemma apply_idem o e : apply o (apply o e) = apply o e.
Proof. destruct o as [[?|] [?|] [?|]]; reflexivity. Qed.

Lemma doc_apply_classes G d : map classes (doc_apply G d) = map classes d.
Proof.
  unfold doc_apply. apply list_eq. intros i.
  rewrite !list_lookup_fmap, list_lookup_imap.
  by destruct (d !! i).
Qed.

Lemma doc_apply_ext G G' d :
  (forall i, G (map classes d) i = G' (map classes d) i) ->
  doc_apply G d = doc_apply G' d.
Proof.
  intros HG. unfold doc_apply. apply imap_ext. intros i e _. by rewrite HG.
Qed.

Lemma doc_apply_empty d : doc_apply (fun _ _ => empty) d = d.
Proof.
  unfold doc_apply. apply list_eq. intros i. rewrite list_lookup_imap.
  destruct (d !! i); simpl; [by rewrite apply_empty | done].
Qed.

Lemma doc_apply_compose G2 G1 d :
  doc_apply G2 (doc_apply G1 d) = doc_apply (fun C i => over (G2 C i) (G1 C i)) d.
Proof.
  unfold doc_apply at 1. rewrite doc_apply_classes.
  unfold doc_apply. apply list_eq. intros i. rewrite !list_lookup_imap.
  destruct (d !! i); simpl; [by rewrite apply_over | done].
Qed.

Lemma doc_apply_idem G d : doc_apply G (doc_apply G d) = doc_apply G d.
Proof.
  unfold doc_apply at 1. rewrite doc_apply_classes.
  unfold doc_apply. apply list_eq. intros i. rewrite !list_lookup_imap.
  destruct (d !! i); simpl; [by rewrite apply_idem | done].
Qed.

Lemma doc_apply_lookup G d i e :
  d !! i = Some e ->
  doc_apply G d !! i = Some (apply (G (map classes d) i) e).
Proof. intros He. unfold doc_apply. by rewrite list_lookup_imap, He. Qed.

Lemma existsb_classes (p : list string -> bool) d :
  existsb (fun e => p (classes e)) d = existsb p (map classes d).
Proof. induction d as [| e d IH]; simpl; [done | by rewrite IH]. Qed.

Lemma existsb_eq {A} (f g : A -> bool) l :
  (forall x, f x = g x) -> existsb f l = existsb g l.
Proof. intros Hfg. induction l as [| x l IH]; simpl; [done | by rewrite Hfg, IH]. Qed.

Lemma selected_classes T d e :
  Sheet.selected T d e = cl_selected T (map classes d) (classes e).
Proof.
  unfold Sheet.selected, cl_selected.
  change (matches_btn T) with (fun e => cl_btn T (classes e)).
  rewrite existsb_classes. by destruct (existsb _ _).
Qed.

Lemma exists_selected_classes T d :
  existsb (Sheet.selected T d) d
  = existsb (cl_selected T (map classes d)) (map classes d).
Proof.
  rewrite <- existsb_classes. apply existsb_eq.
  intros e. apply selected_classes.
Qed.

Lemma write_button_apply data e :
  Sheet.write_button data e = apply (of_button data) e.
Proof.
  unfold Sheet.write_button, of_button, apply. destruct e. simpl.
  destruct (JS.truthy (JS.get_own data "url"));
    destruct (JS.truthy (JS.get_own data "displayText"));
    destruct (JS.truthy (JS.get_own data "text"));
    destruct (JS.truthy (JS.get_own data "description")); reflexivity.
Qed.

Lemma write_config_apply cfg e :
  Static.write_config cfg e = apply (of_config cfg) e.
Proof.
  unfold Static.write_config, of_config, apply. destruct e. simpl.
  destruct (JS.truthy (JS.get_own cfg "description")); reflexivity.
Qed.

Lemma update_all_selected T data d :
  update_all (Sheet.selected T d) (Sheet.write_button data) d
  = doc_apply (fun C i => when (cl_selected T C (default [] (C !! i)))
                               (of_button data)) d.
Proof.
  unfold update_all, doc_apply. apply list_eq. intros i.
  rewrite list_lookup_fmap, list_lookup_imap, list_lookup_fmap.
  destruct (d !! i) as [e|]; simpl; [| done].
  rewrite selected_classes. destruct (cl_selected _ _ _); simpl.
  - by rewrite write_button_apply.
  - by rewrite apply_empty.
Qed.

Lemma sheet_entries_overlay entries d :
  (Classes.sheet_entries entries d).2 = doc_apply (sheet entries) d.
Proof.
  revert d. induction entries as [| [T data] rest IH]; intros d; simpl.
  - by rewrite doc_apply_empty.
  - rewrite exists_selected_classes.
    destruct (existsb _ (map classes d)) eqn:Hex.
    + destruct (JS.get data "url") eqn:Hg; simpl.
      * rewrite IH, update_all_selected, doc_apply_compose.
        apply doc_apply_ext. intros i. by rewrite Hex.
      * rewrite <- (doc_apply_empty d) at 1.
        apply doc_apply_ext. intros i. by rewrite Hex.
    + rewrite IH. apply doc_apply_ext. intros i. by rewrite Hex.
Qed.

End Overlays.

Section StaticOverlay.
Import Page Overlay.

Lemma find_first_index (p : list string -> bool) d :
  is_Some (List.find (fun e => p (classes e)) d)
  <-> is_Some (first_index p (map classes d)).
Proof.
  induction d as [| e d IH]; simpl.
  - done.
  - destruct (p (classes e)); [by split; eauto |].
    rewrite IH. destruct (first_index p (map classes d)); simpl.
    + split; eauto.
    + split; intros [? ?]; done.
Qed.

Lemma update_first_imap T cfg d :
  update_first (matches_btn T) (Static.write_config cfg) d
  = imap (fun i e =>
            apply (match first_index (cl_btn T) (map classes d) with
                   | Some j => when (Nat.eqb j i) (of_config cfg)
                   | None => empty
                   end) e) d.
Proof.
  induction d as [| e d IH]; simpl; [done |].
  change (matches_btn T e) with (cl_btn T (classes e)).
  destruct (cl_btn T (classes e)) eqn:He; simpl.
  - rewrite write_config_apply. f_equal.
    apply list_eq. intros i. rewrite list_lookup_imap.
    destruct (d !! i); simpl; [by rewrite apply_empty | done].
  - rewrite IH. destruct (first_index (cl_btn T) (map classes d)); simpl.
    + by rewrite apply_empty.
    + by rewrite apply_empty.
Qed.

Lemma static_keys_overlay buttons keys d :
  (Classes.static_keys buttons keys d).2 = doc_apply (static buttons keys) d.
Proof.
  revert d. induction keys as [| T rest IH]; intros d; simpl.
  - by rewrite doc_apply_empty.
  - unfold querySelector.
    pose proof (find_first_index (cl_btn T) d) as Hfind.
    change (fun e => cl_btn T (classes e)) with (matches_btn T) in Hfind.
    destruct (List.find (matches_btn T) d) as [e0|] eqn:Hq.
    + destruct (first_index (cl_btn T) (map classes d)) as [j|] eqn:Hj.
      2: { destruct Hfind as [Hfind _].
           destruct Hfind as [? ?]; [eauto | done]. }
      destruct (JS.get (JS.get_own buttons T) "url") eqn:Hg; simpl.
      * rewrite IH, update_first_imap.
        change (imap _ d) with
          (doc_apply (fun C i => match first_index (cl_btn T) C with
                                 | Some j => when (Nat.eqb j i)
                                               (of_config (JS.get_own buttons T))
                                 | None => empty
                                 end) d).
        rewrite doc_apply_compose. apply doc_apply_ext. intros i.
        by rewrite Hj.
      * rewrite <- (doc_apply_empty d) at 1.
        apply doc_apply_ext. intros i. by rewrite Hj.
    + destruct (first_index (cl_btn T) (map classes d)) as [j|] eqn:Hj.
      { destruct Hfind as [_ Hfind].
        destruct Hfind as [? ?]; [eauto | done]. }
      rewrite IH. apply doc_apply_ext. intros i. by rewrite Hj.
Qed.

Lemma static_set_document_id (s : Static.state) :
  Static.set_document (Static.document s) s = s.
Proof. by destruct s. Qed.

End StaticOverlay.

(** the page after a run of each synchronizer, for names that are
    identifiers *)
Lemma sheet_sync_overlay bs d :
  exists G, (Classes.sheet_sync bs d).2 = Overlay.doc_apply G d
            /\ forall d', (Classes.sheet_sync bs d').2 = Overlay.doc_apply G d'.
Proof.
  unfold Classes.sheet_sync. destruct (negb (JS.truthy bs)).
  - exists (fun _ _ => Overlay.empty). simpl.
    split; [| intros d']; by rewrite doc_apply_empty.
  - exists (Overlay.sheet (JS.own_entries bs)).
    split; [| intros d']; apply sheet_entries_overlay.
Qed.

Lemma static_sync_overlay c :
  exists G, forall d, (Classes.static_sync c d).2 = Overlay.doc_apply G d.
Proof.
  unfold Classes.static_sync. destruct (JS.get c "buttons") as [buttons|].
  2: { exists (fun _ _ => Overlay.empty). intros d. simpl. by rewrite doc_apply_empty. }
  destruct (JS.Object_entries buttons) as [entries|].
  2: { exists (fun _ _ => Overlay.empty). intros d. simpl. by rewrite doc_apply_empty. }
  exists (Overlay.static buttons (map fst entries)). intros d.
  apply static_keys_overlay.
Qed.

(** *** The synchronizers as functions of the page *)

Section StaticRuns.
Context `{Platform}.
Import Page.

Lemma static_forEach_run buttons keys (s : Static.state) :
  Eff.for_each keys (fun buttonType =>
      d <- Eff.gets Static.document ;;
      found <- Eff.lift (Css.select_btn buttonType d) ;;
      match first_selected found with
      | Some i =>
          let buttonConfig := JS.get_own buttons buttonType in
          _ <- Eff.lift (JS.get buttonConfig "url") ;;
          Eff.modify (Static.set_document
                        (alter (Static.write_config buttonConfig) i d))
      | None => Eff.ret tt
      end) s
  = ((View.static_keys buttons keys (Static.document s)).1,
     Static.set_document
       (View.static_keys buttons keys (Static.document s)).2 s).
Proof.
  revert s. induction keys as [| T rest IH]; intros s.
  - simpl. unfold Eff.ret. by rewrite static_set_document_id.
  - simpl. run.
    destruct (Css.select_btn T (Static.document s)) as [found |]; simpl.
    2: { by rewrite static_set_document_id. }
    destruct (first_selected found).
    + destruct (JS.get _ "url"); simpl.
      * rewrite IH. simpl. reflexivity.
      * by rewrite static_set_document_id.
    + apply IH.
Qed.

(** updateButtons logs its run and rewrites the page; nothing else. *)
Lemma static_updateButtons_run (s : Static.state) :
  Static.updateButtons s
  = ((View.static_sync (Static.config s) (Static.document s)).1,
     Static.set_document
       (View.static_sync (Static.config s) (Static.document s)).2
       (Static.add_event Net.Synchronized s)).
Proof.
  unfold Static.updateButtons, View.static_sync.
  unfold Eff.bind at 1. unfold Eff.modify at 1.
  unfold Eff.bind at 1. unfold Eff.gets at 1. simpl.
  unfold Eff.bind at 1. unfold Eff.lift at 1.
  destruct (JS.get (Static.config s) "buttons") as [buttons|]; simpl.
  2: { by destruct s. }
  unfold Eff.bind at 1. unfold Eff.lift at 1.
  destruct (JS.Object_entries buttons) as [entries|]; simpl.
  2: { by destruct s. }
  rewrite static_forEach_run. reflexivity.
Qed.

End StaticRuns.

(** *** Names that are identifiers: selection by class *)

Section Identifiers.
Context `{Platform}.
Import Page.

Lemma classify_ident T : Css.is_ident T = true -> Css.classify T = Css.Identifier.
Proof. unfold Css.classify. by intros ->. Qed.

Lemma existsb_id_map {A} (f : A -> bool) l : existsb id (map f l) = existsb f l.
Proof. induction l as [| x l IH]; simpl; [done | by rewrite IH]. Qed.

Lemma select_ident T d :
  Css.is_ident T = true -> Sheet.select T d = Ok (map (Sheet.selected T d) d).
Proof.
  intros Hid. unfold Sheet.select, Css.select_btn, Css.select_class.
  rewrite classify_ident by done. simpl. rewrite existsb_id_map.
  unfold Sheet.selected. by destruct (existsb _ d).
Qed.

Lemma update_mask_map sel f d : update_mask (map sel d) f d = update_all sel f d.
Proof.
  unfold update_mask, update_all. apply list_eq. intros i.
  rewrite list_lookup_imap, !list_lookup_fmap.
  by destruct (d !! i).
Qed.

Lemma sheet_entries_classes entries d :
  Forall (fun kv : string * value => Css.is_ident kv.1 = true) entries ->
  View.sheet_entries entries d = Classes.sheet_entries entries d.
Proof.
  intros Hall. revert d.
  induction Hall as [| [T data] rest Hid Hall IH]; intros d; simpl; [done |].
  simpl in Hid. rewrite select_ident by done.
  rewrite existsb_id_map, update_mask_map.
  destruct (existsb _ d); [| apply IH].
  destruct (JS.get data "url"); [apply IH | done].
Qed.

Lemma sheet_sync_classes bs d :
  View.identifiers bs -> View.sheet_sync bs d = Classes.sheet_sync bs d.
Proof.
  intros Hid. unfold View.sheet_sync, Classes.sheet_sync.
  destruct (negb (JS.truthy bs)); [done |]. by apply sheet_entries_classes.
Qed.

Lemma first_selected_find sel (f : element -> element) d :
  match first_selected (map sel d) with
  | Some i => alter f i d = update_first sel f d /\ is_Some (List.find sel d)
  | None => List.find sel d = None
  end.
Proof.
  induction d as [| e d IH]; simpl; [done |].
  destruct (sel e); [by eauto |].
  destruct (first_selected (map sel d)) as [i |]; simpl.
  - destruct IH as [IHa Hs]. split; [| done].
    change (e :: alter f i d = e :: update_first sel f d). by f_equal.
  - done.
Qed.

Lemma static_keys_classes buttons keys d :
  Forall (fun T => Css.is_ident T = true) keys ->
  View.static_keys buttons keys d = Classes.static_keys buttons keys d.
Proof.
  intros Hall. revert d.
  induction Hall as [| T rest Hid Hall IH]; intros d; simpl; [done |].
  unfold Css.select_btn. rewrite classify_ident by done.
  unfold querySelector.
  pose proof (first_selected_find (matches_btn T)
                (Static.write_config (JS.get_own buttons T)) d) as Hfirst.
  destruct (first_selected (map (matches_btn T) d)) as [i |].
  - destruct Hfirst as [Halter [e He]]. rewrite He.
    destruct (JS.get _ "url"); [| done]. rewrite Halter. apply IH.
  - rewrite Hfirst. apply IH.
Qed.

Lemma static_sync_classes c d :
  View.identifiers (JS.get_own c "buttons") ->
  View.static_sync c d = Classes.static_sync c d.
Proof.
  intros Hid. unfold View.static_sync, Classes.static_sync.
  destruct (JS.get c "buttons") as [buttons |] eqn:Hc; [| done].
  apply get_ok_inv in Hc as (-> & _).
  destruct (JS.Object_entries (JS.get_own c "buttons")) as [entries |] eqn:He;
    [| done].
  apply static_keys_classes.
  assert (entries = JS.own_entries (JS.get_own c "buttons")) as ->.
  { destruct (JS.get_own c "buttons"); simpl in *; congruence. }
  apply Forall_fmap. exact Hid.
Qed.

End Identifiers.

(** C4, as the code has it: the synchronizer is idempotent for the
    snapshots whose button names are identifiers of CSS, on a page
    whose nodes do not contain one another. For every such state of
    either button manager, a second run of updateButtons right after the
    first leaves the page, that is every destination, text and tooltip,
    exactly as the first run left it, also when a run ends by an
    exception. *)
Theorem updateButtons_idempotent `{Platform} :
  (forall s : Sheet.state,
     View.identifiers (Sheet.buttons s) ->
     Sheet.document (Sheet.updateButtons (Sheet.updateButtons s).2).2
     = Sheet.document (Sheet.updateButtons s).2)
  /\ (forall s : Static.state,
        View.identifiers (JS.get_own (Static.config s) "buttons") ->
        Static.document (Static.updateButtons (Static.updateButtons s).2).2
        = Static.document (Static.updateButtons s).2).
Proof.
  split; intros s Hid.
  - rewrite !sheet_updateButtons_run. simpl.
    rewrite !sheet_sync_classes by done.
    destruct (sheet_sync_overlay (Sheet.buttons s) (Sheet.document s))
      as (G & _ & HG).
    rewrite !HG. apply doc_apply_idem.
  - rewrite !static_updateButtons_run. simpl.
    rewrite !static_sync_classes by done.
    destruct (static_sync_overlay (Static.config s)) as (G & HG).
    rewrite !HG. apply doc_apply_idem.
Qed.

Lemma updateButtons_idempotent_witness :
  let s := Sheet.constructed ∅ Example.page in
  Sheet.document
    (Sheet.updateButtons (H := Example.platform)
       (Sheet.updateButtons (H := Example.platform) s).2).2
  = Sheet.document (Sheet.updateButtons (H := Example.platform) s).2.
Proof.
  intros s.
  apply (proj1 (updateButtons_idempotent (H := Example.platform)) s).
  repeat constructor.
Defined.

(** C4, as stated, fails for a name that is not an identifier: the name
    is pasted into the selector, and with the name zz,[title=tip] the
    selector also selects the nodes whose tooltip is tip. The first run
    finds no such node and then writes that tooltip on the primary
    button; the second run finds the primary button by its tooltip and
    writes its destination. *)
Lemma updateButtons_second_run_differs :
  let s := Sheet.set_buttons Example.selector_snapshot
             (Sheet.constructed ∅ Example.page) in
  let s1 := (Sheet.updateButtons (H := Example.platform) s).2 in
  let s2 := (Sheet.updateButtons (H := Example.platform) s1).2 in
  Page.href <$> Sheet.document s1 !! 0%nat = Some (VStr "#")
  /\ Page.href <$> Sheet.document s2 !! 0%nat
     = Some (VStr "https://example.com/x")
  /\ Sheet.document s2 <> Sheet.document s1.
Proof.
  vm_compute. split; [done |]. split; [done |]. discriminate.
Qed.

(** ** Reasoning on computations *)

Section StepsLemmas.
Import Eff Steps.
Context {S : Type} (R : S -> S -> Prop).
Context (R_refl : forall s, R s s).
Context (R_trans : forall s1 s2 s3, R s1 s2 -> R s2 s3 -> R s1 s3).

Lemma steps_ret {A} (a : A) : steps R (ret a).
Proof using R_refl. intros s. apply R_refl. Qed.

Lemma steps_throw {A} e : steps R (@throw S A e).
Proof using R_refl. intros s. apply R_refl. Qed.

Lemma steps_lift {A} (o : outcome A) : steps R (lift o).
Proof using R_refl. intros s. apply R_refl. Qed.

Lemma steps_gets {A} (f : S -> A) : steps R (gets f).
Proof using R_refl. intros s. apply R_refl. Qed.

Lemma steps_modify (f : S -> S) : (forall s, R s (f s)) -> steps R (modify f).
Proof. intros Hf s. apply Hf. Qed.

Lemma steps_bind {A B} (c : M S A) (k : A -> M S B) :
  steps R c -> (forall a, steps R (k a)) -> steps R (bind c k).
Proof using R_trans.
  intros Hc Hk s. unfold bind. specialize (Hc s).
  destruct (c s) as [[a | e] s']; simpl in *; [| done].
  eapply R_trans; [exact Hc | apply Hk].
Qed.

Lemma steps_try_catch {A} (c : M S A) (h : error -> M S A) :
  steps R c -> (forall e, steps R (h e)) -> steps R (try_catch c h).
Proof using R_trans.
  intros Hc Hh s. unfold try_catch. specialize (Hc s).
  destruct (c s) as [[a | e] s']; simpl in *; [done |].
  eapply R_trans; [exact Hc | apply Hh].
Qed.

Lemma steps_for_each {A} (l : list A) (f : A -> M S unit) :
  (forall x, steps R (f x)) -> steps R (for_each l f).
Proof using R_refl R_trans.
  intros Hf. induction l as [| x l IH]; simpl.
  - apply steps_ret.
  - apply steps_bind; auto.
Qed.

End StepsLemmas.

(** a computation that is a composition of steps, one constructor at a
    time *)
Create HintDb steps.

Ltac steps_go :=
  repeat first
    [ solve [auto 2 with steps nocore]
    | apply steps_ret; [assumption]
    | apply steps_throw; [assumption]
    | apply steps_lift; [assumption]
    | apply steps_gets; [assumption]
    | apply steps_modify; intros ?; solve [auto 2 with steps nocore | reflexivity]
    | apply steps_bind; [assumption | | intros ?]
    | apply steps_try_catch; [assumption | | intros ?]
    | apply steps_for_each; [assumption | assumption | intros ?]
    | match goal with
      | |- Steps.steps _ (if ?b then _ else _) => destruct b
      | |- Steps.steps _ (match ?x with _ => _ end) => destruct x
      | |- Steps.steps _ (let '(_, _) := ?x in _) => destruct x
      end ].

(** ** The remote update writer *)

Section WriterGuard.
Context `{Platform}.
Import Eff Steps.

(** C9, as the code has it: for a button name that the in-memory button
    map neither has as a property of its own nor inherits from a
    prototype with a truthy value, updateButton answers false and leaves
    the whole state as it was: the button map, the page, the local cache
    and the log of requests (no merge, no fetch, no write). *)
Theorem updateButton_unknown_name (w : Sheet.world) (s : Sheet.state)
    (name : string) (patch : value) (props : list (string * value)) :
  Sheet.buttons s = VObj props ->
  JS.lookup_prop name props = None ->
  JS.truthy (inherited (VObj props) name) = false ->
  Sheet.updateButton w name patch s = (Ok (VBool false), s).
Proof.
  intros Hb Hl Hi. unfold Sheet.updateButton.
  unfold bind at 1. unfold gets at 1.
  unfold bind at 1. unfold lift at 1.
  rewrite Hb. cbn [JS.get_dyn fst snd]. unfold JS.member.
  cbn [JS.has_own]. rewrite Hl.
  rewrite bool_decide_eq_false_2 by (by intros [? ?]).
  rewrite Hi. reflexivity.
Qed.

End WriterGuard.

Lemma updateButton_unknown_name_witness :
  Sheet.updateButton (H := Example.platform)
    {| Sheet.fetch := fun _ => Net.Rejected; Sheet.on_admin_page := false;
       Sheet.now := Example.today |}
    "footer" (VObj [("url", VStr "https://example.com")])
    (Sheet.constructed ∅ [])
  = (Ok (VBool false), Sheet.constructed ∅ []).
Proof.
  apply (updateButton_unknown_name (H := Example.platform) _ _ _ _
           (JS.own_entries Sheet.DEFAULT_BUTTONS)); reflexivity.
Defined.

(** C9, as stated, fails for a name that the button map inherits: the
    guard reads [this.buttons[name]] through the prototype chain. The
    default map has no button named constructor, and yet updateButton
    with that name merges the patch under a fourth key, sends the GET
    and the POST, writes the cache and answers true. *)
Lemma updateButton_inherited_name_is_merged :
  let s := Sheet.constructed ∅ Example.page in
  let r := Sheet.updateButton (H := Example.platform) Worlds.empty_sheet
             "constructor" Example.url_patch s in
  JS.lookup_prop "constructor" (JS.own_entries (Sheet.buttons s)) = None
  /\ r.1 = Ok (VBool true)
  /\ JS.lookup_prop "constructor" (JS.own_entries (Sheet.buttons r.2))
     = Some (VObj [ ("url", VStr "https://example.com");
                    ("lastUpdated", VStr "2024-01-01T00:00:00.000Z") ])
  /\ map Net.method (Net.requests (Sheet.log r.2)) = [ "GET"; "POST" ]
  /\ is_Some (Sheet.localStorage r.2 !! "buttonData").
Proof. vm_compute. repeat split. by eexists. Qed.

(** *** Property lists *)

Lemma lookup_set_prop_eq k v ps : JS.lookup_prop k (JS.set_prop k v ps) = Some v.
Proof.
  induction ps as [| [k' v'] ps IH]; simpl.
  - by rewrite String.eqb_refl.
  - destruct (String.eqb k' k) eqn:Hk; simpl; rewrite Hk; [done | exact IH].
Qed.

Lemma lookup_set_prop_ne k k' v ps :
  k <> k' -> JS.lookup_prop k' (JS.set_prop k v ps) = JS.lookup_prop k' ps.
Proof.
  intros Hne. induction ps as [| [k0 v0] ps IH]; simpl.
  - apply String.eqb_neq in Hne. by rewrite Hne.
  - destruct (String.eqb k0 k) eqn:Hk; simpl.
    + apply String.eqb_eq in Hk. subst k0.
      apply String.eqb_neq in Hne. by rewrite Hne.
    + by rewrite IH.
Qed.

Lemma replace_set_prop k x y ps :
  JS.replace_prop k y (JS.set_prop k x ps) = JS.set_prop k y ps.
Proof.
  induction ps as [| [k' v'] ps IH]; simpl.
  - by rewrite String.eqb_refl.
  - destruct (String.eqb k' k) eqn:Hk; simpl; rewrite Hk; [done | by rewrite IH].
Qed.

Lemma set_prop_keys_present k v ps :
  is_Some (JS.lookup_prop k ps) -> (JS.set_prop k v ps).*1 = ps.*1.
Proof.
  induction ps as [| [k' v'] ps IH]; simpl.
  - intros [? ?]; done.
  - destruct (String.eqb k' k) eqn:Hk; simpl; [done |].
    intros Hs. f_equal. by apply IH.
Qed.

Lemma lookup_prop_Some_In k v ps : JS.lookup_prop k ps = Some v -> (k, v) ∈ ps.
Proof.
  induction ps as [| [k' v'] ps IH]; simpl; [done |].
  destruct (String.eqb k' k) eqn:Hk.
  - apply String.eqb_eq in Hk. intros [= ->]. subst. left.
  - intros Hl. right. by apply IH.
Qed.

Lemma lookup_prop_None k ps : JS.lookup_prop k ps = None <-> k ∉ ps.*1.
Proof.
  induction ps as [| [k' v'] ps IH]; simpl.
  - split; [intros _; apply not_elem_of_nil | done].
  - rewrite not_elem_of_cons. destruct (String.eqb k' k) eqn:Hk.
    + apply String.eqb_eq in Hk. split; [done | intros [? _]; congruence].
    + apply String.eqb_neq in Hk. rewrite IH. split; [intros; split; [congruence | done] | tauto].
Qed.

Lemma set_prop_Forall (P : string * value -> Prop) k v ps :
  Forall P ps -> (forall k', P (k', v)) -> Forall P (JS.set_prop k v ps).
Proof.
  intros Hps Hv. induction Hps as [| [k' v'] ps Hx Hps IH]; simpl.
  - by constructor.
  - destruct (String.eqb k' k); constructor; auto.
Qed.

(** the spread keeps the last value given to a name *)
Lemma lookup_fold_set_prop k es acc :
  NoDup es.*1 ->
  JS.lookup_prop k (fold_left (fun ps kv => JS.set_prop kv.1 kv.2 ps) es acc)
  = match JS.lookup_prop k es with
    | Some v => Some v
    | None => JS.lookup_prop k acc
    end.
Proof.
  revert acc. induction es as [| [k' v'] es IH]; intros acc Hnd; simpl; [done |].
  apply NoDup_cons in Hnd as [Hnotin Hnd]. rewrite IH by done. simpl in *.
  destruct (String.eqb k' k) eqn:Hk.
  - apply String.eqb_eq in Hk. subst k'.
    apply lookup_prop_None in Hnotin. rewrite Hnotin.
    apply lookup_set_prop_eq.
  - apply String.eqb_neq in Hk.
    destruct (JS.lookup_prop k es); [done |].
    by apply lookup_set_prop_ne.
Qed.

Lemma merged_url old updates iso u :
  NoDup (JS.own_entries updates).*1 ->
  JS.lookup_prop "url" (JS.own_entries updates) = Some u ->
  JS.get_own (View.merged old updates iso) "url" = u.
Proof.
  intros Hnd Hu. unfold View.merged, JS.spread. simpl.
  rewrite lookup_set_prop_ne by done.
  rewrite lookup_fold_set_prop by done. by rewrite Hu.
Qed.

Section WriterFrame.
Context `{Platform}.
Import Eff Steps Frame.

Lemma only_fetches_refl s : only_fetches s s.
Proof. repeat split. exists []. simpl. by rewrite app_nil_r. Qed.

Lemma only_fetches_trans s1 s2 s3 :
  only_fetches s1 s2 -> only_fetches s2 s3 -> only_fetches s1 s3.
Proof.
  intros (Hb & Hc & Hl & Hd & r1 & Hr1) (Hb' & Hc' & Hl' & Hd' & r2 & Hr2).
  repeat split; try congruence.
  exists (r1 ++ r2)%list. rewrite Hr2, Hr1, map_app. by rewrite app_assoc.
Qed.

Lemma do_fetch_only_fetches w r : steps only_fetches (Sheet.do_fetch w r).
Proof.
  intros s. unfold Sheet.do_fetch. run.
  assert (Hs : only_fetches s (Sheet.add_event (Net.Fetched r) s)).
  { repeat split. by exists [r]. }
  destruct (Sheet.fetch w r); exact Hs.
Qed.

#[local] Hint Resolve do_fetch_only_fetches : steps.

Lemma persist_only_fetches w name patch :
  steps only_fetches (Sheet.persist w name patch).
Proof.
  pose proof only_fetches_refl as Hr. pose proof only_fetches_trans as Ht.
  unfold Sheet.persist, Sheet.url_of, Sheet.button_url.
  steps_go.
Qed.

End WriterFrame.

Section WriterResult.
Context `{Platform}.
Import Eff Steps Frame.

Lemma do_fetch_run w r (s : Sheet.state) :
  Sheet.do_fetch w r s
  = (match Sheet.fetch w r with
     | Net.Rejected => Throw NetworkError
     | Net.Response ok text => Ok (ok, text)
     end, Sheet.add_event (Net.Fetched r) s).
Proof. unfold Sheet.do_fetch. run. by destruct (Sheet.fetch w r). Qed.

Lemma bind_ok {S A B} (c : M S A) (k : A -> M S B) s b s' :
  bind c k s = (Ok b, s') ->
  exists a s1, c s = (Ok a, s1) /\ k a s1 = (Ok b, s').
Proof.
  unfold bind. destruct (c s) as [[a | e] s1]; [eauto | discriminate].
Qed.

Lemma button_url_run name (s : Sheet.state) :
  Sheet.button_url name s = (url_in (Sheet.buttons s) name, s).
Proof.
  unfold Sheet.button_url, url_in. run.
  destruct (JS.get (Sheet.buttons s) name); simpl; [| done].
  by destruct (JS.get _ "url").
Qed.

(** the try block of updateButton goes through exactly when the remote
    write is accepted *)
Lemma persist_result w name patch (s : Sheet.state) button :
  JS.get_dyn (Sheet.buttons s) name = Ok button ->
  button <> VUndefined -> button <> VNull ->
  (Sheet.persist w name patch s).1 = Ok tt
  <-> write_accepted w (Sheet.buttons s) patch.
Proof.
  intros Hget Hu Hn. unfold Sheet.persist, write_accepted.
  unfold bind at 1. unfold gets at 1.
  unfold bind at 1. unfold lift at 1. rewrite Hget.
  unfold bind at 1. unfold Sheet.url_of.
  unfold bind at 1. unfold lift at 1.
  destruct (JS.get patch "url") as [u |] eqn:Hpatch.
  2: { cbn [fst]. split; [discriminate |]. intros (Hpu & Hpn & _).
       rewrite get_ok in Hpatch by done. discriminate. }
  apply get_ok_inv in Hpatch as (_ & Hpu & Hpn).
  assert (Hurl : exists url, (if JS.truthy u then ret u
                              else lift (JS.get button "url")) s = (Ok url, s)).
  { destruct (JS.truthy u); [by eexists |].
    rewrite get_ok by done. by eexists. }
  destruct Hurl as (url & ->).
  unfold bind at 1. unfold lift at 1. rewrite (get_ok button) by done.
  unfold bind at 1. rewrite do_fetch_run.
  destruct (Sheet.fetch w (Net.GET Sheet.SHEETDB_API)) as [| ok text] eqn:Hf.
  { cbn [fst]. split; [discriminate |].
    intros (_ & _ & ? & ? & ? & ? & ? & ? & ? & _). discriminate. }
  destruct ok; cbn [fst snd negb].
  2: { unfold throw. cbn [fst]. split; [discriminate |].
       intros (_ & _ & ? & ? & ? & ? & ? & ? & ? & _). discriminate. }
  unfold bind at 1. unfold try_catch, lift, JS.parse.
  destruct (JSON_parse text) as [data |] eqn:Hp.
  2: { unfold throw. cbn [fst]. split; [discriminate |].
       intros (_ & _ & ? & ? & ? & ? & ? & ? & [= <-] & ? & _). congruence. }
  destruct (negb (JS.truthy data) || JS.is_zero (JS.get_own data "length"))
    eqn:Hempty.
  2: { split.
       - unfold throw.
         destruct (negb (JS.truthy (JS.get_own data "0")));
           cbn [fst]; [discriminate |].
         destruct (negb (JS.truthy (default _ _))); cbn [fst]; discriminate.
       - intros (_ & _ & ? & ? & ? & ? & ? & ? & [= <-] & Hp' & He & _).
         congruence. }
  unfold bind at 1. rewrite button_url_run. cbn [Sheet.buttons Sheet.add_event].
  destruct (url_in (Sheet.buttons s) "primary") as [btn1 |] eqn:H1.
  2: { cbn [fst]. split; [discriminate |].
       intros (_ & _ & ? & ? & ? & ? & ? & ? & _ & _ & _ & ? & _). discriminate. }
  unfold bind at 1. rewrite button_url_run. cbn [Sheet.buttons Sheet.add_event].
  destruct (url_in (Sheet.buttons s) "secondary") as [btn2 |] eqn:H2.
  2: { cbn [fst]. split; [discriminate |].
       intros (_ & _ & ? & ? & ? & ? & ? & ? & _ & _ & _ & _ & ? & _). discriminate. }
  unfold bind at 1. rewrite button_url_run. cbn [Sheet.buttons Sheet.add_event].
  destruct (url_in (Sheet.buttons s) "accent") as [btn3 |] eqn:H3.
  2: { cbn [fst]. split; [discriminate |].
       intros (_ & _ & ? & ? & ? & ? & ? & ? & _ & _ & _ & _ & _ & ? & _). discriminate. }
  unfold bind at 1. rewrite do_fetch_run. fold (create_request btn1 btn2 btn3).
  destruct (Sheet.fetch w (create_request btn1 btn2 btn3)) as [| ok' text'] eqn:Hpost.
  { cbn [fst]. split; [discriminate |].
    intros (_ & _ & ? & ? & ? & ? & ? & ? & _ & _ & _ & [= <-] & [= <-] & [= <-] & Hpost').
    congruence. }
  destruct ok'; cbn [fst snd negb].
  - split; [intros _ | done].
    split; [done | split; [done |]].
    exists text, data, btn1, btn2, btn3, text'. done.
  - unfold throw. cbn [fst]. split; [discriminate |].
    intros (_ & _ & ? & ? & ? & ? & ? & ? & _ & _ & _ & [= <-] & [= <-] & [= <-] & Hpost').
    congruence.
Qed.

End WriterResult.

Section WriterRun.
Context `{Platform}.
Import Eff Steps Frame.

Lemma classes_entries_no_throw entries d :
  Forall View.not_nullish entries -> (Classes.sheet_entries entries d).1 = Ok tt.
Proof.
  intros Hall. revert d.
  induction Hall as [| [T data] rest [Hu Hn] Hall IH]; intros d; simpl; [done |].
  destruct (existsb _ _); [| apply IH].
  simpl in Hu, Hn. rewrite get_ok by done. apply IH.
Qed.

(** the synchronizer does not throw on a snapshot whose names are
    identifiers and whose entries are neither null nor undefined *)
Lemma sheet_entries_no_throw entries d :
  Forall (fun kv : string * value => Css.is_ident kv.1 = true) entries ->
  Forall View.not_nullish entries -> (View.sheet_entries entries d).1 = Ok tt.
Proof.
  intros Hid Hall. rewrite sheet_entries_classes by done.
  by apply classes_entries_no_throw.
Qed.

Lemma member_own props name old :
  JS.lookup_prop name props = Some old -> JS.member (VObj props) name = old.
Proof.
  intros Hl. unfold JS.member. cbn [JS.has_own JS.get_own]. rewrite Hl.
  by rewrite bool_decide_eq_true_2 by eauto.
Qed.

Lemma assign_existing_own props name old x :
  JS.lookup_prop name props = Some old ->
  JS.assign_existing (VObj props) name x = Ok (VObj (JS.set_prop name x props)).
Proof.
  intros Hl. cbn [JS.assign_existing]. rewrite Hl.
  rewrite bool_decide_eq_true_2 by eauto. by rewrite andb_false_r.
Qed.

(** updateButton on a button that exists: the merge and the run of the
    synchronizer, and then, unless the synchronizer has thrown, the try
    block *)
Lemma updateButton_merge w (s : Sheet.state) name patch props old :
  Sheet.buttons s = VObj props ->
  JS.lookup_prop name props = Some old ->
  JS.truthy old = true ->
  let m := VObj (JS.set_prop name
                   (View.merged old patch (Date_toISOString (Sheet.now w)))
                   props) in
  let s2 := Sheet.set_document (View.sheet_sync m (Sheet.document s)).2
              (Sheet.add_event Net.Synchronized (Sheet.set_buttons m s)) in
  Sheet.updateButton w name patch s
  = match (View.sheet_sync m (Sheet.document s)).1 with
    | Ok _ =>
        try_catch
          (Sheet.persist w name patch ;; Sheet.save_buttons ;; ret (VBool true))
          (fun _ => Sheet.save_buttons ;; ret (VBool false)) s2
    | Throw e => (Throw e, s2)
    end.
Proof.
  intros Hb Hl Ht m s2. unfold Sheet.updateButton.
  unfold bind at 1. unfold gets at 1.
  unfold bind at 1. unfold lift at 1.
  rewrite Hb. cbn [JS.get_dyn fst snd].
  rewrite (member_own props name old Hl). rewrite Ht. cbn [negb].
  unfold bind at 1. unfold lift at 1.
  rewrite (assign_existing_own props name old _ Hl). cbn [fst snd].
  unfold bind at 1. unfold modify at 1.
  unfold bind at 1. unfold lift at 1. cbn [JS.get_dyn fst snd].
  rewrite (member_own _ name _ (lookup_set_prop_eq name _ props)).
  cbn [fst snd].
  unfold bind at 1. unfold lift at 1. cbn [JS.assign_named fst snd].
  unfold bind at 1. unfold modify at 1. cbn [JS.replace_at fst snd].
  rewrite replace_set_prop. fold (View.merged old patch (Date_toISOString (Sheet.now w))).
  fold m.
  unfold bind at 1. rewrite sheet_updateButtons_run. simpl.
  replace (Sheet.set_buttons m (Sheet.set_buttons _ s))
    with (Sheet.set_buttons m s) by (by destruct s).
  fold s2.
  by destruct ((View.sheet_sync m (Sheet.document s)).1) as [[] | e].
Qed.

Lemma updateButton_run w (s : Sheet.state) name patch props old :
  Sheet.buttons s = VObj props ->
  JS.lookup_prop name props = Some old ->
  JS.truthy old = true ->
  let m := VObj (JS.set_prop name
                   (View.merged old patch (Date_toISOString (Sheet.now w)))
                   props) in
  let s2 := Sheet.set_document (View.sheet_sync m (Sheet.document s)).2
              (Sheet.add_event Net.Synchronized (Sheet.set_buttons m s)) in
  match (View.sheet_sync m (Sheet.document s)).1 with
  | Throw e => Sheet.updateButton w name patch s = (Throw e, s2)
  | Ok _ =>
      exists s3 b,
        Sheet.updateButton w name patch s
        = (Ok (VBool b),
           Sheet.setItem "buttonData" (default "undefined" (JSON_stringify m)) s3)
        /\ only_fetches s2 s3
        /\ (b = true <-> write_accepted w m patch)
  end.
Proof.
  intros Hb Hl Ht m s2.
  rewrite (updateButton_merge w s name patch props old Hb Hl Ht).
  fold m. fold s2.
  destruct ((View.sheet_sync m (Sheet.document s)).1) as [[] | e]; [| done].
  unfold try_catch.
  unfold bind at 1.
  pose proof (persist_only_fetches w name patch s2) as Hframe.
  assert (Hres : (Sheet.persist w name patch s2).1 = Ok tt
                 <-> write_accepted w m patch).
  { apply (persist_result w name patch s2
             (VObj (JS.set_prop "lastUpdated"
                      (VStr (Date_toISOString (Sheet.now w)))
                      (JS.spread old patch)))); [| done | done].
    unfold s2, m. cbn [Sheet.buttons Sheet.set_document Sheet.add_event
                         Sheet.set_buttons JS.get_dyn].
    by rewrite (member_own _ name _ (lookup_set_prop_eq name _ props)). }
  destruct (Sheet.persist w name patch s2) as [[[] | e] s3] eqn:Hp;
    simpl in Hframe, Hres.
  - exists s3, true. run.
    pose proof Hframe as (Hb3 & _). rewrite Hb3. simpl.
    split; [done | split; [done |]]. split; [intros _; by apply Hres | done].
  - exists s3, false. run.
    pose proof Hframe as (Hb3 & _). rewrite Hb3. simpl.
    split; [done | split; [done |]]. split; [done |].
    intros Hw. apply Hres in Hw. discriminate.
Qed.

(** the properties of the merged button: those of the patch, then those
    that the button had, and the date of the update *)
Lemma merged_lookup old updates iso k :
  NoDup (JS.own_entries old).*1 ->
  NoDup (JS.own_entries updates).*1 ->
  JS.get_own (View.merged old updates iso) k
  = if String.eqb k "lastUpdated" then VStr iso
    else match JS.lookup_prop k (JS.own_entries updates) with
         | Some v => v
         | None => default VUndefined (JS.lookup_prop k (JS.own_entries old))
         end.
Proof.
  intros Hndo Hndu. unfold View.merged. cbn [JS.get_own].
  destruct (String.eqb k "lastUpdated") eqn:Hk.
  - apply String.eqb_eq in Hk. subst k. by rewrite lookup_set_prop_eq.
  - apply String.eqb_neq in Hk.
    rewrite lookup_set_prop_ne by congruence.
    unfold JS.spread. rewrite lookup_fold_set_prop by done.
    destruct (JS.lookup_prop k (JS.own_entries updates)); [done |].
    rewrite lookup_fold_set_prop by done.
    by destruct (JS.lookup_prop k (JS.own_entries old)).
Qed.

End WriterRun.

Section Href.
Import Page Overlay.

Lemma sheet_overlay_unselected entries C i cl :
  C !! i = Some cl ->
  (forall k, k ∈ entries.*1 -> cl_selected k C cl = false) ->
  sheet entries C i = empty.
Proof.
  intros Hi. induction entries as [| [k data] rest IH]; intros Hsel; simpl; [done |].
  assert (Hrest : sheet rest C i = empty).
  { apply IH. intros k' Hk'. apply Hsel. simpl. by right. }
  destruct (existsb _ C); [| done].
  destruct (JS.get data "url"); [| done].
  rewrite Hrest, Hi. simpl. rewrite (Hsel k) by (simpl; left). reflexivity.
Qed.

Lemma cl_selected_exists T C i cl :
  C !! i = Some cl -> cl_selected T C cl = true ->
  existsb (cl_selected T C) C = true.
Proof.
  intros Hi Hsel. apply existsb_exists. exists cl. split; [| done].
  apply list_elem_of_In. by eapply list_elem_of_lookup_2.
Qed.

(** the destination written on a node that one entry only selects *)
Lemma sheet_overlay_href entries C i cl name data :
  NoDup entries.*1 ->
  Forall View.not_nullish entries ->
  (name, data) ∈ entries ->
  C !! i = Some cl ->
  cl_selected name C cl = true ->
  (forall k, k ∈ entries.*1 -> k <> name -> cl_selected k C cl = false) ->
  o_href (sheet entries C i) = o_href (of_button data).
Proof.
  intros Hnd Hall Hin Hi Hsel Hother.
  induction entries as [| [k d] rest IH]; simpl; [by apply elem_of_nil in Hin |].
  apply NoDup_cons in Hnd as [Hk Hnd]. simpl in Hk.
  apply Forall_cons in Hall as [[Hu Hn] Hall]. simpl in Hu, Hn.
  rewrite Hi. simpl.
  apply elem_of_cons in Hin as [[= <- <-] | Hin].
  - rewrite (cl_selected_exists name C i cl) by done.
    rewrite get_ok by done. rewrite Hsel. simpl.
    rewrite (sheet_overlay_unselected rest C i cl); [by destruct (of_button data) | done |].
    intros k' Hk'. apply Hother; [simpl; by right |].
    intros ->. done.
  - assert (Hne : k <> name).
    { intros ->. apply Hk. apply list_elem_of_fmap. by exists (name, data). }
    assert (IH' : o_href (sheet rest C i) = o_href (of_button data)).
    { apply IH; try done. intros k' Hk' Hk'ne. apply Hother; [simpl; by right | done]. }
    destruct (existsb _ C); [| done].
    rewrite get_ok by done.
    rewrite (Hother k); [| simpl; left | done]. simpl.
    rewrite IH'. unfold later. simpl. by destruct (JS.truthy _).
Qed.

End Href.




(** ** The pollers *)

Section Pollers.
Context `{Platform}.
Import Eff Steps Net Poll.

#[local] Arguments Net.syncs : simpl never.

Lemma syncs_app l1 l2 : syncs (l1 ++ l2) = (syncs l1 + syncs l2)%nat.
Proof. unfold syncs. by rewrite List.filter_app, length_app. Qed.

Lemma static_setupConfigWatcher_tick_differs w (s : Static.state) c' :
  fetched_differs (Static.fetch w (static_request w)) (Static.config s) c' ->
  (Static.setupConfigWatcher_tick w s).2
  = Static.set_document (View.static_sync c' (Static.document s)).2
      (Static.add_event Synchronized
         (Static.set_config c'
            (Static.add_event (Fetched (static_request w)) s))).
Proof.
  intros (text & Ha & Hp & Hne). unfold Static.setupConfigWatcher_tick.
  fold (static_request w). unfold try_catch, Static.do_fetch.
  unfold bind at 1. unfold bind at 1. unfold modify at 1.
  rewrite Ha. unfold ret at 1. simpl.
  unfold bind at 1. unfold lift at 1. unfold JS.parse. rewrite Hp.
  unfold bind at 1. unfold gets at 1. simpl.
  rewrite bool_decide_eq_false_2 by done. simpl.
  unfold bind at 1. unfold modify at 1.
  rewrite static_updateButtons_run. simpl.
  by destruct (View.static_sync c' (Static.document s)) as [[[]|e] d].
Qed.

Lemma static_setupConfigWatcher_tick_same w (s : Static.state) :
  nothing_new (Static.fetch w (static_request w)) (Static.config s) ->
  (Static.setupConfigWatcher_tick w s).2
  = Static.add_event (Fetched (static_request w)) s.
Proof.
  intros Hsame. unfold Static.setupConfigWatcher_tick.
  fold (static_request w). unfold try_catch, Static.do_fetch.
  unfold bind at 1. unfold bind at 1. unfold modify at 1.
  destruct (Static.fetch w (static_request w)) as [| ok text] eqn:Ha; [done |].
  unfold ret at 1. simpl. destruct ok; simpl; [| done].
  unfold bind at 1. unfold lift at 1. unfold JS.parse.
  destruct (JSON_parse text) as [c'|] eqn:Hp; simpl; [| done].
  unfold bind at 1. unfold gets at 1. simpl.
  by rewrite bool_decide_eq_true_2 by (by eapply Hsame).
Qed.

Lemma sheet_startPolling_tick_differs w (s : Sheet.state) c' :
  fetched_differs (Sheet.fetch w (sheet_request w)) (Sheet.config s) c' ->
  (Sheet.startPolling_tick w s).2
  = Sheet.set_document (View.sheet_sync (Sheet.buttons s) (Sheet.document s)).2
      (Sheet.add_event Synchronized
         (Sheet.set_config c'
            (Sheet.add_event (Fetched (sheet_request w)) s))).
Proof.
  intros (text & Ha & Hp & Hne). unfold Sheet.startPolling_tick.
  fold (sheet_request w). unfold try_catch, Sheet.do_fetch.
  unfold bind at 1. unfold bind at 1. unfold modify at 1.
  rewrite Ha. unfold ret at 1. simpl.
  unfold bind at 1. unfold lift at 1. unfold JS.parse. rewrite Hp.
  unfold bind at 1. unfold gets at 1. simpl.
  rewrite bool_decide_eq_false_2 by done. simpl.
  unfold bind at 1. unfold modify at 1.
  rewrite sheet_updateButtons_run. simpl.
  by destruct (View.sheet_sync _ _) as [[[]|e] d].
Qed.

Lemma sheet_startPolling_tick_same w (s : Sheet.state) :
  nothing_new (Sheet.fetch w (sheet_request w)) (Sheet.config s) ->
  (Sheet.startPolling_tick w s).2
  = Sheet.add_event (Fetched (sheet_request w)) s.
Proof.
  intros Hsame. unfold Sheet.startPolling_tick.
  fold (sheet_request w). unfold try_catch, Sheet.do_fetch.
  unfold bind at 1. unfold bind at 1. unfold modify at 1.
  destruct (Sheet.fetch w (sheet_request w)) as [| ok text] eqn:Ha; [done |].
  unfold ret at 1. simpl. destruct ok; simpl; [| done].
  unfold bind at 1. unfold lift at 1. unfold JS.parse.
  destruct (JSON_parse text) as [c'|] eqn:Hp; simpl; [| done].
  unfold bind at 1. unfold gets at 1. simpl.
  by rewrite bool_decide_eq_true_2 by (by eapply Hsame).
Qed.

Lemma same_syncs_refl s : same_syncs s s.
Proof. reflexivity. Qed.

Lemma same_syncs_trans s1 s2 s3 :
  same_syncs s1 s2 -> same_syncs s2 s3 -> same_syncs s1 s3.
Proof. unfold same_syncs. congruence. Qed.

Lemma do_fetch_same_syncs w r : steps same_syncs (Sheet.do_fetch w r).
Proof.
  intros s. unfold Sheet.do_fetch, same_syncs. run.
  destruct (Sheet.fetch w r); simpl; rewrite syncs_app; unfold syncs; simpl; lia.
Qed.

#[local] Hint Resolve do_fetch_same_syncs : steps.

Lemma updateButtons_syncs (s : Sheet.state) :
  syncs (Sheet.log (Sheet.updateButtons s).2) = S (syncs (Sheet.log s)).
Proof.
  rewrite sheet_updateButtons_run. simpl. rewrite syncs_app. unfold syncs. simpl. lia.
Qed.

(** a tick of the poll of init that completes has run the synchronizer
    once, whatever it fetched *)
Lemma loadButtonData_syncs w (s : Sheet.state) :
  Sheet.on_admin_page w = false ->
  (Sheet.loadButtonData w s).1 = Ok (VBool true) ->
  syncs (Sheet.log (Sheet.loadButtonData w s).2) = S (syncs (Sheet.log s)).
Proof.
  intros Hadmin. unfold Sheet.loadButtonData. rewrite Hadmin.
  unfold try_catch.
  match goal with
  | |- context [let (o, s') := ?c s in _] => destruct (c s) as [[a | e] s1] eqn:Hrun
  end; simpl; [intros _ | discriminate].
  pose proof same_syncs_refl as Hr. pose proof same_syncs_trans as Ht.
  apply bind_ok in Hrun as (r & s2 & Hfetch & Hrun).
  apply bind_ok in Hrun as (u & s3 & Hmid & Hrun).
  apply bind_ok in Hrun as (u' & s4 & Hsync & Hrun).
  injection Hrun as _ <-.
  match type of Hfetch with
  | Sheet.do_fetch _ ?rq _ = _ =>
      pose proof (do_fetch_same_syncs w rq s) as H2; rewrite Hfetch in H2
  end.
  match type of Hmid with
  | ?c s2 = _ => assert (Hc : steps same_syncs c)
  end.
  { unfold Sheet.loadButtonData_button, Sheet.save_buttons. steps_go. }
  specialize (Hc s2). rewrite Hmid in Hc.
  pose proof (updateButtons_syncs s3) as H4. rewrite Hsync in H4.
  unfold same_syncs in *. simpl in *. congruence.
Qed.

End Pollers.

(** C6, as the code has it: the two watchers of config.json
    (setupConfigWatcher of script.js and startPolling) compare the
    serializations, by JSON.stringify, of the configuration just fetched
    and of the current one; they replace the configuration and run the
    synchronizer once exactly when the two differ, and leave the
    configuration and the page alone, without a run of the synchronizer,
    when they are equal or when nothing was fetched. The poll that init
    sets up runs loadButtonData, which compares nothing: on a page other
    than the admin page, every tick that completes runs the synchronizer
    once. *)
Theorem pollers_compare_or_not `{Platform} :
  (forall (w : Static.world) (s : Static.state),
     let s' := (Static.setupConfigWatcher_tick w s).2 in
     let a := Static.fetch w (Poll.static_request w) in
     (forall c', Poll.fetched_differs a (Static.config s) c' ->
        Static.config s' = c'
        /\ Static.document s' = (View.static_sync c' (Static.document s)).2
        /\ Net.syncs (Static.log s') = S (Net.syncs (Static.log s)))
     /\ (Poll.nothing_new a (Static.config s) ->
         Static.config s' = Static.config s
         /\ Static.document s' = Static.document s
         /\ Net.syncs (Static.log s') = Net.syncs (Static.log s)))
  /\ (forall (w : Sheet.world) (s : Sheet.state),
        let s' := (Sheet.startPolling_tick w s).2 in
        let a := Sheet.fetch w (Poll.sheet_request w) in
        (forall c', Poll.fetched_differs a (Sheet.config s) c' ->
           Sheet.config s' = c'
           /\ Net.syncs (Sheet.log s') = S (Net.syncs (Sheet.log s)))
        /\ (Poll.nothing_new a (Sheet.config s) ->
            Sheet.config s' = Sheet.config s
            /\ Sheet.document s' = Sheet.document s
            /\ Net.syncs (Sheet.log s') = Net.syncs (Sheet.log s)))
  /\ (forall (w : Sheet.world) (s : Sheet.state),
        Sheet.on_admin_page w = false ->
        (Sheet.poll_tick w s).1 = Ok (VBool true) ->
        Net.syncs (Sheet.log (Sheet.poll_tick w s).2)
        = S (Net.syncs (Sheet.log s))).
Proof.
  split; [| split].
  - intros w s s' a. subst s' a. split.
    + intros c' Hd. rewrite (static_setupConfigWatcher_tick_differs w s c' Hd). simpl.
      rewrite !syncs_app. unfold Net.syncs. simpl. repeat split; lia.
    + intros Hn. rewrite (static_setupConfigWatcher_tick_same w s Hn). simpl.
      rewrite !syncs_app. unfold Net.syncs. simpl. repeat split; lia.
  - intros w s s' a. subst s' a. split.
    + intros c' Hd. rewrite (sheet_startPolling_tick_differs w s c' Hd). simpl.
      rewrite !syncs_app. unfold Net.syncs. simpl. repeat split; lia.
    + intros Hn. rewrite (sheet_startPolling_tick_same w s Hn). simpl.
      rewrite !syncs_app. unfold Net.syncs. simpl. repeat split; lia.
  - intros w s. unfold Sheet.poll_tick. apply loadButtonData_syncs.
Qed.

Lemma pollers_compare_or_not_witness :
  let s := {| Static.config := Static.DEFAULT_CONFIG;
              Static.document := []; Static.log := [] |} in
  Poll.fetched_differs (H := Example.platform)
    (Static.fetch Worlds.static_up
       (Poll.static_request (H := Example.platform) Worlds.static_up))
    (Static.config s) Example.static_config
  /\ Static.config
       (Static.setupConfigWatcher_tick (H := Example.platform) Worlds.static_up s).2
     = Example.static_config.
Proof.
  intros s.
  assert (Hd : Poll.fetched_differs (H := Example.platform)
                 (Static.fetch Worlds.static_up
                    (Poll.static_request (H := Example.platform)
                       Worlds.static_up))
                 (Static.config s) Example.static_config).
  { exists (Example.text_of Example.static_config).
    split; [reflexivity |]. split; [reflexivity |]. discriminate. }
  split; [exact Hd |].
  exact (proj1 (proj1 (proj1 (pollers_compare_or_not (H := Example.platform))
                         Worlds.static_up s) Example.static_config Hd)).
Defined.

(** C6, as stated, fails on the poll of the hosted API: after init has
    applied the rows of the hosted API, a tick that fetches the same rows
    leaves the snapshot and the page as they are and yet runs the
    synchronizer. *)
Lemma poll_tick_synchronizes_equal_snapshot :
  let s := (Sheet.init (H := Example.platform) Worlds.unset_rows
              (Sheet.constructed ∅ Example.page)).2 in
  let s' := (Sheet.poll_tick (H := Example.platform) Worlds.unset_rows s).2 in
  Sheet.buttons s' = Sheet.buttons s
  /\ Sheet.document s' = Sheet.document s
  /\ Net.syncs (Sheet.log s') = S (Net.syncs (Sheet.log s)).
Proof. vm_compute. repeat split. Qed.

(** ** The loader *)

Lemma loadConfig_buttons_steps `{Platform} (R : Sheet.state -> Sheet.state -> Prop) :
  (forall s, R s s) ->
  (forall s1 s2 s3, R s1 s2 -> R s2 s3 -> R s1 s3) ->
  (forall b s, R s (Sheet.set_buttons b s)) ->
  forall row entries hasUpdates i,
    Steps.steps R (Sheet.loadConfig_buttons row hasUpdates i entries).
Proof.
  intros Hr Ht Hset row entries.
  induction entries as [| [k button] rest IH]; intros h i; simpl.
  - steps_go.
  - unfold Sheet.loadConfig_button. steps_go.
Qed.

Section LoaderLemmas.
Context `{Platform}.
Import Eff Steps Net Loader.

Lemma requests_app l1 l2 : requests (l1 ++ l2) = (requests l1 ++ requests l2)%list.
Proof. unfold requests. apply omap_app. Qed.

Lemma same_requests_refl s : same_requests s s.
Proof. reflexivity. Qed.

Lemma same_requests_trans s1 s2 s3 :
  same_requests s1 s2 -> same_requests s2 s3 -> same_requests s1 s3.
Proof. unfold same_requests. congruence. Qed.

Lemma updateButtons_buttons (s : Sheet.state) :
  Sheet.buttons (Sheet.updateButtons s).2 = Sheet.buttons s.
Proof. by rewrite sheet_updateButtons_run. Qed.

Lemma updateButtons_localStorage (s : Sheet.state) :
  Sheet.localStorage (Sheet.updateButtons s).2 = Sheet.localStorage s.
Proof. by rewrite sheet_updateButtons_run. Qed.

Lemma updateButtons_same_requests : steps same_requests Sheet.updateButtons.
Proof.
  intros s. unfold same_requests. rewrite sheet_updateButtons_run. simpl.
  rewrite requests_app. simpl. by rewrite app_nil_r.
Qed.

#[local] Hint Resolve updateButtons_same_requests : steps.

Lemma loadFromLocalStorage_same_requests :
  steps same_requests Sheet.loadFromLocalStorage.
Proof.
  pose proof same_requests_refl as Hr. pose proof same_requests_trans as Ht.
  unfold Sheet.loadFromLocalStorage. steps_go.
Qed.

#[local] Hint Resolve loadFromLocalStorage_same_requests : steps.

(** loadButtonData makes one request, to the hosted API *)
Lemma loadButtonData_requests w (s : Sheet.state) :
  requests (Sheet.log (Sheet.loadButtonData w s).2)
  = (requests (Sheet.log s) ++ [sheet1_request])%list.
Proof.
  pose proof same_requests_refl as Hr. pose proof same_requests_trans as Ht.
  unfold Sheet.loadButtonData. fold sheet1_request.
  unfold try_catch. unfold bind at 1. rewrite do_fetch_run.
  assert (Hs : requests (Sheet.log (Sheet.add_event (Fetched sheet1_request) s))
               = (requests (Sheet.log s) ++ [sheet1_request])%list).
  { simpl. by rewrite requests_app. }
  destruct (Sheet.fetch w sheet1_request) as [| ok text]; [exact Hs |].
  match goal with
  | |- context [let (o, s') := ?c ?s1 in _] =>
      assert (Hc : steps same_requests c);
      [| specialize (Hc s1); destruct (c s1) as [[a | e] s2] ]
  end.
  { unfold Sheet.loadButtonData_button, Sheet.save_buttons. steps_go. }
  - unfold same_requests in Hc. simpl in *. congruence.
  - unfold same_requests in Hc. simpl in *. congruence.
Qed.

(** loadConfig makes one request, to the hosted API *)
Lemma loadConfig_requests w (s : Sheet.state) :
  requests (Sheet.log (Sheet.loadConfig w s).2)
  = (requests (Sheet.log s) ++ [api_request])%list.
Proof.
  pose proof same_requests_refl as Hr. pose proof same_requests_trans as Ht.
  unfold Sheet.loadConfig. fold api_request.
  unfold try_catch. unfold bind at 1. rewrite do_fetch_run.
  assert (Hs : requests (Sheet.log (Sheet.add_event (Fetched api_request) s))
               = (requests (Sheet.log s) ++ [api_request])%list).
  { simpl. by rewrite requests_app. }
  pose proof loadFromLocalStorage_same_requests as Hl.
  destruct (Sheet.fetch w api_request) as [| ok text].
  { specialize (Hl (Sheet.add_event (Fetched api_request) s)).
    unfold same_requests in Hl. congruence. }
  match goal with
  | |- context [let (o, s') := ?c ?s1 in _] =>
      assert (Hc : steps same_requests c);
      [| specialize (Hc s1); destruct (c s1) as [[a | e] s2] ]
  end.
  { pose proof (loadConfig_buttons_steps same_requests Hr Ht
                  (fun b s => eq_refl)) as Hb.
    unfold Sheet.save_buttons. steps_go. }
  - unfold same_requests in Hc. simpl in *. congruence.
  - specialize (Hl s2). unfold same_requests in Hc, Hl. simpl in *. congruence.
Qed.

End LoaderLemmas.

Section LoaderFallback.
Context `{Platform}.
Import Eff Steps Net Loader.

Lemma truthy_nonempty sd : sd <> "" -> JS.truthy (VStr sd) = true.
Proof.
  intros Hne. destruct (JS.truthy (VStr sd)) eqn:Ht; [done |].
  by apply truthy_str_empty in Ht.
Qed.

Lemma loadFromLocalStorage_cached (s : Sheet.state) sd c :
  Sheet.localStorage s !! "buttonData" = Some sd ->
  sd <> "" ->
  JSON_parse sd = Some c ->
  Sheet.buttons (Sheet.loadFromLocalStorage s).2 = c.
Proof.
  intros Hl Hne Hp. unfold Sheet.loadFromLocalStorage, try_catch.
  unfold bind at 1. unfold gets at 1. rewrite Hl.
  rewrite truthy_nonempty by done.
  unfold bind at 1. unfold lift at 1. unfold JS.parse. rewrite Hp.
  unfold bind at 1. unfold modify at 1.
  unfold bind at 1.
  pose proof (updateButtons_buttons (Sheet.set_buttons c s)) as Hb.
  destruct (Sheet.updateButtons (Sheet.set_buttons c s)) as [[[] | e] s1];
    simpl in *; exact Hb.
Qed.

Lemma loadFromLocalStorage_absent (s : Sheet.state) :
  Sheet.localStorage s !! "buttonData" = None ->
  Sheet.loadFromLocalStorage s = (Ok (VBool false), s).
Proof.
  intros Hl. unfold Sheet.loadFromLocalStorage, try_catch.
  unfold bind at 1. unfold gets at 1. by rewrite Hl.
Qed.

Lemma loadButtonData_cached w (s : Sheet.state) text sd c :
  Sheet.fetch w sheet1_request = Response false text ->
  Sheet.localStorage s !! "buttonData" = Some sd ->
  sd <> "" ->
  JSON_parse sd = Some c ->
  Sheet.buttons (Sheet.loadButtonData w s).2 = c.
Proof.
  intros Hf Hl Hne Hp. unfold Sheet.loadButtonData. fold sheet1_request.
  unfold try_catch. unfold bind at 1. rewrite do_fetch_run, Hf.
  cbn [fst snd negb].
  unfold bind at 1. unfold bind at 1. unfold gets at 1.
  cbn [Sheet.localStorage Sheet.add_event]. rewrite Hl.
  rewrite truthy_nonempty by done.
  unfold bind at 1. unfold lift at 1. unfold JS.parse. rewrite Hp.
  unfold modify at 1. unfold bind at 1.
  destruct (Sheet.on_admin_page w); [reflexivity |].
  match goal with
  | |- context [Sheet.updateButtons ?s1] =>
      pose proof (updateButtons_buttons s1) as Hb;
      destruct (Sheet.updateButtons s1) as [[[] | e] s2]
  end; simpl in *; exact Hb.
Qed.

Lemma loadButtonData_no_cache w (s : Sheet.state) text :
  Sheet.fetch w sheet1_request = Response false text ->
  Sheet.localStorage s !! "buttonData" = None ->
  Sheet.buttons (Sheet.loadButtonData w s).2 = Sheet.buttons s.
Proof.
  intros Hf Hl. unfold Sheet.loadButtonData. fold sheet1_request.
  unfold try_catch. unfold bind at 1. rewrite do_fetch_run, Hf.
  cbn [fst snd negb].
  unfold bind at 1. unfold bind at 1. unfold gets at 1.
  cbn [Sheet.localStorage Sheet.add_event]. rewrite Hl.
  unfold ret at 1. unfold bind at 1.
  destruct (Sheet.on_admin_page w); [reflexivity |].
  match goal with
  | |- context [Sheet.updateButtons ?s1] =>
      pose proof (updateButtons_buttons s1) as Hb;
      destruct (Sheet.updateButtons s1) as [[[] | e] s2]
  end; simpl in *; exact Hb.
Qed.

Lemma loadConfig_cached w (s : Sheet.state) text sd c :
  Sheet.fetch w api_request = Response false text ->
  Sheet.localStorage s !! "buttonData" = Some sd ->
  sd <> "" ->
  JSON_parse sd = Some c ->
  Sheet.buttons (Sheet.loadConfig w s).2 = c.
Proof.
  intros Hf Hl Hne Hp. unfold Sheet.loadConfig. fold api_request.
  unfold try_catch. unfold bind at 1. rewrite do_fetch_run, Hf. simpl.
  by apply (loadFromLocalStorage_cached _ sd).
Qed.

Lemma loadConfig_no_cache w (s : Sheet.state) text :
  Sheet.fetch w api_request = Response false text ->
  Sheet.localStorage s !! "buttonData" = None ->
  Sheet.buttons (Sheet.loadConfig w s).2 = Sheet.buttons s.
Proof.
  intros Hf Hl. unfold Sheet.loadConfig. fold api_request.
  unfold try_catch. unfold bind at 1. rewrite do_fetch_run, Hf. simpl.
  by rewrite loadFromLocalStorage_absent.
Qed.

End LoaderFallback.

(** C1, as the code has it: the loader of the hosted-API manager
    (loadButtonData, and loadConfig behind reload) tries the hosted API
    and then the local cache. It makes one request, to the hosted API:
    the static file config.json is not one of its sources. When the
    hosted API answers with a status that is not OK, the snapshot becomes
    the cached one if the cache holds a text that parses, and stays as it
    was if there is no cache. *)
Theorem loader_api_then_cache `{Platform} (w : Sheet.world) (s : Sheet.state) :
  Net.requests (Sheet.log (Sheet.loadButtonData w s).2)
    = (Net.requests (Sheet.log s) ++ [Loader.sheet1_request])%list
  /\ Net.requests (Sheet.log (Sheet.loadConfig w s).2)
     = (Net.requests (Sheet.log s) ++ [Loader.api_request])%list
  /\ (forall text sd c,
        Sheet.fetch w Loader.sheet1_request = Net.Response false text ->
        Sheet.localStorage s !! "buttonData" = Some sd ->
        sd <> "" -> JSON_parse sd = Some c ->
        Sheet.buttons (Sheet.loadButtonData w s).2 = c)
  /\ (forall text,
        Sheet.fetch w Loader.sheet1_request = Net.Response false text ->
        Sheet.localStorage s !! "buttonData" = None ->
        Sheet.buttons (Sheet.loadButtonData w s).2 = Sheet.buttons s)
  /\ (forall text sd c,
        Sheet.fetch w Loader.api_request = Net.Response false text ->
        Sheet.localStorage s !! "buttonData" = Some sd ->
        sd <> "" -> JSON_parse sd = Some c ->
        Sheet.buttons (Sheet.loadConfig w s).2 = c)
  /\ (forall text,
        Sheet.fetch w Loader.api_request = Net.Response false text ->
        Sheet.localStorage s !! "buttonData" = None ->
        Sheet.buttons (Sheet.loadConfig w s).2 = Sheet.buttons s).
Proof.
  split; [apply loadButtonData_requests |].
  split; [apply loadConfig_requests |].
  split; [intros; by eapply loadButtonData_cached |].
  split; [intros; by eapply loadButtonData_no_cache |].
  split; [intros; by eapply loadConfig_cached |].
  intros; by eapply loadConfig_no_cache.
Qed.

Lemma loader_api_then_cache_witness :
  let s := Sheet.constructed
             {[ "buttonData" := Example.text_of Example.cached ]}
             Example.page in
  Sheet.buttons
    (Sheet.loadButtonData (H := Example.platform) Worlds.api_down_static_up s).2
  = Example.cached.
Proof.
  intros s.
  apply (proj1 (proj2 (proj2 (loader_api_then_cache (H := Example.platform)
                                Worlds.api_down_static_up s)))
           "Service Unavailable" (Example.text_of Example.cached));
    [reflexivity | reflexivity | discriminate | reflexivity].
Defined.

(** C1, as stated, fails: the hosted API answers 503 and config.json is
    served with a snapshot of its own, yet the loader never asks for the
    file: after init, and after a reload, the snapshot is the default one. *)
Lemma loader_ignores_static_file :
  let w := Worlds.api_down_static_up in
  let s := (Sheet.init (H := Example.platform) w
              (Sheet.constructed ∅ Example.page)).2 in
  let s' := (Sheet.reload (H := Example.platform) w s).2 in
  Loader.primary_fails (H := Example.platform) w
  /\ Loader.secondary_succeeds (H := Example.platform) w Example.static_buttons
  /\ Sheet.buttons s = Sheet.DEFAULT_BUTTONS
  /\ Sheet.buttons s <> Example.static_buttons
  /\ Sheet.buttons s' = Sheet.DEFAULT_BUTTONS
  /\ Net.requests (Sheet.log s') = [Loader.sheet1_request; Loader.api_request].
Proof.
  intros w s s'.
  split; [exact I |].
  split.
  { exists (Example.text_of Example.static_config), Example.static_config.
    repeat split; reflexivity. }
  assert (Hs : Sheet.buttons s = Sheet.DEFAULT_BUTTONS) by (by vm_compute).
  split; [exact Hs |].
  split; [rewrite Hs; discriminate |].
  split; by vm_compute.
Qed.

(** ** The keys of the button map *)

Section KeysLemmas.
Import Eff Steps Keys.

Lemma replace_prop_names k x ps : (JS.replace_prop k x ps).*1 = ps.*1.
Proof.
  induction ps as [| [k' v'] ps IH]; simpl; [done |].
  destruct (String.eqb k' k); simpl; [done | f_equal; exact IH].
Qed.

Lemma replace_nth_names i x ps : (JS.replace_nth i x ps).*1 = ps.*1.
Proof.
  unfold JS.replace_nth. revert i.
  induction ps as [| [k' v'] ps IH]; intros [| i]; simpl; try done.
  f_equal. apply IH.
Qed.

Lemma indexed_names l l' : length l = length l' ->
  (JS.indexed l).*1 = (JS.indexed l').*1.
Proof.
  intros Hlen. unfold JS.indexed. apply list_eq. intros i.
  rewrite !list_lookup_fmap, !list_lookup_imap.
  destruct (l !! i) eqn:Hi, (l' !! i) eqn:Hi'; simpl; try done.
  - apply lookup_lt_Some in Hi. apply lookup_ge_None in Hi'. lia.
  - apply lookup_lt_Some in Hi'. apply lookup_ge_None in Hi. lia.
Qed.

Lemma replace_at_names c k x : names (JS.replace_at c k x) = names c.
Proof.
  unfold names. destruct c; simpl; try done.
  - destruct (JS.index_of k (length items)); simpl; rewrite !fmap_app.
    + f_equal. apply indexed_names. by rewrite length_insert.
    + by rewrite replace_prop_names.
  - apply replace_prop_names.
Qed.

Lemma lookup_replace_prop k x ps k' :
  JS.lookup_prop k' (JS.replace_prop k x ps)
  = if String.eqb k k' then (fun _ => x) <$> JS.lookup_prop k' ps
    else JS.lookup_prop k' ps.
Proof.
  induction ps as [| [k0 v0] ps IH]; simpl.
  - by destruct (String.eqb k k').
  - destruct (String.eqb k0 k) eqn:Hk0; simpl.
    + apply String.eqb_eq in Hk0. subst k0.
      by destruct (String.eqb k k') eqn:Hk.
    + destruct (String.eqb k0 k') eqn:Hk0'.
      * apply String.eqb_eq in Hk0'. subst k0.
        apply String.eqb_neq in Hk0.
        assert (String.eqb k k' = false) as -> by (apply String.eqb_neq; congruence).
        done.
      * exact IH.
Qed.

Lemma lookup_replace_nth i x ps k v :
  JS.lookup_prop k ps = Some v ->
  exists v', JS.lookup_prop k (JS.replace_nth i x ps) = Some v'
             /\ (v' = v \/ v' = x).
Proof.
  unfold JS.replace_nth. revert i.
  induction ps as [| [k0 v0] ps IH]; intros i; simpl; [done |].
  destruct i as [| i]; simpl.
  - destruct (String.eqb k0 k); eauto.
  - destruct (String.eqb k0 k); [eauto |]. apply IH.
Qed.

Lemma has_keys_replace_at v k x :
  has_keys v -> x <> VUndefined -> has_keys (JS.replace_at v k x).
Proof.
  intros (ps & -> & Hk) Hx. exists (JS.replace_prop k x ps).
  split; [done |]. intros k' Hk'. destruct (Hk k' Hk') as (y & Hy & Hne).
  rewrite lookup_replace_prop, Hy. destruct (String.eqb k k'); simpl; eauto.
Qed.

Lemma has_keys_replace_entry v i x :
  has_keys v -> x <> VUndefined -> has_keys (JS.replace_entry v i x).
Proof.
  intros (ps & -> & Hk) Hx. exists (JS.replace_nth i x ps).
  split; [done |]. intros k' Hk'. destruct (Hk k' Hk') as (y & Hy & Hne).
  destruct (lookup_replace_nth i x ps k' y Hy) as (v' & Hv' & [-> | ->]); eauto.
Qed.

Lemma has_keys_set_prop ps k x :
  has_keys (VObj ps) -> x <> VUndefined -> has_keys (VObj (JS.set_prop k x ps)).
Proof.
  intros (ps' & [= <-] & Hk) Hx. exists (JS.set_prop k x ps).
  split; [done |]. intros k' Hk'. destruct (Hk k' Hk') as (y & Hy & Hne).
  destruct (decide (k = k')) as [<- | Hkk].
  - rewrite lookup_set_prop_eq. eauto.
  - rewrite lookup_set_prop_ne by done. eauto.
Qed.

Lemma assign_named_defined target k x y :
  JS.assign_named target k x = Ok y -> y <> VUndefined.
Proof. destruct target; simpl; intros [= <-]; discriminate. Qed.

Lemma has_keys_default : has_keys Sheet.DEFAULT_BUTTONS.
Proof.
  eexists. split; [reflexivity |]. intros k Hk.
  unfold configured in Hk.
  repeat (apply elem_of_cons in Hk as [-> | Hk];
          [eexists; split; [reflexivity | discriminate] |]).
  by apply elem_of_nil in Hk.
Qed.

End KeysLemmas.

Section KeysInvariant.
Context `{Platform}.
Import Eff Steps Keys.

Lemma preserved_refl s : preserved s s.
Proof. by intros Hs. Qed.

Lemma preserved_trans s1 s2 s3 :
  preserved s1 s2 -> preserved s2 s3 -> preserved s1 s3.
Proof. unfold preserved. tauto. Qed.

Lemma preserved_frame (s s' : Sheet.state) :
  Sheet.buttons s' = Sheet.buttons s ->
  Sheet.localStorage s' = Sheet.localStorage s ->
  preserved s s'.
Proof. intros Hb Hl [Hk Hc]. split; by rewrite ?Hb, ?Hl. Qed.

Lemma preserved_set_document d s : preserved s (Sheet.set_document d s).
Proof. by apply preserved_frame. Qed.

Lemma preserved_set_config c s : preserved s (Sheet.set_config c s).
Proof. by apply preserved_frame. Qed.

Lemma preserved_add_event e s : preserved s (Sheet.add_event e s).
Proof. by apply preserved_frame. Qed.

Lemma updateButtons_preserved : steps preserved Sheet.updateButtons.
Proof.
  intros s. apply preserved_frame.
  - apply updateButtons_buttons.
  - apply updateButtons_localStorage.
Qed.

Lemma do_fetch_preserved w r : steps preserved (Sheet.do_fetch w r).
Proof. intros s. rewrite do_fetch_run. by apply preserved_frame. Qed.

Lemma only_fetches_preserved {A} (c : M Sheet.state A) :
  steps Frame.only_fetches c -> steps preserved c.
Proof.
  intros Hc s. destruct (Hc s) as (Hb & _ & Hl & _). by apply preserved_frame.
Qed.

Lemma loadButtonData_button_preserved row buttonType button :
  steps preserved (Sheet.loadButtonData_button row buttonType button).
Proof.
  intros s [Hk Hc]. unfold Sheet.loadButtonData_button. run.
  destruct (JS.get button "column"); simpl; [| done].
  destruct (JS.get_dyn row _); simpl; [| done].
  destruct (_ && _); simpl; [| done].
  destruct (JS.get_dyn (Sheet.buttons s) buttonType); simpl; [| done].
  destruct (JS.assign_named _ _ _) eqn:Ha; simpl; [| done].
  split; simpl; [| done].
  apply has_keys_replace_at; [done |]. by eapply assign_named_defined.
Qed.

Lemma loadConfig_button_preserved row hasUpdates i button :
  steps preserved (Sheet.loadConfig_button row hasUpdates i button).
Proof.
  intros s [Hk Hc]. unfold Sheet.loadConfig_button. run.
  destruct (JS.get button "column"); simpl; [| done].
  destruct (JS.get_dyn row _); simpl; [| done].
  destruct (negb _); simpl; [| done].
  destruct (JS.assign_named _ _ _) eqn:Ha; simpl; [| done].
  split; simpl; [| done].
  apply has_keys_replace_entry; [done |]. by eapply assign_named_defined.
Qed.

Lemma loadConfig_buttons_preserved row entries hasUpdates i :
  steps preserved (Sheet.loadConfig_buttons row hasUpdates i entries).
Proof.
  revert hasUpdates i.
  induction entries as [| [k button] rest IH]; intros h i; simpl.
  - apply steps_ret, preserved_refl.
  - apply steps_bind; [apply preserved_trans | | intros ?; apply IH].
    apply loadConfig_button_preserved.
Qed.

Section WithLaw.
Hypothesis Hjson : json_keeps_keys.

Lemma save_buttons_preserved : steps preserved Sheet.save_buttons.
Proof using Hjson.
  intros s [Hk Hc]. unfold Sheet.save_buttons. run.
  split; simpl; [done |].
  destruct (Hjson _ Hk) as (sd & Hsd & Hback).
  intros sd' v Hl Hp. rewrite lookup_insert_eq in Hl.
  rewrite Hsd in Hl. simpl in Hl. injection Hl as <-. by apply Hback.
Qed.

End WithLaw.

Lemma cache_fallback_preserved :
  steps preserved
    (savedData <- gets (fun s => Sheet.localStorage s !! "buttonData") ;;
     match savedData with
     | Some sd =>
         if JS.truthy (VStr sd) then
           v <- lift (JS.parse sd) ;;
           modify (Sheet.set_buttons v)
         else ret tt
     | None => ret tt
     end).
Proof.
  intros s [Hk Hc]. unfold bind at 1. unfold gets at 1.
  destruct (Sheet.localStorage s !! "buttonData") as [sd|] eqn:Hl; [| done].
  destruct (JS.truthy (VStr sd)); [| done].
  unfold bind, lift, JS.parse.
  destruct (JSON_parse sd) as [v|] eqn:Hp; simpl; [| done].
  split; simpl; [by eapply Hc | done].
Qed.

Lemma loadFromLocalStorage_preserved : steps preserved Sheet.loadFromLocalStorage.
Proof.
  unfold Sheet.loadFromLocalStorage.
  apply steps_try_catch; [apply preserved_trans | |
                          intros ?; apply steps_ret, preserved_refl].
  intros s [Hk Hc]. unfold bind at 1. unfold gets at 1.
  destruct (Sheet.localStorage s !! "buttonData") as [sd|] eqn:Hl; [| done].
  destruct (JS.truthy (VStr sd)); [| done].
  unfold bind at 1. unfold lift at 1. unfold JS.parse.
  destruct (JSON_parse sd) as [v|] eqn:Hp; [| done].
  unfold bind at 1. unfold modify at 1.
  assert (Hrest : steps preserved (Sheet.updateButtons ;; ret (VBool true))).
  { apply steps_bind; [apply preserved_trans | apply updateButtons_preserved |].
    intros ?. apply steps_ret, preserved_refl. }
  apply (Hrest (Sheet.set_buttons v s)).
  split; simpl; [by eapply Hc | done].
Qed.

End KeysInvariant.

Section KeysOperations.
Context `{Platform}.
Import Eff Steps Keys.
Hypothesis Hjson : json_keeps_keys.

#[local] Hint Resolve preserved_set_document preserved_set_config
  preserved_add_event updateButtons_preserved do_fetch_preserved
  loadButtonData_button_preserved loadConfig_buttons_preserved
  save_buttons_preserved cache_fallback_preserved
  loadFromLocalStorage_preserved : steps.

Lemma loadButtonData_preserved w : steps preserved (Sheet.loadButtonData w).
Proof using Hjson.
  pose proof preserved_refl as Hr. pose proof preserved_trans as Ht.
  unfold Sheet.loadButtonData. steps_go.
Qed.

Lemma loadConfig_preserved w : steps preserved (Sheet.loadConfig w).
Proof using Hjson.
  pose proof preserved_refl as Hr. pose proof preserved_trans as Ht.
  unfold Sheet.loadConfig. steps_go.
Qed.

Lemma init_preserved w : steps preserved (Sheet.init w).
Proof using Hjson.
  pose proof preserved_refl as Hr. pose proof preserved_trans as Ht.
  pose proof (loadButtonData_preserved w) as Hl.
  unfold Sheet.init, Sheet.init_button. steps_go.
Qed.

Lemma startPolling_tick_preserved w : steps preserved (Sheet.startPolling_tick w).
Proof.
  pose proof preserved_refl as Hr. pose proof preserved_trans as Ht.
  unfold Sheet.startPolling_tick. steps_go.
Qed.

Lemma updateButtonConfig_preserved buttonType newConfig :
  steps preserved (Sheet.updateButtonConfig buttonType newConfig).
Proof.
  pose proof preserved_refl as Hr. pose proof preserved_trans as Ht.
  unfold Sheet.updateButtonConfig. steps_go.
Qed.

Lemma updateButton_preserved w buttonType updates :
  steps preserved (Sheet.updateButton w buttonType updates).
Proof using Hjson.
  pose proof preserved_refl as Hr. pose proof preserved_trans as Ht.
  intros s [Hk Hc]. unfold Sheet.updateButton.
  unfold bind at 1. unfold gets at 1.
  pose proof Hk as (ps & Hps & _). rewrite Hps.
  unfold bind at 1. unfold lift at 1.
  cbn [JS.get_dyn fst snd]. destruct (negb _). { by split. }
  unfold bind at 1. unfold lift at 1.
  match goal with
  | |- context [JS.assign_existing (VObj ps) buttonType ?x] =>
      assert (Hassign : exists ps1,
                JS.assign_existing (VObj ps) buttonType x = Ok (VObj ps1)
                /\ has_keys (VObj ps1))
  end.
  { cbn [JS.assign_existing]. destruct (_ && _); eexists; (split; [reflexivity |]).
    - by rewrite <- Hps.
    - apply has_keys_set_prop; [by rewrite <- Hps | discriminate]. }
  destruct Hassign as (ps1 & -> & Hk1). cbn [fst snd].
  unfold bind at 1. unfold modify at 1.
  unfold bind at 1. unfold lift at 1. cbn [JS.get_dyn fst snd].
  unfold bind at 1. unfold lift at 1.
  destruct (JS.assign_named _ _ _) as [merged' |] eqn:Ha.
  2: { simpl. split; simpl; done. }
  unfold bind at 1. unfold modify at 1.
  match goal with
  | |- inv (?c ?s1).2 => assert (Hc1 : steps preserved c); [| apply (Hc1 s1)]
  end.
  { pose proof (only_fetches_preserved _ (persist_only_fetches w buttonType updates))
      as Hp.
    steps_go. }
  split; [| done]. cbn [Sheet.buttons Sheet.set_buttons].
  apply has_keys_replace_at; [done | by eapply assign_named_defined].
Qed.

Lemma run_preserved w op : steps preserved (run w op).
Proof using Hjson.
  pose proof preserved_refl as Hr. pose proof preserved_trans as Ht.
  pose proof (loadButtonData_preserved w) as H1.
  pose proof (loadConfig_preserved w) as H2.
  pose proof (init_preserved w) as H3.
  pose proof (startPolling_tick_preserved w) as H4.
  pose proof (updateButton_preserved w) as H5.
  pose proof updateButtonConfig_preserved as H6.
  destruct op; unfold run, Sheet.poll_tick, Sheet.reload; steps_go.
Qed.

End KeysOperations.

Section Names.
Context `{Platform}.
Import Eff Steps Keys.

Lemma same_names_refl s : same_names s s.
Proof. reflexivity. Qed.

Lemma same_names_trans s1 s2 s3 :
  same_names s1 s2 -> same_names s2 s3 -> same_names s1 s3.
Proof. unfold same_names. congruence. Qed.

Lemma loadButtonData_button_same_names row buttonType button :
  steps same_names (Sheet.loadButtonData_button row buttonType button).
Proof.
  intros s. unfold Sheet.loadButtonData_button, same_names. run.
  destruct (JS.get button "column"); simpl; [| done].
  destruct (JS.get_dyn row _); simpl; [| done].
  destruct (_ && _); simpl; [| done].
  destruct (JS.get_dyn (Sheet.buttons s) buttonType); simpl; [| done].
  destruct (JS.assign_named _ _ _); simpl; [| done].
  apply replace_at_names.
Qed.

Lemma updateButtons_same_names : steps same_names Sheet.updateButtons.
Proof. intros s. unfold same_names. by rewrite updateButtons_buttons. Qed.

#[local] Hint Resolve loadButtonData_button_same_names
  updateButtons_same_names : steps.

(** a fetch that the hosted API answers OK changes no name of the map *)
Lemma loadButtonData_names w (s : Sheet.state) text :
  Sheet.fetch w Loader.sheet1_request = Net.Response true text ->
  names (Sheet.buttons (Sheet.loadButtonData w s).2) = names (Sheet.buttons s).
Proof.
  pose proof same_names_refl as Hr. pose proof same_names_trans as Ht.
  intros Hf. unfold Sheet.loadButtonData. fold Loader.sheet1_request.
  unfold try_catch. unfold bind at 1. rewrite do_fetch_run, Hf.
  cbn [fst snd].
  match goal with
  | |- context [let (o, s') := ?c ?s1 in _] =>
      assert (Hc : steps same_names c);
      [| specialize (Hc s1); destruct (c s1) as [[a | e] s2] ]
  end.
  { unfold Sheet.save_buttons. steps_go. }
  - exact Hc.
  - exact Hc.
Qed.

End Names.


Lemma has_keys_cached : Keys.has_keys Example.cached.
Proof.
  eexists. split; [reflexivity |]. intros k Hk.
  unfold Keys.configured in Hk.
  repeat (apply elem_of_cons in Hk as [-> | Hk];
          [eexists; split; [reflexivity | discriminate] |]).
  by apply elem_of_nil in Hk.
Qed.

Lemma clean_keeps_keys : Keys.json_keeps_keys (H := Keys.clean).
Proof.
  intros v (ps & -> & _). eexists. split; [reflexivity |].
  intros v'. simpl. destruct (String.eqb _ _); [| discriminate].
  intros [= <-]. apply has_keys_cached.
Qed.

Lemma clean_cache_ok storage : Keys.cache_ok (H := Keys.clean) storage.
Proof.
  intros sd v _. simpl. destruct (String.eqb _ _); [| discriminate].
  intros [= <-]. apply has_keys_cached.
Qed.



(** ** When every remote source fails *)

(** a rejected request leaves the snapshot as it was: the catch block of
    loadButtonData does not read the cache *)
Lemma loadButtonData_rejected `{Platform} w (s : Sheet.state) :
  Sheet.fetch w Loader.sheet1_request = Net.Rejected ->
  Sheet.loadButtonData w s
  = (Ok (VBool false), Sheet.add_event (Net.Fetched Loader.sheet1_request) s).
Proof.
  intros Hf. unfold Sheet.loadButtonData. fold Loader.sheet1_request.
  unfold Eff.try_catch. unfold Eff.bind at 1. by rewrite do_fetch_run, Hf.
Qed.

(** C5 on the code: the network is down (every request is rejected) and
    the local cache holds the snapshot of an earlier visit. init ends with
    the default snapshot of the constructor, and the page shows it, where
    the claim has the cached snapshot applied; loadConfig, in the same
    world, does apply the cached snapshot. *)
Lemma init_offline_applies_defaults :
  let storage : gmap string string :=
    {[ "buttonData" := Example.text_of Example.cached ]} in
  let s := Sheet.constructed storage Example.page in
  let s' := (Sheet.init (H := Example.platform) Example.offline s).2 in
  JSON_parse (Platform := Example.platform) (Example.text_of Example.cached)
    = Some Example.cached
  /\ Sheet.buttons s' = Sheet.DEFAULT_BUTTONS
  /\ Sheet.buttons s' <> Example.cached
  /\ Page.href <$> Sheet.document s' !! 0%nat = Some (VStr "#")
  /\ Sheet.buttons (Sheet.loadConfig (H := Example.platform) Example.offline s).2
     = Example.cached.
Proof.
  intros storage s s'.
  assert (Hs' : Sheet.buttons s' = Sheet.DEFAULT_BUTTONS) by (by vm_compute).
  split; [reflexivity |].
  split; [exact Hs' |].
  split; [rewrite Hs'; discriminate |].
  split; by vm_compute.
Qed.

(** ** The scripts on the page of the examples *)

(** a marker of the admin that has not expired opens the gate *)
Example isAuthenticated_admin_marker :
  Auth.isAuthenticated (H := Example.platform)
    {[ "auth" := Example.text_of Example.marker_admin ]} Example.today
  = Ok (VBool true).
Proof. reflexivity. Qed.

(** the synchronizer writes the destinations of the cached snapshot on
    the three buttons of the page *)
Example updateButtons_on_page :
  let s := Sheet.set_buttons Example.cached (Sheet.constructed ∅ Example.page) in
  Page.href <$> Sheet.document (Sheet.updateButtons (H := Example.platform) s).2
  = [ VStr "https://example.com/start"; VStr "https://example.com/more";
      VStr "https://example.com/join" ].
Proof. reflexivity. Qed.

(** script.js: with config.json served, init shows its buttons *)
Example static_init_on_page :
  let s := {| Static.config := VUndefined; Static.document := Example.page;
              Static.log := [] |} in
  Page.textContent
    <$> Static.document (Static.init (H := Example.platform) Worlds.static_up s).2
  = [ VStr "Go"; VStr "Read"; VStr "Join" ].
Proof. reflexivity. Qed.

(** * Further properties of the scripts *)

(** ** auth.js: logout and the guard *)

Lemma logout_then_guard `{Platform} (b : Session.browser) (now : Z) :
  Session.guard now (Session.logout b) = Ok (Session.logout b).
Proof.
  unfold Session.guard, Auth.isAuthenticated. simpl.
  rewrite lookup_delete_eq. simpl.
  by destruct (negb (Session.endsWith _ _)).
Qed.

(** X1: After logout the session is closed, whatever the stored marker was:
    isAuthenticated answers false and getCurrentUser null, the browser is
    sent to the login page, the guard of the page that loads next changes
    nothing more, and no other key of the storage is touched. *)
Theorem logout_closes_session `{Platform} (b : Session.browser) (now : Z) :
  Auth.isAuthenticated (Session.localStorage (Session.logout b)) now
    = Ok (VBool false)
  /\ Auth.getCurrentUser (Session.localStorage (Session.logout b)) = Ok VNull
  /\ Session.navigated (Session.logout b) = Some "login.html"
  /\ Session.guard now (Session.logout b) = Ok (Session.logout b)
  /\ (forall k, k <> "auth" ->
        Session.localStorage (Session.logout b) !! k
        = Session.localStorage b !! k).
Proof.
  split; [| split; [| split; [| split]]].
  - unfold Auth.isAuthenticated. simpl. by rewrite lookup_delete_eq.
  - unfold Auth.getCurrentUser. simpl. by rewrite lookup_delete_eq.
  - reflexivity.
  - apply logout_then_guard.
  - intros k Hk. by apply lookup_delete_ne.
Qed.

Lemma logout_closes_session_witness :
  let b := {| Session.localStorage :=
                {[ "auth" := Example.text_of Example.marker_admin;
                   "buttonData" := Example.text_of Example.cached ]};
              Session.pathname := "/admin.html";
              Session.navigated := None |} in
  Session.localStorage (Session.logout b) !! "buttonData"
  = Some (Example.text_of Example.cached).
Proof.
  intros b.
  rewrite (proj2 (proj2 (proj2 (proj2
             (logout_closes_session (H := Example.platform) b Example.today))))
             "buttonData") by discriminate.
  reflexivity.
Defined.

(** X2: The guard never throws. On the login page it does nothing. On any
    other page it sends the browser to login.html exactly when the stored
    marker is not accepted, and otherwise leaves the browser as it is. *)
Theorem guard_redirects_unless_accepted `{Platform} (now : Z)
    (b : Session.browser) :
  (exists b', Session.guard now b = Ok b')
  /\ (Session.endsWith (Session.pathname b) "login.html" = true ->
      Session.guard now b = Ok b)
  /\ (Session.endsWith (Session.pathname b) "login.html" = false ->
      (marker_accepted (Session.localStorage b) now ->
       Session.guard now b = Ok b)
      /\ (~ marker_accepted (Session.localStorage b) now ->
          Session.guard now b
          = Ok {| Session.localStorage := Session.localStorage b;
                  Session.pathname := Session.pathname b;
                  Session.navigated := Some "login.html" |})).
Proof.
  unfold Session.guard.
  destruct (isAuthenticated_total (Session.localStorage b) now) as [v Hv].
  pose proof (isAuthenticated_truthy _ _ _ Hv) as Hacc.
  rewrite Hv. simpl.
  split; [| split].
  - destruct (negb (Session.endsWith _ _)); [| eauto].
    destruct (negb (JS.truthy v)); eauto.
  - by intros ->.
  - intros ->. simpl. split.
    + intros Ha. apply Hacc in Ha. by rewrite Ha.
    + intros Hna. destruct (JS.truthy v) eqn:Ht; [| done].
      exfalso. by apply Hna, Hacc.
Qed.

Lemma guard_redirects_unless_accepted_witness :
  let b := {| Session.localStorage := ∅; Session.pathname := "/index.html";
              Session.navigated := None |} in
  Session.guard (H := Example.platform) Example.today b
  = Ok {| Session.localStorage := ∅; Session.pathname := "/index.html";
          Session.navigated := Some "login.html" |}.
Proof.
  intros b.
  assert (Hna : ~ marker_accepted (H := Example.platform)
                    (Session.localStorage b) Example.today).
  { intros (a & ? & ? & ? & ? & Hl & _). simpl in Hl.
    rewrite lookup_empty in Hl. discriminate. }
  exact (proj2 (proj2 (proj2 (guard_redirects_unless_accepted
                                 (H := Example.platform) Example.today b))
                  eq_refl) Hna).
Defined.

(** X3: Whenever isAuthenticated answers a truthy value, getCurrentUser
    answers the stored marker itself: a value other than null whose
    username and token are truthy. *)
Theorem authenticated_has_current_user `{Platform}
    (localStorage : gmap string string) (now : Z) (v : value) :
  Auth.isAuthenticated localStorage now = Ok v ->
  JS.truthy v = true ->
  exists authData marker,
    localStorage !! "auth" = Some authData
    /\ JSON_parse authData = Some marker
    /\ Auth.getCurrentUser localStorage = Ok marker
    /\ marker <> VNull
    /\ JS.truthy (JS.get_own marker "username") = true
    /\ JS.truthy (JS.get_own marker "token") = true.
Proof.
  intros Hv Ht.
  apply (isAuthenticated_truthy _ _ _ Hv) in Ht
    as (a & m & u & t & e & Hl & Hne & Hp & Hu & Hk & _ & Htu & Htt & _).
  exists a, m. unfold Auth.getCurrentUser, JS.parse.
  rewrite Hl, Hp, (truthy_nonempty a Hne). simpl.
  apply get_ok_inv in Hu as (-> & _ & Hn), Hk as (-> & _).
  done.
Qed.

Lemma authenticated_has_current_user_witness :
  exists authData marker,
    ({[ "auth" := Example.text_of Example.marker_admin ]} : gmap string string)
      !! "auth" = Some authData
    /\ JSON_parse (Platform := Example.platform) authData = Some marker
    /\ Auth.getCurrentUser (H := Example.platform)
         {[ "auth" := Example.text_of Example.marker_admin ]} = Ok marker
    /\ marker <> VNull
    /\ JS.truthy (JS.get_own marker "username") = true
    /\ JS.truthy (JS.get_own marker "token") = true.
Proof.
  apply (authenticated_has_current_user (H := Example.platform)
           {[ "auth" := Example.text_of Example.marker_admin ]}
           Example.today (VBool true)); reflexivity.
Defined.

(** ** Names of buttons *)

Section Normalize.
Import Rows.

Lemma lower_unit_kept c : a_z_0_9 c = true -> lower_unit c = c.
Proof. destruct c as [[] [] [] [] [] [] [] []]; vm_compute; congruence. Qed.

Lemma lower_unit_idem c : lower_unit (lower_unit c) = lower_unit c.
Proof. by destruct c as [[] [] [] [] [] [] [] []]. Qed.

Lemma toLowerCase_idem s : toLowerCase (toLowerCase s) = toLowerCase s.
Proof. induction s as [| c s IH]; simpl; [done | by rewrite lower_unit_idem, IH]. Qed.

Lemma toLowerCase_app s1 s2 :
  toLowerCase (s1 ++ s2) = toLowerCase s1 ++ toLowerCase s2.
Proof. induction s1 as [| c s1 IH]; simpl; [done | by rewrite IH]. Qed.

Lemma remove_others_app s1 s2 :
  remove_others (s1 ++ s2) = remove_others s1 ++ remove_others s2.
Proof.
  induction s1 as [| c s1 IH]; simpl; [done |].
  destruct (a_z_0_9 c); simpl; by rewrite IH.
Qed.

Lemma remove_others_all s :
  Forall (fun c => a_z_0_9 c = true)
         (String.list_ascii_of_string (remove_others s)).
Proof.
  induction s as [| c s IH]; simpl; [constructor |].
  destruct (a_z_0_9 c) eqn:Hc; simpl; [by constructor | done].
Qed.

Lemma remove_others_length s :
  (String.length (remove_others s) <= String.length s)%nat.
Proof.
  induction s as [| c s IH]; simpl; [done |].
  destruct (a_z_0_9 c); simpl; lia.
Qed.

Lemma toLowerCase_length s : String.length (toLowerCase s) = String.length s.
Proof. induction s as [| c s IH]; simpl; [done | by rewrite IH]. Qed.

Lemma normal_fixed t :
  Forall (fun c => a_z_0_9 c = true) (String.list_ascii_of_string t) ->
  remove_others (toLowerCase t) = t.
Proof.
  induction t as [| c t IH]; simpl; [done |].
  intros Hall. apply Forall_cons in Hall as [Hc Hall].
  rewrite (lower_unit_kept c Hc), Hc, IH; done.
Qed.

(** the normal form of a string *)
Lemma normalize_string s :
  normalizeButtonName (VStr s) = Ok (VStr (remove_others (toLowerCase s))).
Proof.
  unfold normalizeButtonName. simpl. by destruct s.
Qed.

End Normalize.

(** X4: normalizeButtonName, on every string, answers a string made of the
    characters a-z and 0-9 only, no longer than the name, and which is its
    own normal form: normalizing twice is normalizing once. *)
Theorem normalizeButtonName_normal_form (s : string) :
  exists t,
    Rows.normalizeButtonName (VStr s) = Ok (VStr t)
    /\ Forall (fun c => Rows.a_z_0_9 c = true) (String.list_ascii_of_string t)
    /\ (String.length t <= String.length s)%nat
    /\ Rows.normalizeButtonName (VStr t) = Ok (VStr t).
Proof.
  exists (Rows.remove_others (Rows.toLowerCase s)).
  split; [apply normalize_string |].
  split; [apply remove_others_all |].
  split.
  - etrans; [apply remove_others_length |]. by rewrite toLowerCase_length.
  - rewrite normalize_string. f_equal. f_equal.
    apply normal_fixed, remove_others_all.
Qed.

(** X5: normalizeButtonName ignores the case of the letters, and the normal
    form of two names put end to end is their normal forms put end to
    end. *)
Theorem normalizeButtonName_case_and_concat (s1 s2 : string) :
  Rows.normalizeButtonName (VStr (Rows.toLowerCase s1))
    = Rows.normalizeButtonName (VStr s1)
  /\ (forall t1 t2,
        Rows.normalizeButtonName (VStr s1) = Ok (VStr t1) ->
        Rows.normalizeButtonName (VStr s2) = Ok (VStr t2) ->
        Rows.normalizeButtonName (VStr (s1 ++ s2)) = Ok (VStr (t1 ++ t2))).
Proof.
  rewrite !normalize_string. split.
  - by rewrite toLowerCase_idem.
  - intros t1 t2 [= <-] [= <-].
    by rewrite toLowerCase_app, remove_others_app.
Qed.

Lemma normalizeButtonName_case_and_concat_witness :
  Rows.normalizeButtonName (VStr ("Get " ++ "Started!"))
  = Ok (VStr ("get" ++ "started")).
Proof.
  apply (proj2 (normalizeButtonName_case_and_concat "Get " "Started!"));
    reflexivity.
Defined.

(** ** Rows of a sheet *)

Section RowsLemmas.
Context `{Platform}.
Import Rows RowsView.

Lemma find_snoc {A} (p : A -> bool) l x :
  List.find p (l ++ [x])
  = match List.find p l with
    | Some y => Some y
    | None => if p x then Some x else None
    end.
Proof.
  induction l as [| y l IH]; simpl; [done |].
  by destruct (p y).
Qed.

Lemma process_rows_throws now rows acc :
  existsb unnamed rows = true -> process_rows now rows acc = Throw TypeError.
Proof.
  revert acc. induction rows as [| row rest IH]; intros acc; simpl; [done |].
  unfold process_row, unnamed.
  destruct (taken row); simpl; [| apply IH].
  destruct (JS.get_own row "0"); simpl; try done.
  destruct (String.eqb _ "__proto__"); simpl; apply IH.
Qed.

Lemma process_rows_ok now rows acc :
  existsb unnamed rows = false -> exists ps, process_rows now rows acc = Ok ps.
Proof.
  revert acc. induction rows as [| row rest IH]; intros acc; simpl; [eauto |].
  unfold process_row, unnamed.
  destruct (taken row); simpl; [| apply IH].
  destruct (JS.get_own row "0"); simpl; try done.
  destruct (String.eqb _ "__proto__"); simpl; apply IH.
Qed.

Lemma process_rows_lookup now rows acc ps k :
  k <> "__proto__" ->
  process_rows now rows acc = Ok ps ->
  JS.lookup_prop k ps
  = match last_named k rows with
    | Some row => Some (row_entry now row)
    | None => JS.lookup_prop k acc
    end.
Proof.
  intros Hk. unfold last_named.
  revert acc. induction rows as [| row rest IH]; intros acc; simpl.
  - by intros [= ->].
  - rewrite find_snoc.
    destruct (process_row now row acc) as [acc' |] eqn:Hrow; simpl; [| done].
    intros Hps. rewrite (IH _ Hps).
    destruct (List.find (names k) (rev rest)); [done |].
    unfold process_row in Hrow. unfold names.
    destruct (taken row); simpl; [| by injection Hrow as <-].
    destruct (JS.get_own row "0") as [| | | | s | | |]; try done.
    destruct (String.eqb (toLowerCase s) "__proto__") eqn:Hp.
    + injection Hrow as <-. apply String.eqb_eq in Hp.
      assert (String.eqb (toLowerCase s) k = false) as ->; [| done].
      apply String.eqb_neq. congruence.
    + injection Hrow as <-.
      destruct (String.eqb (toLowerCase s) k) eqn:Hsk.
      * apply String.eqb_eq in Hsk. subst k. apply lookup_set_prop_eq.
      * apply String.eqb_neq in Hsk. by apply lookup_set_prop_ne.
Qed.

Lemma process_rows_no_proto now rows acc ps :
  JS.lookup_prop "__proto__" acc = None ->
  process_rows now rows acc = Ok ps ->
  JS.lookup_prop "__proto__" ps = None.
Proof.
  revert acc. induction rows as [| row rest IH]; intros acc Hacc; simpl.
  - by intros [= <-].
  - destruct (process_row now row acc) as [acc' |] eqn:Hrow; simpl; [| done].
    apply IH. unfold process_row in Hrow.
    destruct (taken row); [| by injection Hrow as <-].
    destruct (JS.get_own row "0") as [| | | | s | | |]; try done.
    destruct (String.eqb (toLowerCase s) "__proto__") eqn:Hp.
    + by injection Hrow as <-.
    + injection Hrow as <-. apply String.eqb_neq in Hp.
      by rewrite lookup_set_prop_ne.
Qed.

Lemma or_truthy a b : JS.truthy b = true -> JS.truthy (JS.or a b) = true.
Proof. intros Hb. unfold JS.or. by destruct (JS.truthy a) eqn:Ha. Qed.

Lemma row_entry_well_formed now row s :
  toLowerCase s = s -> well_formed (s, row_entry now row).
Proof.
  intros Hs. split; [done |]. simpl. split.
  - by apply or_truthy.
  - unfold JS.or. destruct (JS.truthy (JS.get_own row "1")) eqn:Ht; auto.
Qed.

Lemma process_rows_well_formed now rows acc ps :
  Forall well_formed acc ->
  process_rows now rows acc = Ok ps ->
  Forall well_formed ps.
Proof.
  revert acc. induction rows as [| row rest IH]; intros acc Hacc; simpl.
  - by intros [= <-].
  - destruct (process_row now row acc) as [acc' |] eqn:Hrow; simpl; [| done].
    apply IH. unfold process_row in Hrow.
    destruct (taken row); [| by injection Hrow as <-].
    destruct (JS.get_own row "0") as [| | | | s | | |]; try done.
    destruct (String.eqb (toLowerCase s) "__proto__").
    + by injection Hrow as <-.
    + injection Hrow as <-. apply Forall_forall. intros [k v] Hin.
      assert (Hcases : (k, v) ∈ acc \/ (k, v) = (toLowerCase s, row_entry now row)).
      { clear -Hin. induction acc as [| [k' v'] acc IHacc]; simpl in Hin.
        - apply list_elem_of_singleton in Hin. by right.
        - destruct (String.eqb k' (toLowerCase s)) eqn:Hk.
          + apply String.eqb_eq in Hk. subst k'.
            apply elem_of_cons in Hin as [-> | Hin]; [by right |].
            left. by right.
          + apply elem_of_cons in Hin as [-> | Hin]; [left; by left |].
            destruct (IHacc Hin) as [? | ?]; [left; by right | by right]. }
      destruct Hcases as [Hin' | [= -> ->]].
      * by apply (proj1 (Forall_forall _ _) Hacc).
      * apply row_entry_well_formed, toLowerCase_idem.
Qed.

End RowsLemmas.

(** X6: processSheetData never reads the first row, and of the rows after it
    the last one that has three cells or more and names a button, in any
    case of its letters, decides the entry of that button: its text, its
    destination and its date, with the defaults for the cells that are
    falsy. A name that no such row gives has no entry. *)
Theorem processSheetData_last_row_wins `{Platform} (now : Z)
    (header : value) (rows : list value) (result : value) (k : string) :
  k <> "__proto__" ->
  Rows.processSheetData now (Some (header :: rows)) = Ok result ->
  exists ps,
    result = VObj ps
    /\ JS.lookup_prop k ps
       = Rows.row_entry now <$> RowsView.last_named k rows.
Proof.
  intros Hk. unfold Rows.processSheetData.
  destruct rows as [| row rest].
  - intros [= <-]. exists []. split; reflexivity.
  - change (drop 1 (header :: row :: rest)) with (row :: rest).
    change (Nat.ltb (length (header :: row :: rest)) 2) with false.
    cbv iota.
    destruct (Rows.process_rows now (row :: rest) []) as [ps |] eqn:Hps;
      simpl; [| done].
    intros [= <-]. exists ps. split; [done |].
    rewrite (process_rows_lookup _ _ _ _ _ Hk Hps).
    by destruct (RowsView.last_named k (row :: rest)).
Qed.

Lemma processSheetData_last_row_wins_witness :
  exists ps,
    VObj [ ("primary",
            VObj [ ("text", VStr ""); ("url", VStr "https://example.com/b");
                   ("lastUpdated", VStr "2024-01-01T00:00:00.000Z") ]) ]
    = VObj ps
    /\ JS.lookup_prop "primary" ps
       = Rows.row_entry (H := Example.platform) Example.today
         <$> RowsView.last_named (H := Example.platform) "primary"
               [ VArr [VStr "primary"; VStr "A"; VStr "https://example.com/a"] [];
                 VArr [VStr "Primary"; VStr ""; VStr "https://example.com/b"] [];
                 VArr [VStr "PRIMARY"; VStr "C"] [] ].
Proof.
  apply (processSheetData_last_row_wins (H := Example.platform) Example.today
           (VArr [VStr "type"; VStr "text"; VStr "url"] [])).
  - discriminate.
  - reflexivity.
Defined.



(** X8: Every entry that processSheetData answers has a lower-case name, a
    destination that is truthy (the cell of the row, or "#") and a text
    that is truthy or the empty string; and no entry is named
    __proto__. *)
Theorem processSheetData_entries_well_formed `{Platform} (now : Z)
    (rows : option (list value)) (result : value) :
  Rows.processSheetData now rows = Ok result ->
  exists ps,
    result = VObj ps
    /\ Forall RowsView.well_formed ps
    /\ JS.lookup_prop "__proto__" ps = None.
Proof.
  unfold Rows.processSheetData.
  destruct rows as [items |]; [| intros [= <-]; by exists []].
  destruct (Nat.ltb (length items) 2); [intros [= <-]; by exists [] |].
  destruct (Rows.process_rows now (drop 1 items) []) as [ps |] eqn:Hps;
    simpl; [| done].
  intros [= <-]. exists ps. split; [done |]. split.
  - by apply (process_rows_well_formed now (drop 1 items) []).
  - by apply (process_rows_no_proto now (drop 1 items) []).
Qed.

Lemma processSheetData_entries_well_formed_witness :
  exists ps,
    VObj [ ("primary",
            VObj [ ("text", VStr "A"); ("url", VStr "#");
                   ("lastUpdated", VStr "2024-01-01T00:00:00.000Z") ]) ]
    = VObj ps
    /\ Forall RowsView.well_formed ps
    /\ JS.lookup_prop "__proto__" ps = None.
Proof.
  apply (processSheetData_entries_well_formed (H := Example.platform)
           Example.today
           (Some [ VArr [VStr "type"; VStr "text"; VStr "url"] [];
                   VArr [VStr "PRIMARY"; VStr "A"; VStr ""] [];
                   VArr [VStr "__proto__"; VStr "B"; VStr "x"] [] ])).
  reflexivity.
Defined.

(** ** What the synchronizers leave alone *)

Section SyncFrames.
Import Page Overlay.

Lemma cl_selected_without T C cl : cl_has T cl = false -> cl_selected T C cl = false.
Proof.
  intros Hcl. unfold cl_selected, cl_btn. rewrite Hcl.
  destruct (existsb _ C); [apply andb_false_r | done].
Qed.

Lemma first_index_Some {A} (p : A -> bool) l i :
  first_index p l = Some i ->
  (exists x, l !! i = Some x /\ p x = true)
  /\ (forall j y, (j < i)%nat -> l !! j = Some y -> p y = false).
Proof.
  revert i. induction l as [| x l IH]; intros i; simpl; [done |].
  destruct (p x) eqn:Hx.
  - intros [= <-]. split; [eauto |]. intros j y Hj. lia.
  - destruct (first_index p l) as [i' |]; simpl; [| done].
    intros [= <-]. destruct (IH i' eq_refl) as [Hat Hbefore].
    split; [exact Hat |].
    intros [| j] y Hj; simpl.
    + by intros [= <-].
    + apply Hbefore. lia.
Qed.

Lemma over_empty_r o : over o empty = o.
Proof. by destruct o as [[?|] [?|] [?|]]. Qed.

Lemma over_same o : over o o = o.
Proof. by destruct o as [[?|] [?|] [?|]]. Qed.

Lemma static_overlay_not_first buttons keys C i :
  (forall T, T ∈ keys -> first_index (cl_btn T) C <> Some i) ->
  static buttons keys C i = empty.
Proof.
  induction keys as [| T rest IH]; intros Hnot; simpl; [done |].
  assert (Hrest : static buttons rest C i = empty).
  { apply IH. intros T' HT'. apply Hnot. by right. }
  destruct (first_index (cl_btn T) C) as [j |] eqn:Hj; [| done].
  destruct (JS.get _ "url"); [| done].
  rewrite Hrest.
  assert (Nat.eqb j i = false) as ->; [| done].
  apply Nat.eqb_neq. intros ->. apply (Hnot T); [left | done].
Qed.

(** the writes on the first node of a name, when it is the first node
    of no other name *)
Lemma static_overlay_first buttons keys C i T :
  (forall T', T' ∈ keys ->
     exists u, JS.get (JS.get_own buttons T') "url" = Ok u) ->
  first_index (cl_btn T) C = Some i ->
  (forall T', T' ∈ keys -> T' <> T -> first_index (cl_btn T') C <> Some i) ->
  static buttons keys C i
  = if bool_decide (T ∈ keys) then of_config (JS.get_own buttons T) else empty.
Proof.
  intros Hget Hi. induction keys as [| T0 rest IH]; intros Hother; simpl; [done |].
  assert (Hrest : static buttons rest C i
                  = if bool_decide (T ∈ rest)
                    then of_config (JS.get_own buttons T) else empty).
  { apply IH.
    - intros T' HT'. apply Hget. by right.
    - intros T' HT'. apply Hother. by right. }
  destruct (decide (T0 = T)) as [-> | Hne].
  - rewrite Hi. destruct (Hget T) as [u ->]; [left |].
    rewrite Nat.eqb_refl. simpl. rewrite Hrest.
    rewrite (bool_decide_eq_true_2 (T ∈ T :: rest)) by left.
    destruct (bool_decide (T ∈ rest)); [apply over_same | done].
  - assert (bool_decide (T ∈ T0 :: rest) = bool_decide (T ∈ rest)) as ->.
    { apply bool_decide_ext. rewrite elem_of_cons.
      split; [intros [-> | HT]; [done | exact HT] | by right]. }
    destruct (first_index (cl_btn T0) C) as [j |] eqn:Hj; [| exact Hrest].
    destruct (Hget T0) as [u ->]; [left |].
    assert (Nat.eqb j i = false) as ->.
    { apply Nat.eqb_neq. intros ->. apply (Hother T0); [left | done | done]. }
    simpl. rewrite over_empty_r. exact Hrest.
Qed.

Lemma static_sync_buttons c props d :
  JS.get c "buttons" = Ok (VObj props) ->
  (Classes.static_sync c d).2 = doc_apply (static (VObj props) props.*1) d.
Proof.
  intros Hc. unfold Classes.static_sync. rewrite Hc. simpl.
  apply static_keys_overlay.
Qed.

Lemma static_sync_document c d :
  exists buttons keys,
    (Classes.static_sync c d).2 = doc_apply (static buttons keys) d.
Proof.
  unfold Classes.static_sync.
  destruct (JS.get c "buttons") as [buttons |].
  2: { exists VUndefined, []. simpl. by rewrite doc_apply_empty. }
  destruct (JS.Object_entries buttons) as [entries |].
  2: { exists VUndefined, []. simpl. by rewrite doc_apply_empty. }
  exists buttons, (map fst entries). apply static_keys_overlay.
Qed.

Lemma sheet_sync_document bs d :
  (Classes.sheet_sync bs d).2
  = doc_apply (if JS.truthy bs then sheet (JS.own_entries bs)
               else fun _ _ => empty) d.
Proof.
  unfold Classes.sheet_sync. destruct (JS.truthy bs); simpl.
  - apply sheet_entries_overlay.
  - by rewrite doc_apply_empty.
Qed.

End SyncFrames.

(** X9: The synchronizer of the hosted-API manager logs its run and
    writes on the page only: the snapshot, the configuration and the
    storage stay as they are. When the names of the snapshot are
    identifiers of CSS, a node that has the class of no button of the
    snapshot is left exactly as it is (on a page whose nodes do not
    contain one another). *)
Theorem sheet_updateButtons_frame `{Platform} (s : Sheet.state) :
  Sheet.buttons (Sheet.updateButtons s).2 = Sheet.buttons s
  /\ Sheet.config (Sheet.updateButtons s).2 = Sheet.config s
  /\ Sheet.localStorage (Sheet.updateButtons s).2 = Sheet.localStorage s
  /\ Sheet.log (Sheet.updateButtons s).2 = (Sheet.log s ++ [Net.Synchronized])%list
  /\ (View.identifiers (Sheet.buttons s) ->
      forall i e,
        Sheet.document s !! i = Some e ->
        (forall k, k ∈ Keys.names (Sheet.buttons s) -> Page.has_class k e = false) ->
        Sheet.document (Sheet.updateButtons s).2 !! i = Some e).
Proof.
  rewrite sheet_updateButtons_run. cbn [snd].
  repeat (split; [reflexivity |]).
  intros Hid i e Hi Hnone. cbn [Sheet.document Sheet.set_document].
  rewrite sheet_sync_classes by done.
  rewrite sheet_sync_document.
  rewrite (doc_apply_lookup _ _ _ _ Hi).
  destruct (JS.truthy (Sheet.buttons s)); [| by rewrite apply_empty].
  rewrite (sheet_overlay_unselected _ _ i (Page.classes e)).
  - by rewrite apply_empty.
  - by rewrite list_lookup_fmap, Hi.
  - intros k Hk. apply cl_selected_without. by apply Hnone.
Qed.

Lemma sheet_updateButtons_frame_witness :
  let footer := {| Page.classes := ["footer"]; Page.href := VStr "/about";
                   Page.textContent := VStr "About"; Page.title := VStr "" |} in
  let s := Sheet.constructed ∅ (Example.page ++ [footer]) in
  Sheet.document (Sheet.updateButtons (H := Example.platform) s).2 !! 3%nat
  = Some footer.
Proof.
  intros footer s.
  apply (proj2 (proj2 (proj2 (proj2
           (sheet_updateButtons_frame (H := Example.platform) s))))).
  - repeat constructor.
  - reflexivity.
  - intros k Hk. vm_compute in Hk.
    repeat (apply elem_of_cons in Hk as [-> | Hk]; [reflexivity |]).
    by apply elem_of_nil in Hk.
Defined.

(** X10: The synchronizer of script.js logs its run and writes on the
    page only, and keeps the configuration. When the names of the
    buttons of the configuration are identifiers of CSS it writes on
    first matches only: a node without the class btn, and a node that
    comes after a node with the same classes, are left exactly as they
    are (on a page whose nodes do not contain one another). *)
Theorem static_updateButtons_first_match_only `{Platform} (s : Static.state) :
  Static.config (Static.updateButtons s).2 = Static.config s
  /\ Static.log (Static.updateButtons s).2
     = (Static.log s ++ [Net.Synchronized])%list
  /\ (View.identifiers (JS.get_own (Static.config s) "buttons") ->
      forall i e,
        Static.document s !! i = Some e ->
        Page.has_class "btn" e = false
        \/ (exists j e', (j < i)%nat /\ Static.document s !! j = Some e'
                         /\ Page.classes e' = Page.classes e) ->
        Static.document (Static.updateButtons s).2 !! i = Some e).
Proof.
  rewrite static_updateButtons_run. cbn [snd].
  repeat (split; [reflexivity |]).
  intros Hid i e Hi Hcases. cbn [Static.document Static.set_document].
  rewrite static_sync_classes by done.
  destruct (static_sync_document (Static.config s) (Static.document s))
    as (buttons & keys & ->).
  rewrite (doc_apply_lookup _ _ _ _ Hi).
  rewrite static_overlay_not_first; [by rewrite apply_empty |].
  intros T _ Hfirst.
  apply first_index_Some in Hfirst as [(cl & Hcl & Hp) Hbefore].
  rewrite list_lookup_fmap, Hi in Hcl. injection Hcl as <-.
  destruct Hcases as [Hbtn | (j & e' & Hj & He' & Hsame)].
  - unfold Overlay.cl_btn in Hp.
    change (Overlay.cl_has "btn" (Page.classes e)) with (Page.has_class "btn" e) in Hp.
    by rewrite Hbtn in Hp.
  - rewrite (Hbefore j (Page.classes e) Hj) in Hp; [done |].
    by rewrite list_lookup_fmap, He', <- Hsame.
Qed.

Lemma static_updateButtons_first_match_only_witness :
  let second := {| Page.classes := ["btn"; "primary"]; Page.href := VStr "/old";
                   Page.textContent := VStr "Old"; Page.title := VStr "" |} in
  let s := {| Static.config := Example.static_config;
              Static.document := Example.page ++ [second];
              Static.log := [] |} in
  Static.document (Static.updateButtons (H := Example.platform) s).2 !! 3%nat
  = Some second.
Proof.
  intros second s.
  apply (proj2 (proj2 (static_updateButtons_first_match_only
                         (H := Example.platform) s))).
  - repeat constructor.
  - reflexivity.
  - right. exists 0%nat. eexists. split; [lia |]. split; reflexivity.
Defined.

(** ** script.js: loading and editing the configuration *)

Section StaticLoad.
Context `{Platform}.
Import Eff.

Lemma static_do_fetch_run w r (s : Static.state) :
  Static.do_fetch w r s
  = (match Static.fetch w r with
     | Net.Rejected => Throw NetworkError
     | Net.Response ok text => Ok (ok, text)
     end, Static.add_event (Net.Fetched r) s).
Proof. unfold Static.do_fetch. run. by destruct (Static.fetch w r). Qed.

Lemma static_loadConfig_run w (s : Static.state) :
  Static.loadConfig w s
  = (Ok tt,
     Static.set_config
       (StaticConfig.loaded (Static.fetch w (Net.GET Static.configPath)))
       (Static.add_event (Net.Fetched (Net.GET Static.configPath)) s)).
Proof.
  unfold Static.loadConfig, try_catch. unfold bind at 1.
  rewrite static_do_fetch_run. unfold StaticConfig.loaded.
  destruct (Static.fetch w (Net.GET Static.configPath)) as [| ok text];
    [reflexivity |].
  destruct ok; cbn [fst snd negb]; [| reflexivity].
  unfold bind, lift, JS.parse, modify.
  by destruct (JSON_parse text).
Qed.

Lemma first_match_index T d i :
  StaticConfig.first_match T d i ->
  Overlay.first_index (Overlay.cl_btn T) (map Page.classes d) = Some i.
Proof.
  revert i. induction d as [| e d IH]; intros i [(e0 & Hi & He0) Hbefore].
  - done.
  - simpl. change (Overlay.cl_btn T (Page.classes e)) with (Page.matches_btn T e).
    destruct i as [| i].
    + injection Hi as ->. by rewrite He0.
    + rewrite (Hbefore 0%nat e) by (lia || done).
      rewrite (IH i); [done |]. split; [by exists e0 |].
      intros j e' Hj He'. apply (Hbefore (S j)); [lia | done].
Qed.

Lemma index_first_match T d i :
  Overlay.first_index (Overlay.cl_btn T) (map Page.classes d) = Some i ->
  StaticConfig.first_match T d i.
Proof.
  intros Hfirst. apply first_index_Some in Hfirst as [(cl & Hcl & Hp) Hbefore].
  rewrite list_lookup_fmap in Hcl.
  destruct (d !! i) as [e |] eqn:Hi; [| done]. injection Hcl as <-.
  split; [by exists e |].
  intros j e' Hj He'. apply (Hbefore j (Page.classes e') Hj).
  by rewrite list_lookup_fmap, He'.
Qed.

(** the node that a run of the synchronizer of script.js writes for a
    name of the configuration *)
Lemma static_sync_first_match c props d T i e :
  JS.get c "buttons" = Ok (VObj props) ->
  Forall View.not_nullish props ->
  T ∈ props.*1 ->
  StaticConfig.first_match T d i ->
  d !! i = Some e ->
  (forall T', T' ∈ props.*1 -> T' <> T -> Page.has_class T' e = false) ->
  (Classes.static_sync c d).2 !! i
  = Some (Overlay.apply (Overlay.of_config (JS.get_own (VObj props) T)) e).
Proof.
  intros Hc Hall HT Hfirst Hi Hother.
  rewrite (static_sync_buttons c props d Hc).
  rewrite (doc_apply_lookup _ _ _ _ Hi). f_equal. f_equal.
  rewrite (static_overlay_first _ _ _ i T).
  - by rewrite bool_decide_eq_true_2.
  - intros T' HT'. simpl.
    destruct (JS.lookup_prop T' props) as [v |] eqn:Hl.
    2: { apply lookup_prop_None in Hl. done. }
    apply lookup_prop_Some_In in Hl.
    destruct (proj1 (Forall_forall _ _) Hall _ Hl) as [Hu Hn].
    simpl in *. rewrite get_ok by done. eauto.
  - by apply first_match_index.
  - intros T' HT' Hne Hfirst'.
    apply first_index_Some in Hfirst' as [(cl & Hcl & Hp) _].
    rewrite list_lookup_fmap, Hi in Hcl. injection Hcl as <-.
    unfold Overlay.cl_btn in Hp. apply andb_true_iff in Hp as [_ Hp].
    change (Overlay.cl_has T' (Page.classes e)) with (Page.has_class T' e) in Hp.
    by rewrite (Hother T' HT' Hne) in Hp.
Qed.

End StaticLoad.

(** X11: loadConfig of script.js never throws and sends one request, for
    ./config.json. It keeps what the file parses to when the answer is OK
    and its body is JSON, and the three default buttons in every other
    case: a rejected request, an answer that is not OK, a body that does
    not parse. Nothing else of the state changes. *)
Theorem static_loadConfig_falls_back `{Platform} (w : Static.world)
    (s : Static.state) :
  Static.loadConfig w s
  = (Ok tt,
     {| Static.config :=
          match Static.fetch w (Net.GET "./config.json") with
          | Net.Response true text =>
              default Static.DEFAULT_CONFIG (JSON_parse text)
          | _ => Static.DEFAULT_CONFIG
          end;
        Static.document := Static.document s;
        Static.log := (Static.log s ++ [Net.Fetched (Net.GET "./config.json")])%list |}).
Proof. apply static_loadConfig_run. Qed.



Section StaticEdit.
Context `{Platform}.

Lemma static_updateButtonConfig_run (s : Static.state) buttonType newConfig
    cprops props :
  Static.config s = VObj cprops ->
  JS.lookup_prop "buttons" cprops = Some (VObj props) ->
  StaticConfig.updateButtonConfig buttonType newConfig s
  = let old := JS.member (VObj props) buttonType in
    if JS.truthy old then
      match JS.assign_existing (VObj props) buttonType
              (VObj (JS.spread old newConfig)) with
      | Ok bs' =>
          Static.updateButtons
            (Static.set_config (VObj (JS.replace_prop "buttons" bs' cprops)) s)
      | Throw e => (Throw e, s)
      end
    else (Ok tt, s).
Proof.
  intros Hc Hb. unfold StaticConfig.updateButtonConfig.
  unfold Eff.bind at 1. unfold Eff.gets at 1. rewrite Hc.
  unfold Eff.bind at 1. unfold Eff.lift at 1. cbn [JS.get JS.get_own fst snd].
  rewrite Hb. cbn [from_option id].
  unfold Eff.bind at 1. unfold Eff.lift at 1. cbn [JS.get_dyn fst snd].
  cbv zeta.
  destruct (JS.truthy (JS.member (VObj props) buttonType)); [| reflexivity].
  unfold Eff.bind at 1. unfold Eff.lift at 1.
  destruct (JS.assign_existing _ _ _) as [bs' | e]; reflexivity.
Qed.

End StaticEdit.

(** X13: updateButtonConfig of script.js on a configuration whose buttons are
    an object. For a name under which the buttons have nothing truthy,
    neither as a property of their own nor through their prototype,
    nothing changes and the synchronizer is not run. For a button that
    they have as a property of their own, the properties of the new
    configuration replace those of the same name in the entry or are
    added to it, the other properties of the entry and the other buttons
    stay, and the synchronizer is run once. *)
Theorem static_updateButtonConfig_merges `{Platform} (s : Static.state)
    (buttonType : string) (newConfig : value)
    (cprops props : list (string * value)) :
  Static.config s = VObj cprops ->
  JS.lookup_prop "buttons" cprops = Some (VObj props) ->
  (JS.truthy (JS.member (VObj props) buttonType) = false ->
   StaticConfig.updateButtonConfig buttonType newConfig s = (Ok tt, s))
  /\ (forall old,
        JS.lookup_prop buttonType props = Some old ->
        JS.truthy old = true ->
        NoDup (JS.own_entries old).*1 ->
        NoDup (JS.own_entries newConfig).*1 ->
        Static.log (StaticConfig.updateButtonConfig buttonType newConfig s).2
        = (Static.log s ++ [Net.Synchronized])%list
        /\ exists props' merged,
             JS.get_own
               (Static.config
                  (StaticConfig.updateButtonConfig buttonType newConfig s).2)
               "buttons" = VObj props'
             /\ props'.*1 = props.*1
             /\ (forall T, T <> buttonType ->
                   JS.lookup_prop T props' = JS.lookup_prop T props)
             /\ JS.lookup_prop buttonType props' = Some (VObj merged)
             /\ (forall k,
                   JS.lookup_prop k merged
                   = match JS.lookup_prop k (JS.own_entries newConfig) with
                     | Some v => Some v
                     | None => JS.lookup_prop k (JS.own_entries old)
                     end)).
Proof.
  intros Hc Hb.
  rewrite (static_updateButtonConfig_run s buttonType newConfig cprops props Hc Hb).
  cbv zeta. split.
  - intros ->. reflexivity.
  - intros old Hold Ht Hndo Hndn.
    rewrite (member_own props buttonType old Hold), Ht.
    rewrite (assign_existing_own props buttonType old _ Hold).
    rewrite static_updateButtons_run. cbn [snd].
    split; [reflexivity |].
    exists (JS.set_prop buttonType (VObj (JS.spread old newConfig)) props),
           (JS.spread old newConfig).
    cbn [Static.config Static.set_document Static.add_event Static.set_config
         JS.get_own].
    rewrite lookup_replace_prop, String.eqb_refl, Hb.
    cbn [fmap option_fmap option_map from_option id].
    split; [reflexivity |].
    split; [apply set_prop_keys_present; by rewrite Hold |].
    split; [intros T HT; apply lookup_set_prop_ne; congruence |].
    split; [apply lookup_set_prop_eq |].
    intros k. unfold JS.spread.
    rewrite lookup_fold_set_prop by done.
    destruct (JS.lookup_prop k (JS.own_entries newConfig)); [done |].
    rewrite lookup_fold_set_prop by done.
    by destruct (JS.lookup_prop k (JS.own_entries old)).
Qed.

Lemma static_updateButtonConfig_merges_witness :
  let s := {| Static.config := Example.static_config;
              Static.document := Example.page; Static.log := [] |} in
  StaticConfig.updateButtonConfig (H := Example.platform)
    "tertiary" Example.url_patch s = (Ok tt, s)
  /\ Static.log (StaticConfig.updateButtonConfig (H := Example.platform)
                   "primary" Example.url_patch s).2
     = [Net.Synchronized].
Proof.
  intros s. split.
  - apply (proj1 (static_updateButtonConfig_merges (H := Example.platform)
                    s "tertiary" Example.url_patch _ _ eq_refl eq_refl)).
    reflexivity.
  - apply (proj2 (static_updateButtonConfig_merges (H := Example.platform)
                    s "primary" Example.url_patch _ _ eq_refl eq_refl)
             _ eq_refl eq_refl).
    + vm_compute. apply (bool_decide_unpack _). reflexivity.
    + vm_compute. apply (bool_decide_unpack _). reflexivity.
Defined.

(** ** The hosted-API manager: what it never sets and never sends *)

Section SheetConfigLemmas.
Context `{Platform}.
Import Eff Steps SheetConfig.

Lemma unset_refl s : unset s s.
Proof. by intros Hs. Qed.

Lemma unset_trans s1 s2 s3 : unset s1 s2 -> unset s2 s3 -> unset s1 s3.
Proof. unfold unset. auto. Qed.

Lemma unset_frame (s s' : Sheet.state) :
  Sheet.config s' = Sheet.config s -> unset s s'.
Proof. unfold unset. congruence. Qed.

Lemma unset_set_buttons b s : unset s (Sheet.set_buttons b s).
Proof. by apply unset_frame. Qed.

Lemma unset_set_document d s : unset s (Sheet.set_document d s).
Proof. by apply unset_frame. Qed.

Lemma unset_add_event e s : unset s (Sheet.add_event e s).
Proof. by apply unset_frame. Qed.

Lemma unset_setItem k v s : unset s (Sheet.setItem k v s).
Proof. by apply unset_frame. Qed.

Lemma updateButtons_unset : steps unset Sheet.updateButtons.
Proof. intros s. apply unset_frame. by rewrite sheet_updateButtons_run. Qed.

Lemma do_fetch_unset w r : steps unset (Sheet.do_fetch w r).
Proof. intros s. rewrite do_fetch_run. by apply unset_frame. Qed.

Lemma persist_unset w name patch : steps unset (Sheet.persist w name patch).
Proof.
  intros s. destruct (persist_only_fetches w name patch s) as (_ & Hc & _).
  by apply unset_frame.
Qed.

Lemma updateButtonConfig_undefined buttonType newConfig (s : Sheet.state) :
  Sheet.config s = VUndefined ->
  Sheet.updateButtonConfig buttonType newConfig s = (Throw TypeError, s).
Proof.
  intros Hs. unfold Sheet.updateButtonConfig.
  unfold bind at 1. unfold gets at 1. rewrite Hs. reflexivity.
Qed.

Lemma updateButtonConfig_unset buttonType newConfig :
  steps unset (Sheet.updateButtonConfig buttonType newConfig).
Proof.
  intros s Hs. by rewrite updateButtonConfig_undefined.
Qed.

#[local] Hint Resolve unset_set_buttons unset_set_document unset_add_event
  unset_setItem updateButtons_unset do_fetch_unset persist_unset
  updateButtonConfig_unset : steps.

Lemma run_unset w op :
  op <> Keys.StartPollingTick -> steps unset (Keys.run w op).
Proof.
  intros Hop.
  pose proof unset_refl as Hr. pose proof unset_trans as Ht.
  pose proof (loadConfig_buttons_steps unset Hr Ht unset_set_buttons) as Hl.
  destruct op; try done;
    unfold Keys.run, Sheet.poll_tick, Sheet.reload, Sheet.init,
      Sheet.init_button, Sheet.loadButtonData, Sheet.loadButtonData_button,
      Sheet.loadConfig, Sheet.loadFromLocalStorage, Sheet.updateButton,
      Sheet.save_buttons;
    steps_go.
Qed.

Lemma run_all_unset w ops s :
  Forall (fun op => op <> Keys.StartPollingTick) ops ->
  unset s (run_all w ops s).
Proof.
  intros Hops. revert s.
  induction Hops as [| op ops Hop Hops IH]; intros s; simpl.
  - apply unset_refl.
  - eapply unset_trans; [apply (run_unset w op Hop) | apply IH].
Qed.

Lemma api_only_refl s : api_only s s.
Proof. exists []. by rewrite app_nil_r. Qed.

Lemma api_only_trans s1 s2 s3 : api_only s1 s2 -> api_only s2 s3 -> api_only s1 s3.
Proof.
  intros (r1 & H1 & Ha1) (r2 & H2 & Ha2). exists (r1 ++ r2)%list.
  split; [by rewrite H2, H1, app_assoc | by apply Forall_app].
Qed.

Lemma api_only_frame (s s' : Sheet.state) :
  Sheet.log s' = Sheet.log s -> api_only s s'.
Proof. intros Hl. exists []. by rewrite Hl, app_nil_r. Qed.

Lemma api_only_set_buttons b s : api_only s (Sheet.set_buttons b s).
Proof. by apply api_only_frame. Qed.

Lemma api_only_setItem k v s : api_only s (Sheet.setItem k v s).
Proof. by apply api_only_frame. Qed.

Lemma updateButtons_api_only : steps api_only Sheet.updateButtons.
Proof.
  intros s. exists []. rewrite sheet_updateButtons_run. simpl.
  rewrite requests_app. simpl. done.
Qed.

Lemma do_fetch_api_only w r : api_call r -> steps api_only (Sheet.do_fetch w r).
Proof.
  intros Hr s. rewrite do_fetch_run. exists [r]. simpl.
  rewrite requests_app. simpl. split; [done | by constructor].
Qed.

Lemma do_fetch_get_api_only w :
  steps api_only (Sheet.do_fetch w (Net.GET Sheet.SHEETDB_API)).
Proof. apply do_fetch_api_only. split; [done | by left]. Qed.

Lemma do_fetch_post_api_only w body :
  steps api_only (Sheet.do_fetch w {| Net.method := "POST";
                                      Net.url := Sheet.SHEETDB_API;
                                      Net.body := body |}).
Proof. apply do_fetch_api_only. split; [done | by right]. Qed.

#[local] Hint Resolve api_only_set_buttons api_only_setItem
  updateButtons_api_only do_fetch_get_api_only do_fetch_post_api_only : steps.

Lemma updateButton_api_only w buttonType updates :
  steps api_only (Sheet.updateButton w buttonType updates).
Proof.
  pose proof api_only_refl as Hr. pose proof api_only_trans as Ht.
  unfold Sheet.updateButton, Sheet.persist, Sheet.url_of, Sheet.button_url,
    Sheet.save_buttons.
  steps_go.
Qed.

End SheetConfigLemmas.

(** X14: The hosted-API manager never sets its configuration: after the
    constructor and init, and after any calls of its methods other than
    startPolling (which nothing in the script calls), getConfig answers
    undefined and updateButtonConfig throws a TypeError, whatever its
    arguments, and leaves the state as it is. *)
Theorem sheet_config_stays_undefined `{Platform} (w : Sheet.world)
    (storage : gmap string string) (page : list Page.element)
    (ops : list Keys.operation) :
  Forall (fun op => op <> Keys.StartPollingTick) ops ->
  let s := SheetConfig.run_all w (Keys.Init :: ops)
             (Sheet.constructed storage page) in
  SheetConfig.getConfig s = (Ok VUndefined, s)
  /\ forall buttonType newConfig,
       Sheet.updateButtonConfig buttonType newConfig s = (Throw TypeError, s).
Proof.
  intros Hops s.
  assert (Hs : Sheet.config s = VUndefined).
  { apply (run_all_unset w (Keys.Init :: ops) (Sheet.constructed storage page));
      [| reflexivity].
    constructor; [discriminate | exact Hops]. }
  split.
  - unfold SheetConfig.getConfig, Eff.gets. by rewrite Hs.
  - intros buttonType newConfig. by apply updateButtonConfig_undefined.
Qed.

Lemma sheet_config_stays_undefined_witness :
  let s := SheetConfig.run_all (H := Example.platform) Worlds.unset_rows
             [ Keys.Init; Keys.Reload;
               Keys.UpdateButton "primary" Example.url_patch ]
             (Sheet.constructed ∅ Example.page) in
  SheetConfig.getConfig s = (Ok VUndefined, s)
  /\ forall buttonType newConfig,
       Sheet.updateButtonConfig (H := Example.platform) buttonType newConfig s
       = (Throw TypeError, s).
Proof.
  apply (sheet_config_stays_undefined (H := Example.platform) Worlds.unset_rows
           ∅ Example.page
           [ Keys.Reload; Keys.UpdateButton "primary" Example.url_patch ]).
  repeat constructor; discriminate.
Defined.

(** X15: updateButton sends requests to the address of the hosted API only,
    by GET or by POST: whatever the network answers, it sends no PATCH
    and no request to the address of a row. *)
Theorem updateButton_never_patches `{Platform} (w : Sheet.world)
    (buttonType : string) (updates : value) (s : Sheet.state) :
  exists reqs,
    Net.requests (Sheet.log (Sheet.updateButton w buttonType updates s).2)
    = (Net.requests (Sheet.log s) ++ reqs)%list
    /\ Forall (fun r => Net.url r = Sheet.SHEETDB_API
                        /\ (Net.method r = "GET" \/ Net.method r = "POST"))
              reqs.
Proof. apply updateButton_api_only. Qed.

(** ** The hosted-API manager: loading *)

Section LoadLemmas.
Context `{Platform}.
Import Eff Load.

Lemma lookup_prop_middle k b (pre rest : list (string * value)) :
  k ∉ pre.*1 -> JS.lookup_prop k (pre ++ (k, b) :: rest)%list = Some b.
Proof.
  induction pre as [| [k' v'] pre IH]; simpl; intros Hk.
  - by rewrite String.eqb_refl.
  - apply not_elem_of_cons in Hk as [Hne Hk].
    assert (String.eqb k' k = false) as -> by (apply String.eqb_neq; congruence).
    by apply IH.
Qed.

Lemma replace_prop_middle k b x (pre rest : list (string * value)) :
  k ∉ pre.*1 ->
  JS.replace_prop k x (pre ++ (k, b) :: rest)%list = (pre ++ (k, x) :: rest)%list.
Proof.
  induction pre as [| [k' v'] pre IH]; simpl; intros Hk.
  - by rewrite String.eqb_refl.
  - apply not_elem_of_cons in Hk as [Hne Hk].
    assert (String.eqb k' k = false) as -> by (apply String.eqb_neq; congruence).
    by rewrite IH.
Qed.

Lemma sheet_set_buttons_twice b1 b2 (s : Sheet.state) :
  Sheet.set_buttons b2 (Sheet.set_buttons b1 s) = Sheet.set_buttons b2 s.
Proof. reflexivity. Qed.

Lemma sheet_set_buttons_id (s : Sheet.state) b :
  Sheet.buttons s = b -> Sheet.set_buttons b s = s.
Proof. intros <-. by destruct s. Qed.

Lemma get_dyn_ok (v : value) k :
  v <> VUndefined -> v <> VNull -> JS.get_dyn v k = Ok (JS.member v k).
Proof. by destruct v. Qed.

(** the forEach of loadButtonData over the buttons still to read *)
Lemma loadButtonData_forEach row (todo pre : list (string * value))
    (s : Sheet.state) :
  row <> VUndefined -> row <> VNull ->
  Sheet.buttons s = VObj (pre ++ todo)%list ->
  NoDup ((pre ++ todo)%list).*1 ->
  Forall is_object todo ->
  for_each todo (fun '(buttonType, button) =>
                   Sheet.loadButtonData_button row buttonType button) s
  = (Ok tt,
     Sheet.set_buttons
       (VObj (pre ++ map (fun kv => (kv.1, with_url row kv.2)) todo)%list) s).
Proof.
  intros Hru Hrn. revert pre s.
  induction todo as [| [k b] rest IH]; intros pre s Hb Hnd Hall.
  - simpl. unfold ret. by rewrite sheet_set_buttons_id.
  - apply Forall_cons in Hall as [[ps Hps] Hall]. simpl in Hps. subst b.
    assert (Hk : k ∉ pre.*1).
    { rewrite fmap_app in Hnd. apply NoDup_app in Hnd as (_ & Hdisj & _).
      intros Hin. apply (Hdisj k Hin). simpl. left. }
    assert (Hnd' : NoDup (((pre ++ [(k, with_url row (VObj ps))]) ++ rest)%list).*1).
    { rewrite <- app_assoc. simpl.
      rewrite fmap_app in *. simpl in *. exact Hnd. }
    cbn [for_each]. unfold bind at 1.
    unfold Sheet.loadButtonData_button.
    unfold bind at 1. unfold lift at 1. cbn [JS.get fst snd].
    unfold bind at 1. unfold lift at 1. rewrite (get_dyn_ok row) by done.
    cbn [fst snd map]. unfold with_url at 1.
    destruct (negb (JS.is_undefined _) && negb (JS.strict_eq_str _ "")) eqn:Hcell.
    + unfold bind at 1. unfold gets at 1. rewrite Hb.
      unfold bind at 1. unfold lift at 1. cbn [JS.get_dyn fst snd].
      rewrite (member_own _ k (VObj ps)) by (by apply lookup_prop_middle).
      unfold bind at 1. unfold lift at 1. cbn [JS.assign_named fst snd].
      unfold modify. cbn [JS.replace_at].
      rewrite replace_prop_middle by done.
      rewrite (IH (pre ++ [(k, VObj (JS.set_prop "url"
                                       (JS.member row
                                          (JS.to_key (JS.get_own (VObj ps) "column")))
                                       ps))])%list).
      * rewrite sheet_set_buttons_twice, <- app_assoc. reflexivity.
      * cbn [Sheet.buttons Sheet.set_buttons]. by rewrite <- app_assoc.
      * unfold with_url in Hnd'. rewrite Hcell in Hnd'. exact Hnd'.
      * exact Hall.
    + unfold ret at 1.
      rewrite (IH (pre ++ [(k, VObj ps)])%list).
      * by rewrite <- app_assoc.
      * by rewrite <- app_assoc.
      * unfold with_url in Hnd'. rewrite Hcell in Hnd'. exact Hnd'.
      * exact Hall.
Qed.

Lemma with_row_not_nullish row props :
  Forall is_object props ->
  Forall View.not_nullish (map (fun kv => (kv.1, with_url row kv.2)) props).
Proof.
  intros Hall. apply Forall_fmap. eapply Forall_impl; [exact Hall |].
  intros [k b] [ps Hps]. simpl in *. subst b. unfold View.not_nullish, with_url.
  simpl. destruct (_ && _); split; discriminate.
Qed.

Lemma sheet_sync_no_throw props d :
  View.identifiers (VObj props) ->
  Forall View.not_nullish props -> (View.sheet_sync (VObj props) d).1 = Ok tt.
Proof.
  intros Hid Hall. unfold View.sheet_sync. simpl. by apply sheet_entries_no_throw.
Qed.

Lemma with_row_identifiers row props :
  View.identifiers (VObj props) -> View.identifiers (with_row row props).
Proof.
  unfold View.identifiers, with_row. cbn [JS.own_entries]. intros Hid.
  apply Forall_fmap. eapply Forall_impl; [exact Hid |]. by intros [k b].
Qed.

(** loadButtonData when the hosted API serves a row *)
Lemma loadButtonData_row_run w (s : Sheet.state) props text data :
  Sheet.buttons s = VObj props ->
  NoDup props.*1 ->
  Forall is_object props ->
  Sheet.fetch w (Net.GET (Sheet.SHEETDB_API ++ "?sheet=Sheet1"))
    = Net.Response true text ->
  JSON_parse text = Some data ->
  JS.truthy data && JS.gt_zero (JS.get_own data "length") = true ->
  JS.get_own data "0" <> VUndefined ->
  JS.get_own data "0" <> VNull ->
  Sheet.loadButtonData w s
  = let m := with_row (JS.get_own data "0") props in
    let s1 := Sheet.setItem "buttonData" (default "undefined" (JSON_stringify m))
                (Sheet.set_buttons m
                   (Sheet.add_event
                      (Net.Fetched (Net.GET (Sheet.SHEETDB_API ++ "?sheet=Sheet1")))
                      s)) in
    if Sheet.on_admin_page w then (Ok (VBool true), s1)
    else (Ok (VBool (completed (View.sheet_sync m (Sheet.document s)).1)),
          Sheet.set_document (View.sheet_sync m (Sheet.document s)).2
            (Sheet.add_event Net.Synchronized s1)).
Proof.
  intros Hb Hnd Hall Hf Hp Hdata Hru Hrn.
  unfold Sheet.loadButtonData, try_catch.
  unfold bind at 1. rewrite do_fetch_run, Hf. cbn [fst snd].
  unfold bind at 1. unfold bind at 1. unfold lift at 1. unfold JS.parse.
  rewrite Hp. cbn [fst snd]. rewrite Hdata.
  unfold bind at 1. unfold gets at 1. cbn [Sheet.buttons Sheet.add_event].
  rewrite Hb.
  unfold bind at 1. unfold lift at 1. cbn [JS.Object_entries JS.own_entries fst snd].
  unfold bind at 1.
  rewrite (loadButtonData_forEach (JS.get_own data "0") props []); try done.
  cbn [app]. fold (with_row (JS.get_own data "0") props).
  unfold Sheet.save_buttons. unfold bind at 1. unfold gets at 1.
  unfold modify at 1. cbn [Sheet.buttons Sheet.set_buttons].
  cbv zeta. destruct (Sheet.on_admin_page w).
  - reflexivity.
  - unfold bind at 1. rewrite sheet_updateButtons_run.
    cbn [Sheet.buttons Sheet.setItem Sheet.set_buttons Sheet.document
         Sheet.add_event fst snd].
    by destruct (View.sheet_sync _ _).1 as [[] | e].
Qed.

End LoadLemmas.



(** X17: loadButtonData, when the hosted API answers OK with a list whose
    first row is null or undefined, answers false as soon as the
    snapshot has a button: it has sent its request, and it changes
    neither the snapshot nor the cache nor the page. *)
Theorem loadButtonData_null_row `{Platform} (w : Sheet.world)
    (s : Sheet.state) (k : string) (b : value)
    (rest : list (string * value)) (text : string) (data : value) :
  Sheet.buttons s = VObj ((k, b) :: rest) ->
  Sheet.fetch w (Net.GET (Sheet.SHEETDB_API ++ "?sheet=Sheet1"))
    = Net.Response true text ->
  JSON_parse text = Some data ->
  JS.truthy data && JS.gt_zero (JS.get_own data "length") = true ->
  JS.get_own data "0" = VUndefined \/ JS.get_own data "0" = VNull ->
  Sheet.loadButtonData w s
  = (Ok (VBool false),
     Sheet.add_event
       (Net.Fetched (Net.GET (Sheet.SHEETDB_API ++ "?sheet=Sheet1"))) s).
Proof.
  intros Hb Hf Hp Hdata Hrow.
  unfold Sheet.loadButtonData, Eff.try_catch.
  unfold Eff.bind at 1. rewrite do_fetch_run, Hf. cbn [fst snd].
  unfold Eff.bind at 1. unfold Eff.bind at 1. unfold Eff.lift at 1.
  unfold JS.parse. rewrite Hp. cbn [fst snd]. rewrite Hdata.
  unfold Eff.bind at 1. unfold Eff.gets at 1.
  cbn [Sheet.buttons Sheet.add_event]. rewrite Hb.
  unfold Eff.bind at 1. unfold Eff.lift at 1.
  cbn [JS.Object_entries JS.own_entries fst snd Eff.for_each].
  unfold Eff.bind at 1. unfold Eff.bind at 1.
  unfold Sheet.loadButtonData_button.
  unfold Eff.bind at 1. unfold Eff.lift at 1.
  destruct (JS.get b "column") as [column |]; cbn [fst snd]; [| reflexivity].
  unfold Eff.bind at 1. unfold Eff.lift at 1.
  by destruct Hrow as [-> | ->].
Qed.

Lemma loadButtonData_null_row_witness :
  Sheet.loadButtonData (H := Load.defaults_platform) Load.null_rows
    (Sheet.constructed ∅ Example.page)
  = (Ok (VBool false),
     Sheet.add_event
       (Net.Fetched (Net.GET (Sheet.SHEETDB_API ++ "?sheet=Sheet1")))
       (Sheet.constructed ∅ Example.page)).
Proof.
  apply (loadButtonData_null_row (H := Load.defaults_platform) Load.null_rows
           (Sheet.constructed ∅ Example.page) "primary"
           (Example.button "Get Started" "#" "btn1")
           (tail (JS.own_entries Sheet.DEFAULT_BUTTONS))
           (Example.text_of Load.rows_null) Load.rows_null);
    [reflexivity | reflexivity | reflexivity | reflexivity | by right].
Defined.

(** ** The hosted-API manager: the cache *)

Section CacheLemmas.
Context `{Platform}.
Import Eff.

Lemma loadFromLocalStorage_run (s : Sheet.state) :
  Sheet.loadFromLocalStorage s
  = match Sheet.localStorage s !! "buttonData" with
    | Some sd =>
        if JS.truthy (VStr sd) then
          match JSON_parse sd with
          | Some c =>
              (Ok (VBool (match (View.sheet_sync c (Sheet.document s)).1 with
                          | Ok _ => true
                          | Throw _ => false
                          end)),
               Sheet.set_document (View.sheet_sync c (Sheet.document s)).2
                 (Sheet.add_event Net.Synchronized (Sheet.set_buttons c s)))
          | None => (Ok (VBool false), s)
          end
        else (Ok (VBool false), s)
    | None => (Ok (VBool false), s)
    end.
Proof.
  unfold Sheet.loadFromLocalStorage, try_catch.
  unfold bind at 1. unfold gets at 1.
  destruct (Sheet.localStorage s !! "buttonData") as [sd |]; [| reflexivity].
  destruct (JS.truthy (VStr sd)); [| reflexivity].
  unfold bind at 1. unfold lift at 1. unfold JS.parse.
  destruct (JSON_parse sd) as [c |]; [| reflexivity].
  cbn [fst snd]. unfold bind at 1. unfold modify at 1.
  unfold bind at 1. rewrite sheet_updateButtons_run.
  cbn [Sheet.buttons Sheet.set_buttons Sheet.document fst snd].
  by destruct (View.sheet_sync c (Sheet.document s)).1 as [[] | e].
Qed.

End CacheLemmas.

(** X18: loadFromLocalStorage never throws and answers a boolean. It answers
    false and changes nothing when the cache has no entry buttonData, an
    empty one, or one that is not JSON. When the entry parses, the parsed
    value replaces the snapshot whatever it is, the synchronizer is run,
    and the answer is true exactly when the synchronizer has not thrown.
    The storage is never written. *)
Theorem loadFromLocalStorage_answers `{Platform} (s : Sheet.state) :
  (exists b, (Sheet.loadFromLocalStorage s).1 = Ok (VBool b))
  /\ Sheet.localStorage (Sheet.loadFromLocalStorage s).2 = Sheet.localStorage s
  /\ ((Sheet.localStorage s !! "buttonData" = None
       \/ Sheet.localStorage s !! "buttonData" = Some ""
       \/ (exists sd, Sheet.localStorage s !! "buttonData" = Some sd
                      /\ JSON_parse sd = None)) ->
      Sheet.loadFromLocalStorage s = (Ok (VBool false), s))
  /\ (forall sd c,
        Sheet.localStorage s !! "buttonData" = Some sd ->
        sd <> "" ->
        JSON_parse sd = Some c ->
        Sheet.buttons (Sheet.loadFromLocalStorage s).2 = c
        /\ Sheet.log (Sheet.loadFromLocalStorage s).2
           = (Sheet.log s ++ [Net.Synchronized])%list
        /\ ((Sheet.loadFromLocalStorage s).1 = Ok (VBool true)
            <-> (View.sheet_sync c (Sheet.document s)).1 = Ok tt)).
Proof.
  rewrite loadFromLocalStorage_run.
  destruct (Sheet.localStorage s !! "buttonData") as [sd |] eqn:Hl.
  2: { split; [by exists false |]. split; [done |]. split; [done |]. done. }
  destruct (JS.truthy (VStr sd)) eqn:Ht.
  2: { apply truthy_str_empty in Ht. subst sd.
       split; [by exists false |]. split; [done |]. split; [done |].
       intros sd c [= <-] Hne. done. }
  destruct (JSON_parse sd) as [c |] eqn:Hp.
  2: { split; [by exists false |]. split; [done |]. split; [done |].
       intros sd' c [= <-] _ Hp'. congruence. }
  split; [eauto |]. split; [done |]. split.
  - intros [Hn | [He | (sd' & Hsd' & Hp')]]; [done | |].
    + injection He as ->. done.
    + injection Hsd' as <-. congruence.
  - intros sd' c' [= <-] _ Hp'. assert (c' = c) as -> by congruence.
    cbn [fst snd]. split; [done |]. split; [done |].
    destruct (View.sheet_sync c (Sheet.document s)).1 as [[] | e]; split; done.
Qed.

Lemma loadFromLocalStorage_answers_witness :
  let s := Sheet.constructed {[ "buttonData" := "not json" ]} Example.page in
  Sheet.loadFromLocalStorage (H := Example.platform) s = (Ok (VBool false), s).
Proof.
  intros s.
  apply (proj1 (proj2 (proj2
           (loadFromLocalStorage_answers (H := Example.platform) s)))).
  right. right. exists "not json". split; reflexivity.
Defined.



(** ** The hosted-API manager: the handlers that init installs *)

Section InitLemmas.
Context `{Platform}.
Import Eff Steps Page Load.

Lemma truthy_not_nullish v : JS.truthy v = true -> v <> VUndefined /\ v <> VNull.
Proof. destruct v; simpl; intros Ht; split; congruence. Qed.

Lemma get_own_not_own v k : JS.has_own v k = false -> JS.get_own v k = VUndefined.
Proof.
  destruct v as [| | | | s | items extra | ps | name [n |]];
    cbn [JS.has_own JS.get_own]; try done.
  - unfold JS.get_items. intros Ho.
    apply orb_false_iff in Ho as [-> Ho].
    apply bool_decide_eq_false in Ho.
    destruct (JS.index_of k _) as [i |]; [by destruct Ho | done].
  - unfold JS.get_items. intros Ho.
    apply orb_false_iff in Ho as [Ho Hx].
    apply orb_false_iff in Ho as [-> Ho].
    apply bool_decide_eq_false in Ho, Hx.
    destruct (JS.index_of k _) as [i |]; [by destruct Ho |].
    destruct (JS.lookup_prop k extra); [by destruct Hx | done].
  - intros Ho. apply bool_decide_eq_false in Ho.
    destruct (JS.lookup_prop k ps); [by destruct Ho | done].
  - by intros ->.
Qed.

(** a truthy own property is the one that a read answers *)
Lemma member_truthy_own v k :
  JS.truthy (JS.get_own v k) = true -> JS.member v k = JS.get_own v k.
Proof.
  intros Ht. unfold JS.member. destruct (JS.has_own v k) eqn:Ho; [done |].
  by rewrite (get_own_not_own v k Ho) in Ht.
Qed.

Lemma init_write_classes bs e : classes (init_write bs e) = classes e.
Proof.
  unfold init_write. destruct (has_class "btn" e); [| done].
  by destruct (JS.truthy _).
Qed.

(** the loop of init over the nodes still to visit *)
Lemma init_loop bs (rest pre : list element) (s : Sheet.state) :
  bs <> VUndefined -> bs <> VNull ->
  Sheet.buttons s = bs ->
  Sheet.document s = (pre ++ rest)%list ->
  for_each (imap (fun i e => ((length pre + i)%nat, e)) rest)
    (fun '(i, button) =>
       if has_class "btn" button then Sheet.init_button i button else ret tt) s
  = (Ok tt, Sheet.set_document (pre ++ map (init_write bs) rest)%list s).
Proof.
  intros Hu Hn. revert pre s.
  induction rest as [| e rest IH]; intros pre s Hb Hd.
  - simpl. unfold ret. rewrite <- Hd. by destruct s.
  - cbn [imap for_each map].
    assert (Hnext : forall e' (s' : Sheet.state),
              Sheet.buttons s' = bs ->
              Sheet.document s' = (pre ++ e' :: rest)%list ->
              for_each (imap ((fun i e0 => ((length pre + i)%nat, e0)) ∘ S) rest)
                (fun '(i, button) =>
                   if has_class "btn" button then Sheet.init_button i button
                   else ret tt) s'
              = (Ok tt,
                 Sheet.set_document
                   (pre ++ e' :: map (init_write bs) rest)%list s')).
    { intros e' s' Hb' Hd'.
      rewrite (imap_ext _ (fun i e0 => ((length (pre ++ [e']) + i)%nat, e0))).
      2: { intros i x _. simpl. rewrite length_app. simpl. f_equal. lia. }
      rewrite (IH (pre ++ [e'])%list s' Hb'); [| by rewrite <- app_assoc].
      by rewrite <- app_assoc. }
    unfold bind at 1. unfold init_write at 1.
    destruct (has_class "btn" e) eqn:Hbtn.
    2: { unfold ret at 1. by apply Hnext. }
    unfold Sheet.init_button at 1.
    unfold bind at 1. unfold gets at 1. rewrite Hb.
    unfold bind at 1. unfold lift at 1. rewrite (get_dyn_ok bs) by done.
    cbn [fst snd].
    destruct (JS.truthy (JS.member bs (JS.to_key (second_class e)))) eqn:Ht.
    2: { unfold ret at 1. by apply Hnext. }
    destruct (truthy_not_nullish _ Ht) as [Hbu Hbn].
    unfold bind at 1. unfold lift at 1. rewrite get_ok by done.
    unfold bind at 1. unfold lift at 1. rewrite get_ok by done.
    unfold bind at 1. unfold gets at 1. unfold modify. cbn [fst snd].
    rewrite Hd. rewrite Nat.add_0_r.
    replace (alter _ (length pre) (pre ++ e :: rest)%list)
      with (pre ++ set_textContent
                     (JS.get_own (JS.member bs (JS.to_key (second_class e))) "text")
                     (set_href
                        (JS.get_own (JS.member bs (JS.to_key (second_class e))) "url")
                        e) :: rest)%list.
    2: { rewrite <- (Nat.add_0_r (length pre)) at 1.
         by rewrite alter_app_r. }
    match goal with
    | |- context [Sheet.set_document (pre ++ ?x :: rest)%list s] =>
        rewrite (Hnext x (Sheet.set_document (pre ++ x :: rest)%list s))
    end; [by destruct s | done | done].
Qed.

Lemma loadButtonData_total w (s : Sheet.state) :
  exists v, (Sheet.loadButtonData w s).1 = Ok v.
Proof.
  unfold Sheet.loadButtonData, try_catch.
  match goal with
  | |- context [match ?c s with _ => _ end] => destruct (c s) as [[v | e] s1]
  end; simpl; eauto.
Qed.

Lemma loadFromLocalStorage_total (s : Sheet.state) :
  exists v, (Sheet.loadFromLocalStorage s).1 = Ok v.
Proof.
  unfold Sheet.loadFromLocalStorage, try_catch.
  match goal with
  | |- context [match ?c s with _ => _ end] => destruct (c s) as [[v | e] s1]
  end; simpl; eauto.
Qed.

(** the part of init before the loop never throws *)
Lemma init_load_total w (s : Sheet.state) :
  (try_catch
     (Sheet.loadButtonData w ;;
      if Sheet.on_admin_page w then ret tt else Sheet.updateButtons)
     (fun _ => Sheet.loadFromLocalStorage ;; ret tt) s).1 = Ok tt.
Proof.
  unfold try_catch. unfold bind at 1.
  destruct (loadButtonData_total w s) as [v Hv].
  destruct (Sheet.loadButtonData w s) as [[v' | e] s1]; simpl in Hv; [| done].
  destruct ((if Sheet.on_admin_page w then ret tt else Sheet.updateButtons) s1)
    as [[[] | e] s2]; [done |].
  unfold bind.
  destruct (loadFromLocalStorage_total s2) as [v2 Hv2].
  destruct (Sheet.loadFromLocalStorage s2) as [[v2' | e2] s3]; simpl in Hv2; done.
Qed.

Lemma init_run w (s : Sheet.state) :
  Sheet.on_admin_page w = false ->
  let s1 := (try_catch
               (Sheet.loadButtonData w ;;
                if Sheet.on_admin_page w then ret tt else Sheet.updateButtons)
               (fun _ => Sheet.loadFromLocalStorage ;; ret tt) s).2 in
  Sheet.buttons s1 <> VUndefined -> Sheet.buttons s1 <> VNull ->
  Sheet.init w s
  = (Ok tt,
     Sheet.set_document
       (map (init_write (Sheet.buttons s1)) (Sheet.document s1)) s1).
Proof.
  intros Hadmin s1 Hu Hn. unfold Sheet.init.
  unfold bind at 1. fold (Sheet.loadButtonData w).
  pose proof (init_load_total w s) as Hload. fold s1.
  destruct (try_catch _ _ s) as [[[] | e] s1'] eqn:Hfirst; simpl in Hload;
    [| done].
  subst s1. cbn [snd] in *.
  rewrite Hadmin.
  unfold bind at 1. unfold gets at 1.
  apply (init_loop (Sheet.buttons s1') (Sheet.document s1') [] s1'); done.
Qed.

Lemma init_buttons_kept w (s : Sheet.state) :
  Sheet.buttons (Sheet.init w s).2
  = Sheet.buttons
      (try_catch
         (Sheet.loadButtonData w ;;
          if Sheet.on_admin_page w then ret tt else Sheet.updateButtons)
         (fun _ => Sheet.loadFromLocalStorage ;; ret tt) s).2.
Proof.
  unfold Sheet.init. unfold bind at 1.
  destruct (try_catch _ _ s) as [[[] | e] s1]; [| done]. cbn [snd].
  assert (Hloop : steps (fun s s' : Sheet.state =>
                           Sheet.buttons s' = Sheet.buttons s)
            (if Sheet.on_admin_page w then ret tt
             else
               d <- gets Sheet.document ;;
               for_each (imap (fun i e => (i, e)) d) (fun '(i, button) =>
                 if has_class "btn" button then Sheet.init_button i button
                 else ret tt))).
  { assert (Hr : forall s0 : Sheet.state, Sheet.buttons s0 = Sheet.buttons s0)
      by done.
    assert (Ht : forall s0 s2 s3 : Sheet.state,
               Sheet.buttons s2 = Sheet.buttons s0 ->
               Sheet.buttons s3 = Sheet.buttons s2 ->
               Sheet.buttons s3 = Sheet.buttons s0) by (intros; congruence).
    unfold Sheet.init_button. steps_go. }
  apply (Hloop s1).
Qed.

End InitLemmas.



(** ** The hosted-API manager: loadConfig and the timer of startPolling *)

Section LoadConfigLemmas.
Context `{Platform}.
Import Eff Load.

Lemma alter_middle {A} (f : A -> A) (pre rest : list A) x :
  alter f (length pre) (pre ++ x :: rest)%list = (pre ++ f x :: rest)%list.
Proof.
  rewrite <- (Nat.add_0_r (length pre)). by rewrite alter_app_r.
Qed.

(** the forEach of loadConfig over the buttons still to read *)
Lemma loadConfig_buttons_run row (todo pre : list (string * value))
    (hasUpdates : bool) (s : Sheet.state) :
  row <> VUndefined -> row <> VNull ->
  Sheet.buttons s = VObj (pre ++ todo)%list ->
  Forall is_object todo ->
  Sheet.loadConfig_buttons row hasUpdates (length pre) todo s
  = (Ok (hasUpdates || existsb (has_cell row) todo),
     Sheet.set_buttons
       (VObj (pre ++ map (fun kv => (kv.1, with_cell row kv.2)) todo)%list) s).
Proof.
  intros Hru Hrn. revert pre hasUpdates s.
  induction todo as [| [k b] rest IH]; intros pre h s Hb Hall.
  - simpl. unfold ret. rewrite orb_false_r. by rewrite sheet_set_buttons_id.
  - apply Forall_cons in Hall as [[ps Hps] Hall]. simpl in Hps. subst b.
    cbn [Sheet.loadConfig_buttons]. unfold bind at 1.
    unfold Sheet.loadConfig_button.
    unfold bind at 1. unfold lift at 1. cbn [JS.get fst snd].
    unfold bind at 1. unfold lift at 1. rewrite (get_dyn_ok row) by done.
    cbn [fst snd map existsb].
    change (with_cell row (VObj ps))
      with (if has_cell row (k, VObj ps)
            then VObj (JS.set_prop "url"
                         (JS.member row
                            (JS.to_key (JS.get_own (VObj ps) "column"))) ps)
            else VObj ps).
    change (negb (JS.is_undefined
                    (JS.member row (JS.to_key (JS.get_own (VObj ps) "column")))))
      with (has_cell row (k, VObj ps)).
    destruct (has_cell row (k, VObj ps)) eqn:Hcell.
    + unfold bind at 1. unfold lift at 1. cbn [JS.assign_named fst snd].
      unfold bind at 1. unfold gets at 1. rewrite Hb.
      unfold bind at 1. unfold modify at 1. unfold ret at 1.
      cbn [JS.replace_entry fst snd]. unfold JS.replace_nth.
      rewrite alter_middle. cbn [fst snd].
      replace (S (length pre))
        with (length (pre ++ [(k, VObj (JS.set_prop "url"
                 (JS.member row (JS.to_key (JS.get_own (VObj ps) "column")))
                 ps))])%list)
        by (rewrite length_app; simpl; lia).
      rewrite IH.
      * rewrite sheet_set_buttons_twice, <- app_assoc, orb_true_r. reflexivity.
      * cbn [Sheet.buttons Sheet.set_buttons]. by rewrite <- app_assoc.
      * exact Hall.
    + unfold ret at 1.
      replace (S (length pre)) with (length (pre ++ [(k, VObj ps)])%list)
        by (rewrite length_app; simpl; lia).
      rewrite IH.
      * by rewrite <- app_assoc.
      * by rewrite <- app_assoc.
      * exact Hall.
Qed.

Lemma with_cells_none row props :
  existsb (has_cell row) props = false ->
  map (fun kv => (kv.1, with_cell row kv.2)) props = props.
Proof.
  induction props as [| [k b] rest IH]; simpl; [done |].
  intros Hex. apply orb_false_iff in Hex as [Hb Hrest].
  rewrite IH by done. unfold with_cell. unfold has_cell in *. simpl in *.
  by rewrite Hb.
Qed.

Lemma loadConfig_row_run w (s : Sheet.state) props text data :
  Sheet.buttons s = VObj props ->
  Forall is_object props ->
  Sheet.fetch w (Net.GET Sheet.SHEETDB_API) = Net.Response true text ->
  JSON_parse text = Some data ->
  JS.truthy data && JS.gt_zero (JS.get_own data "length") = true ->
  JS.get_own data "0" <> VUndefined ->
  JS.get_own data "0" <> VNull ->
  Sheet.loadConfig w s
  = if existsb (has_cell (JS.get_own data "0")) props then
      (Ok (VBool true),
       Sheet.setItem "buttonData"
         (default "undefined"
            (JSON_stringify (with_cells (JS.get_own data "0") props)))
         (Sheet.set_buttons (with_cells (JS.get_own data "0") props)
            (Sheet.add_event (Net.Fetched (Net.GET Sheet.SHEETDB_API)) s)))
    else
      (Ok (VBool false),
       Sheet.add_event (Net.Fetched (Net.GET Sheet.SHEETDB_API)) s).
Proof.
  intros Hb Hall Hf Hp Hdata Hru Hrn.
  unfold Sheet.loadConfig, try_catch.
  unfold bind at 1. rewrite do_fetch_run, Hf. cbn [fst snd negb].
  unfold bind at 1. unfold lift at 1. unfold JS.parse.
  rewrite Hp. cbn [fst snd]. rewrite Hdata.
  unfold bind at 1. unfold gets at 1. cbn [Sheet.buttons Sheet.add_event].
  rewrite Hb.
  unfold bind at 1. unfold lift at 1. cbn [JS.Object_entries JS.own_entries fst snd].
  unfold bind at 1.
  rewrite (loadConfig_buttons_run (JS.get_own data "0") props [] false); try done.
  cbn [app orb]. fold (with_cells (JS.get_own data "0") props).
  destruct (existsb (has_cell (JS.get_own data "0")) props) eqn:Hex.
  - reflexivity.
  - unfold ret. f_equal. unfold with_cells. rewrite with_cells_none by done.
    apply sheet_set_buttons_id. exact Hb.
Qed.

End LoadConfigLemmas.



(** X22: A tick of the timer of startPolling never changes the snapshot or
    the storage, whatever config.json holds: the configuration it
    fetches is kept aside, and the page after the tick is the page
    before it or the page that the synchronizer makes of the snapshot
    the manager already had. *)
Theorem startPolling_tick_keeps_snapshot `{Platform} (w : Sheet.world)
    (s : Sheet.state) :
  Sheet.buttons (Sheet.startPolling_tick w s).2 = Sheet.buttons s
  /\ Sheet.localStorage (Sheet.startPolling_tick w s).2 = Sheet.localStorage s
  /\ (Sheet.document (Sheet.startPolling_tick w s).2 = Sheet.document s
      \/ Sheet.document (Sheet.startPolling_tick w s).2
         = Sheet.document (Sheet.updateButtons s).2).
Proof.
  destruct (Sheet.fetch w (Poll.sheet_request w)) as [| ok text] eqn:Ha.
  { rewrite sheet_startPolling_tick_same; [by auto |].
    intros text c'. rewrite Ha. discriminate. }
  destruct ok.
  2: { rewrite sheet_startPolling_tick_same; [by auto |].
       intros text' c'. rewrite Ha. discriminate. }
  destruct (JSON_parse text) as [c' |] eqn:Hp.
  2: { rewrite sheet_startPolling_tick_same; [by auto |].
       intros text' c'. rewrite Ha. intros [= <-]. congruence. }
  destruct (decide (JSON_stringify c' = JSON_stringify (Sheet.config s)))
    as [Heq | Hne].
  - rewrite sheet_startPolling_tick_same; [by auto |].
    intros text' c''. rewrite Ha. intros [= <-]. congruence.
  - rewrite (sheet_startPolling_tick_differs w s c').
    2: { exists text. done. }
    rewrite sheet_updateButtons_run. cbn. auto.
Qed.

(** ** Loading twice *)

Section Repeated.
Context `{Platform}.
Import Eff Load.

Lemma set_prop_twice k x ps : JS.set_prop k x (JS.set_prop k x ps) = JS.set_prop k x ps.
Proof.
  induction ps as [| [k' v'] ps IH]; simpl.
  - by rewrite String.eqb_refl.
  - destruct (String.eqb k' k) eqn:Hk; simpl; rewrite Hk; [done | by rewrite IH].
Qed.

Lemma with_url_idem row b : with_url row (with_url row b) = with_url row b.
Proof.
  unfold with_url at 2.
  destruct (negb _ && negb _) eqn:Hcell; [| unfold with_url; by rewrite Hcell].
  destruct b as [| | | | | |ps |]; try (unfold with_url; by rewrite Hcell).
  unfold with_url. cbn [JS.get_own] in *.
  rewrite lookup_set_prop_ne by done. rewrite Hcell.
  by rewrite set_prop_twice.
Qed.

Lemma with_row_idem row props :
  map (fun kv : string * value => (kv.1, with_url row kv.2))
      (map (fun kv : string * value => (kv.1, with_url row kv.2)) props)
  = map (fun kv : string * value => (kv.1, with_url row kv.2)) props.
Proof.
  rewrite map_map. apply map_ext. intros [k b]. simpl. by rewrite with_url_idem.
Qed.

Lemma with_row_names row props :
  (map (fun kv : string * value => (kv.1, with_url row kv.2)) props).*1 = props.*1.
Proof.
  induction props as [| [k b] rest IH]; simpl; [done | by f_equal].
Qed.

Lemma with_row_objects row props :
  Forall is_object props ->
  Forall is_object (map (fun kv => (kv.1, with_url row kv.2)) props).
Proof.
  intros Hall. apply Forall_fmap. eapply Forall_impl; [exact Hall |].
  intros [k b] [ps Hps]. simpl in *. subst b. unfold is_object, with_url. simpl.
  destruct (_ && _); eauto.
Qed.

Lemma static_reload_state w (s : Static.state) :
  (Static.reload w s).2
  = Static.set_document
      (View.static_sync
         (StaticConfig.loaded (Static.fetch w (Net.GET Static.configPath)))
         (Static.document s)).2
      (Static.add_event Net.Synchronized
         (Static.set_config
            (StaticConfig.loaded (Static.fetch w (Net.GET Static.configPath)))
            (Static.add_event (Net.Fetched (Net.GET Static.configPath)) s))).
Proof.
  unfold Static.reload. unfold bind. rewrite static_loadConfig_run.
  by rewrite static_updateButtons_run.
Qed.

End Repeated.

(** X23: reload of script.js is idempotent as long as the network gives
    the same answer and the button names of the configuration that it
    loads are identifiers of CSS: a second reload ends with the
    configuration and the page of the first (on a page whose nodes do
    not contain one another). The configuration is that of the first
    reload whatever the names are. *)
Theorem static_reload_idempotent `{Platform} (w : Static.world)
    (s : Static.state) :
  Static.config (Static.reload w (Static.reload w s).2).2
    = Static.config (Static.reload w s).2
  /\ (View.identifiers
        (JS.get_own
           (StaticConfig.loaded (Static.fetch w (Net.GET Static.configPath)))
           "buttons") ->
      Static.document (Static.reload w (Static.reload w s).2).2
      = Static.document (Static.reload w s).2).
Proof.
  rewrite !static_reload_state.
  cbn [Static.config Static.document Static.set_document Static.add_event
       Static.set_config].
  split; [reflexivity |]. intros Hid.
  rewrite !static_sync_classes by done.
  destruct (static_sync_overlay
              (StaticConfig.loaded (Static.fetch w (Net.GET Static.configPath))))
    as [G HG].
  rewrite !HG. apply doc_apply_idem.
Qed.

Lemma static_reload_idempotent_witness :
  let w := {| Static.fetch := fun _ => Net.Rejected;
              Static.now := Example.today |} in
  let s := {| Static.config := VUndefined; Static.document := Example.page;
              Static.log := [] |} in
  Static.document
    (Static.reload (H := Example.platform) w
       (Static.reload (H := Example.platform) w s).2).2
  = Static.document (Static.reload (H := Example.platform) w s).2.
Proof.
  intros w s.
  apply (proj2 (static_reload_idempotent (H := Example.platform) w s)).
  repeat constructor.
Defined.


